(** * apgo-scraper: a shallow embedding of [scraper.py] and its properties

    The development follows the layers of the program:
    - Python's string primitives used by the scraper ([str.split], indexing,
      the [in] test, [str.format] of an integer);
    - the fragment extractor ([scrape_item_between] and its best-effort
      wrapper [safe_scrape_item_between]);
    - the section locator and the field parsers;
    - the page fetch, the record assembler and the driver loop, which run in
      a small state-and-exception monad over the request log and the console.

    Strings are sequences of characters ([String.string]); encoding issues of
    Python 2 byte/unicode strings are outside the model.  *)

From Stdlib Require Import ZArith List Bool Arith Lia.
From Stdlib Require Import Strings.String Strings.Ascii Numbers.DecimalString.
From Stdlib Require Numbers.DecimalPos Numbers.DecimalZ.
Import ListNotations.

Open Scope string_scope.
Open Scope Z_scope.

(** ** Exceptions and results *)

(** The exceptions of [requests] that matter to the program.
    [ConnectionError] stands for [requests.ConnectionError] and its
    subclasses (a connect timeout is one of them), [ReadTimeout] for
    [requests.exceptions.ReadTimeout], and [OtherRequestException] for the
    exceptions of [requests] that the program names nowhere. *)
Inductive requests_exn : Type :=
| ConnectionError
| ReadTimeout
| OtherRequestException.

Inductive exn : Type :=
| AuthError
| ScrapingError (msg : string)
| IndexError
| ValueError
| Requests (e : requests_exn).

Inductive result (A : Type) : Type :=
| Ok (a : A)
| Raise (e : exn).

Arguments Ok {A} a.
Arguments Raise {A} e.

Definition bind {A B : Type} (m : result A) (k : A -> result B) : result B :=
  match m with
  | Ok a => k a
  | Raise e => Raise e
  end.

Declare Scope py_scope.
Delimit Scope py_scope with py.
Notation "x <- m ;; k" := (bind m (fun x => k))
  (at level 61, m at next level, right associativity) : py_scope.
Open Scope py_scope.

Definition raises {A : Type} (m : result A) : Prop :=
  exists e, m = Raise e.

(** ** Python string primitives *)

Module Py.

(** [push c l] puts the character [c] in front of the first piece of [l]. *)
Definition push (c : ascii) (l : list string) : list string :=
  match l with
  | [] => [String c ""]
  | p :: ps => String c p :: ps
  end.

(** The scan of [str.split(sep)] for a non-empty [sep]: left to right, a
    match of [sep] closes the current piece and the scan resumes right after
    the match ([skip] counts the characters of the match still to pass). *)
Fixpoint split_go (sep : string) (skip : nat) (s : string) {struct s}
  : list string :=
  match s with
  | "" => [""]
  | String c s' =>
      match skip with
      | S k => split_go sep k s'
      | O =>
          if prefix sep s
          then "" :: split_go sep (String.length sep - 1) s'
          else push c (split_go sep 0 s')
      end
  end.

(** [s.split(sep)]: an empty separator is a [ValueError]. *)
Definition split (s sep : string) : result (list string) :=
  match sep with
  | "" => Raise ValueError
  | _ => Ok (split_go sep 0 s)
  end.

(** [l[i]] for a Python list: a negative index counts from the end, an index
    outside [-len(l) .. len(l)-1] is an [IndexError]. *)
Definition index {A : Type} (l : list A) (i : Z) : result A :=
  let n := Z.of_nat (List.length l) in
  let j := if i <? 0 then n + i else i in
  if (0 <=? j) && (j <? n)
  then match nth_error l (Z.to_nat j) with
       | Some a => Ok a
       | None => Raise IndexError
       end
  else Raise IndexError.

(** [sub in s] for strings. *)
Fixpoint contains (sub s : string) {struct s} : bool :=
  prefix sub s ||
  match s with
  | "" => false
  | String _ s' => contains sub s'
  end.

(** [str(n)] / ['{}'.format(n)] for an integer. *)
Definition str (n : Z) : string := NilZero.string_of_int (Z.to_int n).

End Py.

(** ** Fragment extractor *)

Definition dquote : string := String "034"%char "".

(** ['Failed to scrape item between "{}" and "{}"'.format(before, after)] *)
Definition scrape_item_msg (before after : string) : string :=
  "Failed to scrape item between " ++ dquote ++ before ++ dquote
  ++ " and " ++ dquote ++ after ++ dquote.

Definition scrape_item_between (source before after : string) (instance : Z)
  : result string :=
  let body :=
    pieces <- Py.split source before ;;
    segment <- Py.index pieces instance ;;
    parts <- Py.split segment after ;;
    Py.index parts 0 in
  match body with
  | Raise IndexError => Raise (ScrapingError (scrape_item_msg before after))
  | r => r
  end.

Definition safe_scrape_item_between (source before after : string)
  (instance : Z) : result string :=
  match scrape_item_between source before after instance with
  | Raise (ScrapingError _) => Ok ""
  | r => r
  end.

(** ** Section locator and field parsers *)

Definition section_marker (section_number : Z) : string :=
  Py.str section_number ++ ".&nbsp;".

Definition scrape_section (source : string) (section_number : Z)
  : result string :=
  let before := section_marker section_number in
  let after := section_marker (section_number + 1) in
  scrape_item_between source before after 1.

(** The two delimiters of a bolded value, [<span class="bold">] and
    [</span>]. *)
Definition span_bold : string :=
  "<span class=" ++ dquote ++ "bold" ++ dquote ++ ">".

Definition span_close : string := "</span>".

Definition scrape_name (source : string) : result string :=
  let before := "Program Name:&nbsp;" ++ span_bold in
  let after := span_close in
  safe_scrape_item_between source before after 1.

Definition scrape_state (source : string) : result string :=
  let before := "&nbsp;State/Providence:&nbsp;" ++ span_bold in
  let after := span_close in
  safe_scrape_item_between source before after 1.

Definition scrape_city (source : string) : result string :=
  let before := "City:&nbsp;" ++ span_bold in
  let after := span_close in
  safe_scrape_item_between source before after 1.

Definition scrape_salary (source : string) : result (list string) :=
  section <- scrape_section source 10 ;;
  let before := span_bold in
  let after := span_close in
  v1 <- safe_scrape_item_between section before after 1 ;;
  v2 <- safe_scrape_item_between section before after 3 ;;
  v3 <- safe_scrape_item_between section before after 5 ;;
  v4 <- safe_scrape_item_between section before after 7 ;;
  Ok [v1; v2; v3; v4].

Definition scrape_pto (source : string) : result (list string) :=
  section <- scrape_section source 10 ;;
  let before := span_bold in
  let after := span_close in
  v1 <- safe_scrape_item_between section before after 2 ;;
  v2 <- safe_scrape_item_between section before after 4 ;;
  v3 <- safe_scrape_item_between section before after 6 ;;
  v4 <- safe_scrape_item_between section before after 8 ;;
  Ok [v1; v2; v3; v4].

Definition scrape_avg_step_score (source : string) : result (list string) :=
  section <- scrape_section source 19 ;;
  let before := span_bold in
  let after := span_close in
  v1 <- safe_scrape_item_between section before after 1 ;;
  v2 <- safe_scrape_item_between section before after 2 ;;
  Ok [v1; v2].

Definition scrape_min_step_score (source : string) : result (list string) :=
  section <- scrape_section source 27 ;;
  let before := span_bold in
  let after := span_close in
  v1 <- safe_scrape_item_between section before after 2 ;;
  v2 <- safe_scrape_item_between section before after 3 ;;
  Ok [v1; v2].

Record ResidentDemographics : Type := {
  total : string;
  male : string;
  female : string
}.

Definition scrape_resident_demographics (source : string)
  : result ResidentDemographics :=
  section <- scrape_section source 17 ;;
  let before := span_bold in
  let after := span_close in
  total_ <- safe_scrape_item_between section before after 1 ;;
  female_ <- safe_scrape_item_between section before after 3 ;;
  male_ <- safe_scrape_item_between section before after 4 ;;
  Ok {| total := total_; female := female_; male := male_ |}.

Definition scrape_last_updated (source : string) : result string :=
  let before := "Last Updated: " ++ span_bold in
  let after := "<" in
  safe_scrape_item_between source before after 1.

Record ResidencyInfo : Type := {
  name : string;
  state : string;
  city : string;
  salary : list string;
  pto : list string;
  min_step_scores : list string;
  avg_step_scores : list string;
  resident_demographics : ResidentDemographics;
  last_updated : string
}.

(** The parsers of one fetched page, in the order in which the keyword
    arguments of [ResidencyInfo(...)] are evaluated. *)
Definition parse_residency_info (page_source : string)
  : result ResidencyInfo :=
  name_ <- scrape_name page_source ;;
  state_ <- scrape_state page_source ;;
  city_ <- scrape_city page_source ;;
  salary_ <- scrape_salary page_source ;;
  pto_ <- scrape_pto page_source ;;
  min_step_scores_ <- scrape_min_step_score page_source ;;
  avg_step_scores_ <- scrape_avg_step_score page_source ;;
  resident_demographics_ <- scrape_resident_demographics page_source ;;
  last_updated_ <- scrape_last_updated page_source ;;
  Ok {| name := name_;
        state := state_;
        city := city_;
        salary := salary_;
        pto := pto_;
        min_step_scores := min_step_scores_;
        avg_step_scores := avg_step_scores_;
        resident_demographics := resident_demographics_;
        last_updated := last_updated_ |}.

(** ** Page fetch, record assembler and driver *)

Record Response : Type := {
  status_code : Z;
  text : string
}.

(** What the program does to the outside: the URLs it requested and what it
    printed, both in order. *)
Record world : Type := {
  requested : list string;
  stdout : string
}.

Definition io (A : Type) : Type := world -> result A * world.

Module IO.

Definition ret {A : Type} (a : A) : io A := fun w => (Ok a, w).

Definition raise {A : Type} (e : exn) : io A := fun w => (Raise e, w).

Definition lift {A : Type} (r : result A) : io A := fun w => (r, w).

Definition bind {A B : Type} (m : io A) (k : A -> io B) : io B :=
  fun w =>
    match m w with
    | (Ok a, w') => k a w'
    | (Raise e, w') => (Raise e, w')
    end.

(** [try: m  except ...: h]: the handler [h] picks the exceptions it
    catches; the others pass. *)
Definition try {A : Type} (m : io A) (h : exn -> option (io A)) : io A :=
  fun w =>
    match m w with
    | (Ok a, w') => (Ok a, w')
    | (Raise e, w') =>
        match h e with
        | Some handler => handler w'
        | None => (Raise e, w')
        end
    end.

(** [print(s, end=e)] *)
Definition print (s e : string) : io unit :=
  fun w => (Ok tt, {| requested := requested w;
                      stdout := stdout w ++ s ++ e |}).

End IO.

Declare Scope io_scope.
Delimit Scope io_scope with io.
Notation "x <- m ;; k" := (IO.bind m (fun x => k))
  (at level 61, m at next level, right associativity) : io_scope.
Notation "m ;; k" := (IO.bind m (fun _ => k))
  (at level 61, right associativity) : io_scope.

Definition newline : string := String "010"%char "".
Definition tab : string := String "009"%char "".

Definition OK : Z := 200.
Definition LAST_ID : Z := 287.

(** [range(lo, hi)] *)
Definition range (lo hi : Z) : list Z :=
  map (fun i => lo + Z.of_nat i) (seq 0 (Z.to_nat (hi - lo))).

Section Network.

(** The web as the program sees it: what [requests.get(url, timeout=30)]
    gives for each URL, a response or an exception of [requests]. *)
Variable requests_get : string -> Response + requests_exn.

Definition get (url : string) : io Response :=
  fun w =>
    let w' := {| requested := (requested w ++ [url])%list; stdout := stdout w |} in
    match requests_get url with
    | inl resp => (Ok resp, w')
    | inr e => (Raise (Requests e), w')
    end.

Definition page_url (id_ : Z) : string :=
  "https://www.apgo.org/component/residencydirectory/id/" ++ Py.str id_.

Definition scrape_page (id_ : Z) : io string :=
  (let url := page_url id_ in
   resp <- IO.try (get url)
             (fun e => match e with
                       | Requests ConnectionError =>
                           Some (IO.raise (ScrapingError "ConnectionError"))
                       | _ => None
                       end) ;;
   if negb (status_code resp =? OK)
   then IO.raise (ScrapingError ("Failed to get page. Status code "
                                 ++ Py.str (status_code resp)))
   else if Py.contains "Not Authorized" (text resp)
   then IO.raise AuthError
   else IO.ret (text resp))%io.

Definition get_residency_info (id_ : Z) : io ResidencyInfo :=
  (page_source <- scrape_page id_ ;;
   IO.lift (parse_residency_info page_source))%io.

(** One turn of the loop of [scrape] on the list built so far. *)
Definition scrape_step (all_residency_info : list ResidencyInfo) (id_ : Z)
  : io (list ResidencyInfo) :=
  (IO.print ("Scraping id " ++ Py.str id_ ++ "..." ++ tab) "" ;;
   IO.try
     (residency_info <- get_residency_info id_ ;;
      IO.print "SUCCESS" newline ;;
      IO.ret (all_residency_info ++ [residency_info])%list)
     (fun e => match e with
               | AuthError | Requests ReadTimeout =>
                   Some (IO.print "SKIP" newline ;;
                         IO.ret all_residency_info)
               | ScrapingError _ =>
                   Some (IO.print "FAIL" newline ;;
                         IO.ret all_residency_info)
               | _ => None
               end))%io.

Fixpoint scrape_loop (ids : list Z) (all_residency_info : list ResidencyInfo)
  : io (list ResidencyInfo) :=
  match ids with
  | [] => IO.ret all_residency_info
  | id_ :: ids' =>
      (all' <- scrape_step all_residency_info id_ ;;
       scrape_loop ids' all')%io
  end.

Definition scrape : io (list ResidencyInfo) :=
  (IO.print "Starting Scraper..." newline ;;
   all_residency_info <- scrape_loop (range 1 LAST_ID) [] ;;
   IO.print "Done." newline ;;
   IO.ret all_residency_info)%io.

End Network.

Definition initial_world : world := {| requested := []; stdout := "" |}.

(** ** Output file *)

(** [unicode(s).encode("utf-8")] on a text whose characters are code
    points below 256: one byte below 128, two bytes from 128 on. *)
Definition encode_char (c : ascii) : string :=
  let n := nat_of_ascii c in
  if (n <? 128)%nat then String c ""
  else String (ascii_of_nat (192 + n / 64))
         (String (ascii_of_nat (128 + n mod 64)) "").

Fixpoint encode_utf8 (s : string) : string :=
  match s with
  | "" => ""
  | String c s' => encode_char c ++ encode_utf8 s'
  end.

Module Csv.

(** The writer that [generate_csv] makes with [csv.writer]: the comma as
    delimiter, the double quote as quote character, minimal quoting, and
    the other settings of the default dialect: quotes are doubled, lines
    end with CR LF. *)

Definition delimiter : ascii := ","%char.
Definition quotechar : ascii := "034"%char.
Definition lineterminator : string := String "013" (String "010" "").

(** The writer reads a field as a C string: it stops at a NUL. *)
Fixpoint until_nul (field : string) : string :=
  match field with
  | "" => ""
  | String c field' =>
      if Ascii.eqb c "000" then "" else String c (until_nul field')
  end.

(** The characters that make the writer quote a field. *)
Definition special (c : ascii) : bool :=
  Ascii.eqb c delimiter || Ascii.eqb c quotechar
  || Ascii.eqb c "013" || Ascii.eqb c "010".

Fixpoint has_special (data : string) : bool :=
  match data with
  | "" => false
  | String c data' => special c || has_special data'
  end.

Fixpoint double_quotes (data : string) : string :=
  match data with
  | "" => ""
  | String c data' =>
      if Ascii.eqb c quotechar
      then String quotechar (String quotechar (double_quotes data'))
      else String c (double_quotes data')
  end.

(** One field of a row; [quote_empty] holds for the only field of a
    row. *)
Definition field (quote_empty : bool) (s : string) : string :=
  let data := until_nul s in
  let quoted :=
    has_special data
    || (quote_empty && match data with "" => true | _ => false end) in
  if quoted
  then String quotechar (double_quotes data ++ String quotechar "")
  else double_quotes data.

(** What [writer.writerow(row)] writes. *)
Definition writerow (row : list string) : string :=
  String.concat (String delimiter "")
    (map (field (List.length row =? 1)%nat) row)
  ++ lineterminator.

End Csv.

Definition headers : list string :=
  ["Name"; "State"; "City";
   "Salary PG1"; "Salary PG2"; "Salary PG3"; "Salary PG4";
   "PTO PG1"; "PTO PG2"; "PTO PG3"; "PTO PG4";
   "Min Step 1 Score"; "Min Step 2 Score";
   "Avg. Step 1 Score"; "Avg. Step 2 Score";
   "Residents (Total)"; "Residents (Male)"; "Residents (Female)";
   "Last Updated"].

(** The list [row] that [generate_csv] builds for one record, item by
    item. *)
Definition row_of (residency_info : ResidencyInfo) : result (list string) :=
  salary0 <- Py.index (salary residency_info) 0 ;;
  salary1 <- Py.index (salary residency_info) 1 ;;
  salary2 <- Py.index (salary residency_info) 2 ;;
  salary3 <- Py.index (salary residency_info) 3 ;;
  pto0 <- Py.index (pto residency_info) 0 ;;
  pto1 <- Py.index (pto residency_info) 1 ;;
  pto2 <- Py.index (pto residency_info) 2 ;;
  pto3 <- Py.index (pto residency_info) 3 ;;
  min0 <- Py.index (min_step_scores residency_info) 0 ;;
  min1 <- Py.index (min_step_scores residency_info) 1 ;;
  avg0 <- Py.index (avg_step_scores residency_info) 0 ;;
  avg1 <- Py.index (avg_step_scores residency_info) 1 ;;
  Ok [name residency_info;
      state residency_info;
      city residency_info;
      salary0; salary1; salary2; salary3;
      pto0; pto1; pto2; pto3;
      min0; min1;
      avg0; avg1;
      total (resident_demographics residency_info);
      male (resident_demographics residency_info);
      female (resident_demographics residency_info);
      last_updated residency_info].

(** The loop of [generate_csv], on the content of the open file. *)
Fixpoint write_rows (residency_programs : list ResidencyInfo)
  (csvfile : string) : result unit * string :=
  match residency_programs with
  | [] => (Ok tt, csvfile)
  | residency_info :: residency_programs' =>
      match row_of residency_info with
      | Ok row =>
          write_rows residency_programs'
            (csvfile ++ Csv.writerow (map encode_utf8 row))
      | Raise e => (Raise e, csvfile)
      end
  end.

(** The program and its files: the world of the requests and the
    console, and the content of each file of the current directory. *)
Record machine : Type := {
  outside : world;
  files : list (string * string)
}.

(** [open(path, 'wb')] followed by the writes and the close of the [with]
    block: the file is created or replaced.  The directory is taken to
    accept the file. *)
Definition store (path content : string) (fs : list (string * string))
  : list (string * string) :=
  (path, content)
  :: filter (fun entry => negb (fst entry =? path)%string) fs.

Definition read (path : string) (fs : list (string * string))
  : option string :=
  option_map snd (find (fun entry => (fst entry =? path)%string) fs).

Definition say (line : string) (m : machine) : machine :=
  {| outside := snd (IO.print line newline (outside m)); files := files m |}.

Definition generate_csv (residency_programs : list ResidencyInfo)
  (m : machine) : result unit * machine :=
  let m1 := say "Generating CSV..." m in
  let (r, csvfile) := write_rows residency_programs (Csv.writerow headers) in
  let m2 := {| outside := outside m1;
               files := store "residency_info.csv" csvfile (files m1) |} in
  match r with
  | Ok _ => (Ok tt, say "Done." m2)
  | Raise e => (Raise e, m2)
  end.

Definition main (requests_get : string -> Response + requests_exn)
  (m : machine) : result unit * machine :=
  match scrape requests_get (outside m) with
  | (Ok residency_programs, w) =>
      generate_csv residency_programs {| outside := w; files := files m |}
  | (Raise e, w) => (Raise e, {| outside := w; files := files m |})
  end.

(** * Vocabulary of the specification *)

(** [occurs sep s]: [sep] is a substring of [s]. *)
Definition occurs (sep s : string) : Prop :=
  exists a b, s = a ++ sep ++ b.

(** [first_occ sep p s]: the leftmost occurrence of [sep] in [s] starts
    right after the prefix [p]. *)
Definition first_occ (sep p s : string) : Prop :=
  (exists r, s = p ++ sep ++ r) /\
  forall p' r', s = p' ++ sep ++ r' ->
                (String.length p <= String.length p')%nat.

(** [nth_segment sep n s seg]: cutting [s] at its successive leftmost
    occurrences of [sep], the piece of index [n] (counting from 0) is
    [seg]. *)
Inductive nth_segment (sep : string) : nat -> string -> string -> Prop :=
| seg_whole (s : string) :
    ~ occurs sep s -> nth_segment sep 0 s s
| seg_first (p r : string) :
    first_occ sep p (p ++ sep ++ r) -> nth_segment sep 0 (p ++ sep ++ r) p
| seg_later (n : nat) (p r seg : string) :
    first_occ sep p (p ++ sep ++ r) ->
    nth_segment sep n r seg ->
    nth_segment sep (S n) (p ++ sep ++ r) seg.

(** [has_occurrences sep n s]: [s] holds [n] occurrences of [sep] that do
    not overlap, i.e. [s] is [n + 1] strings joined by [sep]. *)
Definition has_occurrences (sep : string) (n : nat) (s : string) : Prop :=
  exists ps, List.length ps = S n /\ String.concat sep ps = s.

(** A separator is [headed] when its first character does not come back
    in it, as in [<span class="bold">], [</span>] and [<]. *)
Definition headed (sep : string) : bool :=
  match sep with
  | "" => false
  | String c sep' => negb (Py.contains (String c "") sep')
  end.

(** A section of bolded values: a leading text, then each value between
    [<span class="bold">] and [</span>], followed by some text. *)
Fixpoint bolded (items : list (string * string)) : string :=
  match items with
  | [] => ""
  | (v, f) :: items' => span_bold ++ v ++ span_close ++ f ++ bolded items'
  end.

Definition clean_item (item : string * string) : bool :=
  negb (Py.contains span_bold (fst item))
  && negb (Py.contains span_close (fst item))
  && negb (Py.contains span_bold (snd item)).

(** The values hold no delimiter and the texts around them no opening
    delimiter. *)
Definition well_bolded (f0 : string) (items : list (string * string)) : bool :=
  negb (Py.contains span_bold f0) && forallb clean_item items.

(** The value of occurrence index [k] (from 1), empty when there is none. *)
Definition value (items : list (string * string)) (k : Z) : string :=
  nth (Z.to_nat (k - 1)) (map fst items) "".

(** The text that a best-effort extraction gives when it returns. *)
Definition safe_value (source before after : string) (instance : Z) : string :=
  match safe_scrape_item_between source before after instance with
  | Ok t => t
  | Raise _ => ""
  end.

(** The sections that the field parsers read, in the order in which the
    record assembler asks for them. *)
Definition needed_sections : list Z := [10; 27; 19; 17].

(** A well-formed page: a success status, no auth marker in the body, and
    the marker of every section that the field parsers read. *)
Definition well_formed (resp : Response) : bool :=
  (status_code resp =? OK)
  && negb (Py.contains "Not Authorized" (text resp))
  && forallb (fun n => Py.contains (section_marker n) (text resp))
       needed_sections.

(** What the driver is expected to make of an identifier: the records it
    adds, and the tag it prints. *)
Definition records_of (requests_get : string -> Response + requests_exn)
  (id_ : Z) : list ResidencyInfo :=
  match requests_get (page_url id_) with
  | inl resp =>
      if well_formed resp
      then match parse_residency_info (text resp) with
           | Ok r => [r]
           | Raise _ => []
           end
      else []
  | inr _ => []
  end.

Definition tag_of (requests_get : string -> Response + requests_exn)
  (id_ : Z) : string :=
  match requests_get (page_url id_) with
  | inl resp =>
      if well_formed resp then "SUCCESS"
      else if (status_code resp =? OK)
              && Py.contains "Not Authorized" (text resp)
           then "SKIP"
           else "FAIL"
  | inr ReadTimeout => "SKIP"
  | inr _ => "FAIL"
  end.

Definition progress_line (requests_get : string -> Response + requests_exn)
  (id_ : Z) : string :=
  "Scraping id " ++ Py.str id_ ++ "..." ++ tab
  ++ tag_of requests_get id_ ++ newline.

(** The error of a section whose marker is missing. *)
Definition section_error (n : Z) : exn :=
  ScrapingError (scrape_item_msg (section_marker n) (section_marker (n + 1))).

(** The bolded value of index [k] that the parsers read in a section. *)
Definition bold (section : string) (k : Z) : string :=
  safe_value section span_bold span_close k.

(** The first needed section whose marker a page lacks. *)
Definition first_missing (page : string) : option Z :=
  find (fun n => negb (Py.contains (section_marker n) page)) needed_sections.

(** The record of a page, from the page and its four sections. *)
Definition assemble (page s10 s27 s19 s17 : string) : ResidencyInfo :=
  {| name :=
       safe_value page ("Program Name:&nbsp;" ++ span_bold) span_close 1;
     state :=
       safe_value page ("&nbsp;State/Providence:&nbsp;" ++ span_bold)
                  span_close 1;
     city := safe_value page ("City:&nbsp;" ++ span_bold) span_close 1;
     salary := [bold s10 1; bold s10 3; bold s10 5; bold s10 7];
     pto := [bold s10 2; bold s10 4; bold s10 6; bold s10 8];
     min_step_scores := [bold s27 2; bold s27 3];
     avg_step_scores := [bold s19 1; bold s19 2];
     resident_demographics :=
       {| total := bold s17 1; female := bold s17 3; male := bold s17 4 |};
     last_updated :=
       safe_value page ("Last Updated: " ++ span_bold) "<" 1 |}.

(** The world after one more request. *)
Definition visit (w : world) (url : string) : world :=
  {| requested := (requested w ++ [url])%list; stdout := stdout w |}.

(** What the page fetch makes of the answer of the web. *)
Definition page_result (answer : Response + requests_exn) : result string :=
  match answer with
  | inr ConnectionError => Raise (ScrapingError "ConnectionError")
  | inr e => Raise (Requests e)
  | inl resp =>
      if status_code resp =? OK
      then if Py.contains "Not Authorized" (text resp)
           then Raise AuthError
           else Ok (text resp)
      else Raise (ScrapingError ("Failed to get page. Status code "
                                 ++ Py.str (status_code resp)))
  end.

(** The identifiers whose page is well formed. *)
Definition well_formed_id (requests_get : string -> Response + requests_exn)
  (id_ : Z) : bool :=
  match requests_get (page_url id_) with
  | inl resp => well_formed resp
  | inr _ => false
  end.

(** The progress lines of a list of identifiers, one after the other. *)
Definition console (requests_get : string -> Response + requests_exn)
  (ids : list Z) : string :=
  fold_right append "" (map (progress_line requests_get) ids).

(** ** A sample page and a sample web *)

Definition example_items_10 : list (string * string) :=
  [("50000", " / "); ("10", "<br>"); ("52000", " / "); ("12", "<br>");
   ("54000", " / "); ("14", "<br>"); ("56000", " / "); ("16", "<br>")].

Definition example_items_17 : list (string * string) :=
  [("20", "<br>"); ("n/a", "<br>"); ("12", "<br>"); ("8", "<br>")].

Definition example_items_19 : list (string * string) :=
  [("230", " and "); ("240", "<br>")].

Definition example_items_27 : list (string * string) :=
  [("Yes", "<br>"); ("200", " and "); ("210", "<br>")].

Definition example_page : string :=
  "<html>Program Name:&nbsp;" ++ span_bold ++ "Example Program" ++ span_close
  ++ "&nbsp;State/Providence:&nbsp;" ++ span_bold ++ "CA" ++ span_close
  ++ "City:&nbsp;" ++ span_bold ++ "Los Angeles" ++ span_close
  ++ section_marker 10 ++ ("Salary and vacation: " ++ bolded example_items_10)
  ++ section_marker 11 ++ "<br>"
  ++ section_marker 17 ++ ("Residents: " ++ bolded example_items_17)
  ++ section_marker 18 ++ "<br>"
  ++ section_marker 19 ++ ("Average scores: " ++ bolded example_items_19)
  ++ section_marker 20 ++ "<br>"
  ++ section_marker 27 ++ ("Minimum scores: " ++ bolded example_items_27)
  ++ section_marker 28 ++ "<br>"
  ++ "Last Updated: " ++ span_bold ++ "2016-01-01</html>".

(** A web with one entry, one connection error, one read timeout, and
    nothing else. *)
Definition example_web (url : string) : Response + requests_exn :=
  if (url =? page_url 1)%string
  then inl {| status_code := 200; text := example_page |}
  else if (url =? page_url 2)%string then inr ConnectionError
  else if (url =? page_url 3)%string then inr ReadTimeout
  else inl {| status_code := 200; text := "<html>Not Authorized</html>" |}.


(** A page with the four section markers and nothing else, and a web that
    serves it. *)
Definition bare_page : string :=
  section_marker 10 ++ section_marker 17 ++ section_marker 19
  ++ section_marker 27.

Definition bare_web (url : string) : Response + requests_exn :=
  inl {| status_code := 200; text := bare_page |}.

(** A request that times out while connecting raises
    [requests.exceptions.ConnectTimeout], a subclass of
    [requests.ConnectionError]: the page fetch catches it as a connection
    error.  [connect_timeout_web] is a web that never lets a connection
    be made in time, [read_timeout_web] one that never sends its answer in
    time. *)
Definition ConnectTimeout : requests_exn := ConnectionError.

Definition connect_timeout_web (url : string) : Response + requests_exn :=
  inr ConnectTimeout.

Definition read_timeout_web (url : string) : Response + requests_exn :=
  inr ReadTimeout.


(** A web whose pages hold the markers of sections 17 and 10 only. *)
Definition partial_web (url : string) : Response + requests_exn :=
  inl {| status_code := 200; text := "17.&nbsp;a 10.&nbsp;b" |}.

(** [tailed sep c]: [sep] ends with the character [c], which it holds
    nowhere else, as [;] in a section marker and [>] in the label of a
    field. *)
Definition tailed (sep : string) (c : ascii) : Prop :=
  exists sep0, sep = sep0 ++ String c "" /\ ~ occurs (String c "") sep0.

(** The nineteen columns of a record, in the order of the header, an item
    that a list lacks being left empty. *)
Definition columns (r : ResidencyInfo) : list string :=
  [name r; state r; city r;
   nth 0 (salary r) ""; nth 1 (salary r) "";
   nth 2 (salary r) ""; nth 3 (salary r) "";
   nth 0 (pto r) ""; nth 1 (pto r) ""; nth 2 (pto r) ""; nth 3 (pto r) "";
   nth 0 (min_step_scores r) ""; nth 1 (min_step_scores r) "";
   nth 0 (avg_step_scores r) ""; nth 1 (avg_step_scores r) "";
   total (resident_demographics r);
   male (resident_demographics r);
   female (resident_demographics r);
   last_updated r].

(** The line of a record in the file, and the lines of a list of
    records. *)
Definition csv_line (r : ResidencyInfo) : string :=
  Csv.writerow (map encode_utf8 (columns r)).

Definition csv_lines (rs : list ResidencyInfo) : string :=
  fold_right append "" (map csv_line rs).

(** A record whose lists are long enough for [generate_csv]. *)
Definition long_enough (r : ResidencyInfo) : Prop :=
  (4 <= List.length (salary r))%nat /\
  (4 <= List.length (pto r))%nat /\
  (2 <= List.length (min_step_scores r))%nat /\
  (2 <= List.length (avg_step_scores r))%nat.

(** ** Reading a line back *)

(** A reader for the lines of the writer, to state that a line holds its
    fields without loss: it undoes the quoting of [Csv.field] and cuts at
    the delimiters that are not quoted. *)
Inductive scan_mode : Type := AtStart | InPlain | InQuoted | AfterQuote.

Definition grow (c : ascii) (fields : list string) : list string :=
  match fields with
  | [] => [String c ""]
  | f :: fields' => String c f :: fields'
  end.

Fixpoint scan (mode : scan_mode) (line : string) : list string :=
  match line with
  | "" => [""]
  | String c line' =>
      match mode with
      | AtStart =>
          if Ascii.eqb c Csv.quotechar then scan InQuoted line'
          else if Ascii.eqb c Csv.delimiter then "" :: scan AtStart line'
          else if Ascii.eqb c "013" then [""]
          else grow c (scan InPlain line')
      | InPlain =>
          if Ascii.eqb c Csv.delimiter then "" :: scan AtStart line'
          else if Ascii.eqb c "013" then [""]
          else grow c (scan InPlain line')
      | InQuoted =>
          if Ascii.eqb c Csv.quotechar then scan AfterQuote line'
          else grow c (scan InQuoted line')
      | AfterQuote =>
          if Ascii.eqb c Csv.quotechar then grow c (scan InQuoted line')
          else if Ascii.eqb c Csv.delimiter then "" :: scan AtStart line'
          else [""]
      end
  end.

(** A line that starts with its end is the line of the empty row. *)
Definition read_row (line : string) : list string :=
  match line with
  | "" => []
  | String c _ => if Ascii.eqb c "013" then [] else scan AtStart line
  end.

(** The reverse of [encode_utf8]. *)
Fixpoint decode_utf8 (bytes : string) : string :=
  match bytes with
  | "" => ""
  | String b bytes' =>
      if (nat_of_ascii b <? 128)%nat then String b (decode_utf8 bytes')
      else match bytes' with
           | "" => ""
           | String b' bytes'' =>
               String (ascii_of_nat ((nat_of_ascii b - 192) * 64
                                     + (nat_of_ascii b' - 128)))
                 (decode_utf8 bytes'')
           end
  end.

(** * Properties *)

(** ** The primitives on small inputs *)

Example split_commas : Py.split "a,b,,c" "," = Ok ["a"; "b"; ""; "c"].
Proof. reflexivity. Qed.

Example split_no_overlap : Py.split "aaa" "aa" = Ok [""; "a"].
Proof. reflexivity. Qed.

Example split_at_both_ends : Py.split "abxab" "ab" = Ok [""; "x"; ""].
Proof. reflexivity. Qed.

Example split_of_empty : Py.split "" "x" = Ok [""].
Proof. reflexivity. Qed.

Example split_empty_separator : Py.split "abc" "" = Raise ValueError.
Proof. reflexivity. Qed.

Example index_from_the_end : Py.index ["a"; "b"; "c"] (-1) = Ok "c".
Proof. reflexivity. Qed.

Example index_out_of_range :
  Py.index ["a"; "b"; "c"] 3 = Raise IndexError /\
  Py.index ["a"; "b"; "c"] (-4) = Raise IndexError.
Proof. split; reflexivity. Qed.

Example str_of_integers :
  Py.str 0 = "0" /\ Py.str 287 = "287" /\ Py.str (-3) = "-3".
Proof. repeat split. Qed.

Example section_marker_10 : section_marker 10 = "10.&nbsp;".
Proof. reflexivity. Qed.

Example scrape_item_between_second :
  scrape_item_between "<b>x</b> <b>y</b>" "<b>" "</b>" 2 = Ok "y".
Proof. reflexivity. Qed.

(** ** Facts on strings *)

Lemma append_nil_r (s : string) : s ++ "" = s.
Proof.
  induction s as [|c s IH]; simpl; [reflexivity | now rewrite IH].
Qed.

Lemma append_assoc (a b c : string) : (a ++ b) ++ c = a ++ b ++ c.
Proof.
  induction a as [|h a IH]; simpl; [reflexivity | now rewrite IH].
Qed.

Lemma length_append (a b : string) :
  String.length (a ++ b) = (String.length a + String.length b)%nat.
Proof.
  induction a as [|h a IH]; simpl; [reflexivity | now rewrite IH].
Qed.

Lemma length_zero (s : string) : String.length s = 0%nat -> s = "".
Proof.
  destruct s; [reflexivity | discriminate].
Qed.

Lemma prefix_iff (a s : string) :
  prefix a s = true <-> exists r, s = a ++ r.
Proof.
  revert s. induction a as [|h a IH]; intros s.
  - split; [intros _; now exists s|]. intros _. now destruct s.
  - destruct s as [|c s]; simpl.
    + split; [discriminate | intros [r Hr]; discriminate].
    + destruct (ascii_dec h c) as [->|Hne].
      * split; intros H.
        -- apply IH in H as [r Hr]. exists r. now rewrite Hr.
        -- apply IH. destruct H as [r Hr]. injection Hr as Hr. now exists r.
      * split; [discriminate|]. intros [r Hr]. injection Hr as Hc _.
        now subst.
Qed.

(** Two ways of cutting one string: the shorter left part is a prefix of
    the longer one. *)
Lemma append_eq_split (a b c d : string) :
  a ++ b = c ++ d ->
  (String.length a <= String.length c)%nat ->
  exists x, c = a ++ x /\ b = x ++ d.
Proof.
  revert c. induction a as [|h a IH]; intros c H Hlen.
  - exists c. now split.
  - destruct c as [|h' c]; simpl in Hlen; [lia|].
    simpl in H. injection H as -> H.
    destruct (IH c H) as (x & -> & ->); [lia|].
    exists x. now split.
Qed.

Lemma occurs_tail (sep s : string) (c : ascii) :
  occurs sep s -> occurs sep (String c s).
Proof.
  intros (a & b & ->). now exists (String c a), b.
Qed.

Lemma occurs_cons (sep s : string) (c : ascii) :
  occurs sep (String c s) -> prefix sep (String c s) = true \/ occurs sep s.
Proof.
  intros (a & b & H). destruct a as [|h a].
  - left. apply prefix_iff. now exists b.
  - right. simpl in H. injection H as _ H. now exists a, b.
Qed.

Lemma contains_iff (sub s : string) :
  Py.contains sub s = true <-> occurs sub s.
Proof.
  induction s as [|c s IH].
  - change (Py.contains sub "") with (prefix sub "" || false).
    rewrite orb_false_r, prefix_iff. split.
    + intros [r Hr]. now exists "", r.
    + intros (a & b & H). destruct a; [now exists b | discriminate].
  - change (Py.contains sub (String c s))
      with (prefix sub (String c s) || Py.contains sub s).
    rewrite orb_true_iff, IH. split.
    + intros [H|H]; [|now apply occurs_tail].
      apply prefix_iff in H as [r Hr]. now exists "", r.
    + apply occurs_cons.
Qed.

Lemma contains_false_iff (sub s : string) :
  Py.contains sub s = false <-> ~ occurs sub s.
Proof.
  rewrite <- contains_iff. now destruct (Py.contains sub s).
Qed.

Lemma first_occ_here (sep r : string) : first_occ sep "" (sep ++ r).
Proof.
  split; [now exists r|]. intros; simpl; lia.
Qed.

Lemma first_occ_cons (sep p s : string) (c : ascii) :
  prefix sep (String c s) = false ->
  first_occ sep p s -> first_occ sep (String c p) (String c s).
Proof.
  intros Hpre [[r ->] Hmin]. split; [now exists r|].
  intros [|h p'] r' H.
  - assert (prefix sep (String c (p ++ sep ++ r)) = true) as E
        by (apply prefix_iff; now exists r').
    congruence.
  - simpl in H. injection H as _ H. apply Hmin in H. simpl. lia.
Qed.

Lemma first_occ_uncons (sep p s : string) (c : ascii) :
  first_occ sep (String c p) (String c s) ->
  prefix sep (String c s) = false /\ first_occ sep p s.
Proof.
  intros [[r Hr] Hmin]. simpl in Hr. injection Hr as ->. split.
  - destruct (prefix sep (String c (p ++ sep ++ r))) eqn:E; [|reflexivity].
    apply prefix_iff in E as [r' Hr'].
    specialize (Hmin "" r' Hr'). simpl in Hmin. lia.
  - split; [now exists r|]. intros p' r' H.
    specialize (Hmin (String c p') r'). simpl in Hmin.
    rewrite H in Hmin. specialize (Hmin eq_refl). lia.
Qed.

(** Either [sep] does not occur in [s], or it has a leftmost occurrence. *)
Lemma first_occ_or_none (sep s : string) :
  ~ occurs sep s \/ exists p r, s = p ++ sep ++ r /\ first_occ sep p s.
Proof.
  induction s as [|c s IH].
  - destruct sep as [|h sep].
    + right. exists "", "". split; [reflexivity|]. apply (first_occ_here "" "").
    + left. intros (a & b & H). destruct a; discriminate.
  - destruct (prefix sep (String c s)) eqn:E.
    + right. apply prefix_iff in E as [r Hr]. exists "", r.
      split; [exact Hr|]. rewrite Hr. apply first_occ_here.
    + destruct IH as [Hno | (p & r & Hs & Hf)].
      * left. intros H. apply occurs_cons in H as [H|H]; [congruence|tauto].
      * right. exists (String c p), r. split; [now rewrite Hs|].
        now apply first_occ_cons.
Qed.

Lemma first_occ_unique (sep p q s : string) :
  first_occ sep p s -> first_occ sep q s -> p = q.
Proof.
  intros [[r Hr] Hp] [[r' Hr'] Hq].
  pose proof (Hp _ _ Hr') as H1. pose proof (Hq _ _ Hr) as H2.
  rewrite Hr in Hr'.
  destruct (append_eq_split _ _ _ _ Hr' H1) as (x & -> & _).
  rewrite length_append in H2.
  assert (x = "") as -> by (apply length_zero; lia).
  now rewrite append_nil_r.
Qed.

(** ** The scan of [split] *)

Lemma split_go_skip (sep x r : string) :
  Py.split_go sep (String.length x) (x ++ r) = Py.split_go sep 0 r.
Proof.
  induction x as [|c x IH]; [reflexivity | exact IH].
Qed.

Section Split.

Variable sep : string.
Hypothesis sep_nonempty : sep <> "".

Lemma split_go_match (r : string) :
  Py.split_go sep 0 (sep ++ r) = "" :: Py.split_go sep 0 r.
Proof.
  pose proof sep_nonempty as Hne. clear sep_nonempty.
  destruct sep as [|c sep']; [congruence|].
  change (String c sep' ++ r) with (String c (sep' ++ r)).
  cbn [Py.split_go].
  replace (prefix (String c sep') (String c (sep' ++ r))) with true
    by (symmetry; apply prefix_iff; now exists r).
  f_equal.
  replace (String.length (String c sep') - 1)%nat with (String.length sep')
    by (simpl; lia).
  apply split_go_skip.
Qed.

Lemma split_go_nomatch (c : ascii) (s : string) :
  prefix sep (String c s) = false ->
  Py.split_go sep 0 (String c s) = Py.push c (Py.split_go sep 0 s).
Proof.
  intros H. cbn [Py.split_go]. now rewrite H.
Qed.

(** The first piece ends at the leftmost occurrence of [sep]; the scan
    goes on after it. *)
Lemma split_go_first (p r : string) :
  first_occ sep p (p ++ sep ++ r) ->
  Py.split_go sep 0 (p ++ sep ++ r) = p :: Py.split_go sep 0 r.
Proof.
  induction p as [|c p IH]; intros H.
  - apply split_go_match.
  - change (String c p ++ sep ++ r) with (String c (p ++ sep ++ r)) in *.
    apply first_occ_uncons in H as [Hpre Hf].
    rewrite (split_go_nomatch _ _ Hpre), (IH Hf). reflexivity.
Qed.

Lemma split_go_none (s : string) :
  ~ occurs sep s -> Py.split_go sep 0 s = [s].
Proof.
  induction s as [|c s IH]; intros H; [reflexivity|].
  rewrite split_go_nomatch, IH; [reflexivity | |].
  - intros Ho. apply H. now apply occurs_tail.
  - destruct (prefix sep (String c s)) eqn:E; [|reflexivity].
    exfalso. apply H. apply prefix_iff in E as [r Hr]. now exists "", r.
Qed.

End Split.

Lemma split_go_nonempty (sep : string) (k : nat) (s : string) :
  Py.split_go sep k s <> [].
Proof.
  revert k. induction s as [|c s IH]; intros k; [discriminate|].
  destruct k as [|k]; cbn [Py.split_go]; [|apply IH].
  destruct (prefix sep (String c s)); [discriminate|].
  specialize (IH 0%nat). now destruct (Py.split_go sep 0 s).
Qed.

Lemma first_occ_no_occ (sep p r : string) :
  sep <> "" -> first_occ sep p (p ++ sep ++ r) -> ~ occurs sep p.
Proof.
  intros Hne [_ Hmin] (a & b & ->).
  specialize (Hmin a (b ++ sep ++ r)).
  rewrite !append_assoc in Hmin. specialize (Hmin eq_refl).
  rewrite !length_append in Hmin.
  destruct sep; [congruence | simpl in Hmin; lia].
Qed.

(** ** Pieces and occurrences, independently of the scan *)

Lemma concat_cons (sep p : string) (ps : list string) :
  ps <> [] -> String.concat sep (p :: ps) = p ++ sep ++ String.concat sep ps.
Proof.
  destruct ps; [congruence | reflexivity].
Qed.

Section Pieces.

Variable sep : string.
Hypothesis sep_nonempty : sep <> "".

Lemma nth_segment_split (n : nat) (s seg : string) :
  nth_segment sep n s seg ->
  nth_error (Py.split_go sep 0 s) n = Some seg.
Proof.
  induction 1 as [s Hno | p r Hf | n p r seg Hf _ IH].
  - now rewrite split_go_none.
  - now rewrite split_go_first.
  - now rewrite split_go_first.
Qed.

Lemma split_nth_segment (n : nat) (s seg : string) :
  nth_error (Py.split_go sep 0 s) n = Some seg ->
  nth_segment sep n s seg.
Proof.
  revert s. induction n as [|n IH]; intros s H;
    destruct (first_occ_or_none sep s) as [Hno | (p & r & -> & Hf)].
  - rewrite split_go_none in H by assumption.
    injection H as <-. now constructor.
  - rewrite split_go_first in H by assumption.
    injection H as <-. now constructor.
  - rewrite split_go_none in H by assumption. now destruct n.
  - rewrite split_go_first in H by assumption.
    constructor; [assumption|]. now apply IH.
Qed.

Lemma nth_segment_iff (n : nat) (s seg : string) :
  nth_segment sep n s seg <->
  nth_error (Py.split_go sep 0 s) n = Some seg.
Proof.
  split; [apply nth_segment_split | apply split_nth_segment].
Qed.

(** The scan is greedy, and greedy is best: whenever [s] holds [n]
    disjoint occurrences of [sep], the scan finds at least [n]. *)
Lemma occurrences_split (n : nat) (s : string) :
  has_occurrences sep n s ->
  (n < List.length (Py.split_go sep 0 s))%nat.
Proof.
  revert s. induction n as [|n IH]; intros s (ps & Hlen & Hs).
  - pose proof (split_go_nonempty sep 0 s).
    destruct (Py.split_go sep 0 s); [congruence | simpl; lia].
  - destruct ps as [|p0 ps]; [discriminate|].
    injection Hlen as Hlen.
    rewrite concat_cons in Hs by (destruct ps; discriminate).
    destruct (first_occ_or_none sep s) as [Hno | (q & r & Hq & Hf)].
    + exfalso. apply Hno. exists p0, (String.concat sep ps). now rewrite Hs.
    + pose proof Hf as [_ Hmin].
      specialize (Hmin p0 (String.concat sep ps) (eq_sym Hs)).
      rewrite Hq in Hf. rewrite Hq, split_go_first by assumption.
      simpl. apply -> Nat.succ_lt_mono. apply IH.
      assert ((q ++ sep) ++ r = (p0 ++ sep) ++ String.concat sep ps) as E
          by (rewrite !append_assoc; congruence).
      apply append_eq_split in E as (y & _ & ->);
        [|rewrite !length_append; lia].
      destruct ps as [|p1 ps]; [discriminate|].
      exists ((y ++ p1) :: ps). split; [exact Hlen|].
      destruct ps as [|p2 ps]; [reflexivity|].
      rewrite !concat_cons by discriminate. now rewrite append_assoc.
Qed.

Lemma split_occurrences (n : nat) (s : string) :
  (n < List.length (Py.split_go sep 0 s))%nat ->
  has_occurrences sep n s.
Proof.
  revert s. induction n as [|n IH]; intros s H.
  - now exists [s].
  - destruct (first_occ_or_none sep s) as [Hno | (p & r & -> & Hf)].
    + rewrite split_go_none in H by assumption. simpl in H. lia.
    + rewrite split_go_first in H by assumption. simpl in H.
      destruct (IH r) as (ps & Hlen & Hr); [lia|].
      exists (p :: ps). split; [simpl; now rewrite Hlen|].
      rewrite concat_cons by (destruct ps; discriminate). now rewrite Hr.
Qed.

Lemma occurrences_iff (n : nat) (s : string) :
  has_occurrences sep n s <->
  (n < List.length (Py.split_go sep 0 s))%nat.
Proof.
  split; [apply occurrences_split | apply split_occurrences].
Qed.

Lemma occurrences_segment (n : nat) (s : string) :
  has_occurrences sep n s <-> exists seg, nth_segment sep n s seg.
Proof.
  rewrite occurrences_iff, <- nth_error_Some. split.
  - destruct (nth_error (Py.split_go sep 0 s) n) as [seg|] eqn:E;
      [|congruence].
    intros _. exists seg. now apply split_nth_segment.
  - intros [seg H]. apply nth_segment_split in H. congruence.
Qed.

(** Joining the pieces with [sep] gives the string back. *)
Lemma join_split (s : string) :
  String.concat sep (Py.split_go sep 0 s) = s.
Proof.
  remember (String.length s) as m eqn:Hm. revert s Hm.
  induction m as [m IH] using lt_wf_ind. intros s ->.
  destruct (first_occ_or_none sep s) as [Hno | (p & r & -> & Hf)].
  - now rewrite split_go_none.
  - rewrite split_go_first by assumption.
    rewrite concat_cons by apply split_go_nonempty.
    rewrite (IH (String.length r)); [reflexivity | | reflexivity].
    rewrite !length_append. destruct sep; [congruence | simpl; lia].
Qed.

(** Where a piece lies in the string: a piece other than the first comes
    right after an occurrence of [sep], holds no occurrence of [sep], and
    runs to the next occurrence of [sep] or to the end of the string. *)
Lemma nth_segment_where_0 (s seg : string) :
  nth_segment sep 0 s seg ->
  ~ occurs sep seg /\
  exists rest, s = seg ++ rest /\ (rest = "" \/ exists r, rest = sep ++ r).
Proof.
  inversion 1 as [s' Hno | p r Hf |]; subst.
  - split; [assumption|]. exists "". rewrite append_nil_r. now split; [|left].
  - split; [now apply first_occ_no_occ in Hf|].
    exists (sep ++ r). split; [reflexivity | right; now exists r].
Qed.

Lemma nth_segment_where (n : nat) (s seg : string) :
  nth_segment sep (S n) s seg ->
  ~ occurs sep seg /\
  exists pre rest,
    s = pre ++ sep ++ seg ++ rest /\
    (rest = "" \/ exists r, rest = sep ++ r).
Proof.
  revert s. induction n as [|n IH]; intros s H;
    inversion H as [| | n' p r seg' Hf Hseg]; subst.
  - apply nth_segment_where_0 in Hseg as (Hno & rest & -> & Hrest).
    split; [assumption|]. now exists p, rest.
  - apply IH in Hseg as (Hno & pre & rest & -> & Hrest).
    split; [assumption|]. exists (p ++ sep ++ pre), rest.
    split; [|assumption]. now rewrite !append_assoc.
Qed.

End Pieces.

(** ** Indexing *)

Lemma index_nonneg {A : Type} (l : list A) (i : Z) :
  0 <= i ->
  Py.index l i = match nth_error l (Z.to_nat i) with
                 | Some a => Ok a
                 | None => Raise IndexError
                 end.
Proof.
  intros Hi. unfold Py.index.
  replace (i <? 0) with false by (symmetry; apply Z.ltb_ge; lia).
  destruct ((0 <=? i) && (i <? Z.of_nat (List.length l))) eqn:E;
    [reflexivity|].
  replace (nth_error l (Z.to_nat i)) with (@None A); [reflexivity|].
  symmetry. apply nth_error_None.
  apply andb_false_iff in E as [E|E]; [apply Z.leb_gt in E | apply Z.ltb_ge in E];
    lia.
Qed.

Lemma index_0 {A : Type} (a : A) (l : list A) : Py.index (a :: l) 0 = Ok a.
Proof.
  now rewrite index_nonneg.
Qed.

Lemma index_cases {A : Type} (l : list A) (i : Z) :
  (exists a, Py.index l i = Ok a) \/ Py.index l i = Raise IndexError.
Proof.
  unfold Py.index.
  destruct (_ && _); [|now right].
  destruct (nth_error l _) as [a|]; [left; now exists a | now right].
Qed.

(** ** Fragment extractor *)

Lemma split_nonempty (s sep : string) :
  sep <> "" -> Py.split s sep = Ok (Py.split_go sep 0 s).
Proof.
  destruct sep; [congruence | reflexivity].
Qed.

Lemma index_split_0 (sep s : string) :
  Py.index (Py.split_go sep 0 s) 0 = Ok (hd "" (Py.split_go sep 0 s)).
Proof.
  pose proof (split_go_nonempty sep 0 s).
  destruct (Py.split_go sep 0 s); [congruence | apply index_0].
Qed.

(** With non-empty delimiters, strict extraction either returns or raises
    its own [ScrapingError]. *)
Lemma scrape_item_between_cases (source before after : string) (instance : Z) :
  before <> "" -> after <> "" ->
  (exists t, scrape_item_between source before after instance = Ok t) \/
  scrape_item_between source before after instance
  = Raise (ScrapingError (scrape_item_msg before after)).
Proof.
  intros Hb Ha. unfold scrape_item_between.
  rewrite split_nonempty by assumption. cbn [bind].
  destruct (index_cases (Py.split_go before 0 source) instance)
    as [[seg ->] | ->]; cbn [bind]; [|now right].
  rewrite split_nonempty by assumption. cbn [bind].
  rewrite index_split_0. left. eauto.
Qed.

(** For a non-negative index, strict extraction is the first piece, cut at
    [after], of the piece of that index, cut at [before]. *)
Lemma scrape_item_between_eq (source before after : string) (instance : Z) :
  before <> "" -> after <> "" -> 0 <= instance ->
  scrape_item_between source before after instance
  = match nth_error (Py.split_go before 0 source) (Z.to_nat instance) with
    | Some segment => Ok (hd "" (Py.split_go after 0 segment))
    | None => Raise (ScrapingError (scrape_item_msg before after))
    end.
Proof.
  intros Hb Ha Hi. unfold scrape_item_between.
  rewrite split_nonempty by assumption. cbn [bind].
  rewrite index_nonneg by assumption.
  destruct (nth_error _ _) as [seg|]; cbn [bind]; [|reflexivity].
  rewrite split_nonempty by assumption. cbn [bind].
  now rewrite index_split_0.
Qed.

(** The selected segment holds [after]: the result is the text up to its
    first occurrence. *)
Lemma scrape_item_between_found
  (source before after : string) (n : nat) (seg t : string) :
  before <> "" -> after <> "" ->
  nth_segment before n source seg ->
  first_occ after t seg ->
  scrape_item_between source before after (Z.of_nat n) = Ok t.
Proof.
  intros Hb Ha Hseg Ht.
  rewrite scrape_item_between_eq by (assumption || lia).
  rewrite Nat2Z.id. apply nth_segment_split in Hseg; [|assumption].
  rewrite Hseg. pose proof Ht as [[r ->] _].
  now rewrite split_go_first.
Qed.

Lemma scrape_item_between_not_found
  (source before after : string) (n : nat) (seg : string) :
  before <> "" -> after <> "" ->
  nth_segment before n source seg ->
  ~ occurs after seg ->
  scrape_item_between source before after (Z.of_nat n) = Ok seg.
Proof.
  intros Hb Ha Hseg Hno.
  rewrite scrape_item_between_eq by (assumption || lia).
  rewrite Nat2Z.id. apply nth_segment_split in Hseg; [|assumption].
  rewrite Hseg. now rewrite split_go_none.
Qed.

Lemma scrape_item_between_raises
  (source before after : string) (instance : Z) :
  before <> "" -> after <> "" -> 0 <= instance ->
  raises (scrape_item_between source before after instance) <->
  ~ has_occurrences before (Z.to_nat instance) source.
Proof.
  intros Hb Ha Hi.
  rewrite scrape_item_between_eq, occurrences_iff, <- nth_error_Some
    by assumption.
  destruct (nth_error _ _) as [seg|]; split.
  - intros [e He]. discriminate.
  - intros H. exfalso. apply H. discriminate.
  - intros _ H. now apply H.
  - intros _. eexists. reflexivity.
Qed.

(** ** Separators that cannot overlap themselves *)

Lemma headed_inv (sep : string) :
  headed sep = true ->
  exists c sep', sep = String c sep' /\ ~ occurs (String c "") sep'.
Proof.
  destruct sep as [|c sep']; [discriminate|]. simpl. intros H.
  exists c, sep'. split; [reflexivity|].
  apply contains_false_iff. now destruct (Py.contains _ sep').
Qed.

Lemma head_of_prefix (c : ascii) (u z v : string) :
  String c u = z ++ v -> z <> "" -> exists z', z = String c z'.
Proof.
  destruct z as [|d z]; [congruence|]. simpl. intros H _.
  injection H as -> _. now exists z.
Qed.

(** A cut [sep = z ++ w] of [String c sep'] in two non-empty parts, the
    second starting with [c], puts [c] in [sep']. *)
Lemma head_again (c : ascii) (sep' z w u : string) :
  String c sep' = z ++ w -> z <> "" -> w = String c u ->
  occurs (String c "") sep'.
Proof.
  intros H Hz ->. destruct z as [|d z]; [congruence|].
  simpl in H. injection H as _ ->. now exists z, u.
Qed.

Lemma headed_first_occ (sep p r : string) :
  headed sep = true -> ~ occurs sep p -> first_occ sep p (p ++ sep ++ r).
Proof.
  intros Hh Hno. split; [now exists r|]. intros p' r' H.
  destruct (le_lt_dec (String.length p) (String.length p')) as [|Hlt];
    [assumption|exfalso].
  symmetry in H. apply append_eq_split in H as (x & -> & H); [|lia].
  rewrite length_append in Hlt.
  destruct (le_lt_dec (String.length sep) (String.length x)) as [Hle|Hlt'].
  - apply append_eq_split in H as (y & -> & _); [|assumption].
    apply Hno. now exists p', y.
  - symmetry in H. apply append_eq_split in H as (y & Hsep & H); [|lia].
    apply headed_inv in Hh as (c & sep' & -> & Hc). apply Hc.
    assert (y <> "") as Hy.
    { intros ->. rewrite Hsep, length_append in Hlt'. simpl in Hlt'. lia. }
    simpl in H. apply head_of_prefix in H as [y' ->]; [|assumption].
    apply (head_again c sep' x (String c y') y' Hsep); [|reflexivity].
    intros ->. simpl in Hlt. lia.
Qed.

(** An occurrence of a headed separator cannot run into a later copy of
    its first character. *)
Lemma headed_no_straddle (c : ascii) (sep' x y : string) :
  ~ occurs (String c "") sep' ->
  occurs (String c sep') (x ++ String c y) ->
  occurs (String c sep') x \/ occurs (String c sep') (String c y).
Proof.
  intros Hc (a & b & H).
  destruct (le_lt_dec (String.length x) (String.length a)) as [Hle|Hlt].
  - apply append_eq_split in H as (z & -> & ->); [|assumption].
    right. now exists z, b.
  - symmetry in H. apply append_eq_split in H as (z & -> & H); [|lia].
    rewrite length_append in Hlt.
    destruct (le_lt_dec (String.length (String c sep')) (String.length z))
      as [Hle|Hlt'].
    + apply append_eq_split in H as (w & -> & _); [|assumption].
      left. now exists a, w.
    + symmetry in H. apply append_eq_split in H as (w & Hsep & H); [|lia].
      exfalso. apply Hc.
      assert (w <> "") as Hw.
      { intros ->. rewrite Hsep, length_append in Hlt'. simpl in Hlt'. lia. }
      apply head_of_prefix in H as [w' ->]; [|assumption].
      apply (head_again c sep' z (String c w') w' Hsep); [|reflexivity].
      intros ->. simpl in Hlt. lia.
Qed.

(** An occurrence cannot start in a text that lacks its first character. *)
Lemma occurs_skip (c : ascii) (sep' x y : string) :
  ~ occurs (String c "") x ->
  occurs (String c sep') (x ++ y) -> occurs (String c sep') y.
Proof.
  intros Hc (a & b & H).
  destruct (le_lt_dec (String.length x) (String.length a)) as [Hle|Hlt].
  - apply append_eq_split in H as (z & -> & ->); [|assumption].
    now exists z, b.
  - symmetry in H. apply append_eq_split in H as (z & -> & H); [|lia].
    exfalso. apply Hc. rewrite length_append in Hlt.
    simpl in H. apply head_of_prefix in H as [z' ->];
      [now exists a, z' | intros ->; simpl in Hlt; lia].
Qed.

Lemma headed_apart (sep : string) (c : ascii) (x y : string) :
  headed sep = true -> prefix (String c "") sep = true ->
  occurs sep (x ++ String c y) -> occurs sep x \/ occurs sep (String c y).
Proof.
  intros Hh Hp. apply headed_inv in Hh as (d & sep' & -> & Hd).
  apply prefix_iff in Hp as [r Hr]. simpl in Hr. injection Hr as -> _.
  now apply headed_no_straddle.
Qed.

Lemma occurs_after (sep : string) (c : ascii) (x y : string) :
  prefix (String c "") sep = true ->
  Py.contains (String c "") x = false ->
  occurs sep (x ++ y) -> occurs sep y.
Proof.
  intros Hp Hx. apply prefix_iff in Hp as [r ->]. simpl.
  apply occurs_skip. now apply contains_false_iff.
Qed.

(** ** Sections of bolded values *)

Lemma no_bold_in_item (v f : string) :
  ~ occurs span_bold v -> ~ occurs span_bold f ->
  ~ occurs span_bold (v ++ span_close ++ f).
Proof.
  intros Hv Hf H.
  change (v ++ span_close ++ f) with (v ++ String "<" ("/span>" ++ f)) in H.
  apply (headed_apart span_bold "<" v ("/span>" ++ f) eq_refl eq_refl) in H.
  destruct H as [H|H]; [tauto|].
  apply occurs_cons in H as [H|H]; [discriminate H|].
  apply (occurs_after span_bold "<" "/span>" f eq_refl eq_refl) in H. tauto.
Qed.

Lemma clean_item_inv (v f : string) :
  clean_item (v, f) = true ->
  ~ occurs span_bold v /\ ~ occurs span_close v /\ ~ occurs span_bold f.
Proof.
  unfold clean_item. simpl. rewrite !andb_true_iff, !negb_true_iff.
  rewrite !contains_false_iff. tauto.
Qed.

Lemma split_bolded (f0 : string) (items : list (string * string)) :
  ~ occurs span_bold f0 ->
  forallb clean_item items = true ->
  Py.split_go span_bold 0 (f0 ++ bolded items)
  = f0 :: map (fun item => fst item ++ span_close ++ snd item) items.
Proof.
  revert f0. induction items as [|[v f] items IH]; intros f0 H0 Hitems.
  - simpl. rewrite append_nil_r. now apply split_go_none.
  - simpl in Hitems. apply andb_true_iff in Hitems as [Hit Hitems].
    apply clean_item_inv in Hit as (Hv & _ & Hf).
    cbn [bolded map fst snd].
    rewrite split_go_first;
      [|discriminate|now apply headed_first_occ].
    f_equal.
    replace (v ++ span_close ++ f ++ bolded items)
      with ((v ++ span_close ++ f) ++ bolded items)
      by now rewrite !append_assoc.
    apply IH; [now apply no_bold_in_item | assumption].
Qed.

Lemma span_bold_nonempty : span_bold <> "".
Proof. discriminate. Qed.

Lemma span_close_nonempty : span_close <> "".
Proof. discriminate. Qed.

(** Best-effort extraction of the [k]-th bolded value of a section. *)
Lemma safe_bolded_value (f0 : string) (items : list (string * string)) (k : Z) :
  well_bolded f0 items = true -> 1 <= k ->
  safe_scrape_item_between (f0 ++ bolded items) span_bold span_close k
  = Ok (value items k).
Proof.
  unfold well_bolded, value. rewrite andb_true_iff, negb_true_iff.
  rewrite contains_false_iff. intros [H0 Hitems] Hk.
  unfold safe_scrape_item_between.
  rewrite scrape_item_between_eq
    by (lia || apply span_bold_nonempty || apply span_close_nonempty).
  rewrite split_bolded by assumption.
  replace (Z.to_nat k) with (S (Z.to_nat (k - 1))) by lia.
  cbn [nth_error]. rewrite nth_error_map.
  destruct (nth_error items (Z.to_nat (k - 1))) as [[v f]|] eqn:E;
    cbn [option_map fst snd].
  - rewrite (nth_error_nth _ _ _ (map_nth_error fst _ _ E)). cbn [fst].
    rewrite forallb_forall in Hitems.
    apply nth_error_In, Hitems, clean_item_inv in E as (_ & Hv & _).
    rewrite split_go_first;
      [reflexivity | discriminate | now apply headed_first_occ].
  - rewrite nth_overflow; [reflexivity|].
    rewrite length_map. now apply nth_error_None.
Qed.


(** ** Best-effort extraction *)

Lemma safe_total (source before after : string) (instance : Z) :
  before <> "" -> after <> "" ->
  safe_scrape_item_between source before after instance
  = Ok (safe_value source before after instance).
Proof.
  intros Hb Ha. unfold safe_value, safe_scrape_item_between.
  destruct (scrape_item_between_cases source before after instance Hb Ha)
    as [[t ->] | ->]; reflexivity.
Qed.

Lemma safe_absent (source before after : string) (instance : Z) :
  before <> "" -> after <> "" -> 0 <= instance ->
  ~ has_occurrences before (Z.to_nat instance) source ->
  safe_scrape_item_between source before after instance = Ok "".
Proof.
  intros Hb Ha Hi H.
  apply (proj2 (scrape_item_between_raises _ _ _ _ Hb Ha Hi)) in H
    as [e He].
  unfold safe_scrape_item_between.
  destruct (scrape_item_between_cases source before after instance Hb Ha)
    as [[t Ht] | ->]; [congruence | reflexivity].
Qed.

Lemma occurrences_1 (sep s : string) : has_occurrences sep 1 s <-> occurs sep s.
Proof.
  split.
  - intros (ps & Hlen & <-).
    destruct ps as [|a [|b [|c ps]]]; try discriminate. now exists a, b.
  - intros (a & b & ->). now exists [a; b].
Qed.

(** ** Section locator *)

Lemma section_marker_nonempty (n : Z) : section_marker n <> "".
Proof.
  unfold section_marker. destruct (Py.str n); simpl; discriminate.
Qed.

(** Section extraction fails exactly when the marker of the section is
    missing. *)
Lemma scrape_section_cases (source : string) (n : Z) :
  (Py.contains (section_marker n) source = false /\
   scrape_section source n = Raise (section_error n)) \/
  (Py.contains (section_marker n) source = true /\
   exists section, scrape_section source n = Ok section).
Proof.
  unfold scrape_section, section_error.
  pose proof (section_marker_nonempty n) as Hb.
  pose proof (section_marker_nonempty (n + 1)) as Ha.
  pose proof (scrape_item_between_raises source _ _ 1 Hb Ha ltac:(lia)) as R.
  change (Z.to_nat 1) with 1%nat in R. rewrite occurrences_1 in R.
  destruct (scrape_item_between_cases source _ _ 1 Hb Ha) as [[t Ht] | He].
  - right. split; [|now exists t].
    destruct (Py.contains (section_marker n) source) eqn:E; [reflexivity|].
    apply contains_false_iff, R in E as [e He]. congruence.
  - left. split; [|assumption].
    apply contains_false_iff, R. eexists. exact He.
Qed.

(** ** Field parsers in closed form *)

Ltac safe_literals :=
  repeat (rewrite safe_total by (vm_compute; discriminate); cbn [bind]).

Lemma scrape_name_eq (source : string) :
  scrape_name source
  = Ok (safe_value source ("Program Name:&nbsp;" ++ span_bold) span_close 1).
Proof. unfold scrape_name. now safe_literals. Qed.

Lemma scrape_state_eq (source : string) :
  scrape_state source
  = Ok (safe_value source ("&nbsp;State/Providence:&nbsp;" ++ span_bold)
                   span_close 1).
Proof. unfold scrape_state. now safe_literals. Qed.

Lemma scrape_city_eq (source : string) :
  scrape_city source
  = Ok (safe_value source ("City:&nbsp;" ++ span_bold) span_close 1).
Proof. unfold scrape_city. now safe_literals. Qed.

Lemma scrape_last_updated_eq (source : string) :
  scrape_last_updated source
  = Ok (safe_value source ("Last Updated: " ++ span_bold) "<" 1).
Proof. unfold scrape_last_updated. now safe_literals. Qed.

Lemma scrape_salary_eq (source : string) :
  scrape_salary source
  = (section <- scrape_section source 10 ;;
     Ok [bold section 1; bold section 3; bold section 5; bold section 7]).
Proof.
  unfold scrape_salary, bold.
  destruct (scrape_section source 10); cbn [bind]; now safe_literals.
Qed.

Lemma scrape_pto_eq (source : string) :
  scrape_pto source
  = (section <- scrape_section source 10 ;;
     Ok [bold section 2; bold section 4; bold section 6; bold section 8]).
Proof.
  unfold scrape_pto, bold.
  destruct (scrape_section source 10); cbn [bind]; now safe_literals.
Qed.

Lemma scrape_avg_step_score_eq (source : string) :
  scrape_avg_step_score source
  = (section <- scrape_section source 19 ;;
     Ok [bold section 1; bold section 2]).
Proof.
  unfold scrape_avg_step_score, bold.
  destruct (scrape_section source 19); cbn [bind]; now safe_literals.
Qed.

Lemma scrape_min_step_score_eq (source : string) :
  scrape_min_step_score source
  = (section <- scrape_section source 27 ;;
     Ok [bold section 2; bold section 3]).
Proof.
  unfold scrape_min_step_score, bold.
  destruct (scrape_section source 27); cbn [bind]; now safe_literals.
Qed.

Lemma scrape_resident_demographics_eq (source : string) :
  scrape_resident_demographics source
  = (section <- scrape_section source 17 ;;
     Ok {| total := bold section 1;
           female := bold section 3;
           male := bold section 4 |}).
Proof.
  unfold scrape_resident_demographics, bold.
  destruct (scrape_section source 17); cbn [bind]; now safe_literals.
Qed.


(** ** Record assembler, on a fetched page *)

Lemma parse_residency_info_eq (page : string) :
  parse_residency_info page
  = (s10 <- scrape_section page 10 ;;
     s27 <- scrape_section page 27 ;;
     s19 <- scrape_section page 19 ;;
     s17 <- scrape_section page 17 ;;
     Ok (assemble page s10 s27 s19 s17)).
Proof.
  unfold parse_residency_info.
  rewrite scrape_name_eq, scrape_state_eq, scrape_city_eq, scrape_salary_eq,
    scrape_pto_eq, scrape_min_step_score_eq, scrape_avg_step_score_eq,
    scrape_resident_demographics_eq, scrape_last_updated_eq.
  cbn [bind].
  destruct (scrape_section page 10); cbn [bind]; [|reflexivity].
  destruct (scrape_section page 27); cbn [bind]; [|reflexivity].
  destruct (scrape_section page 19); cbn [bind]; [|reflexivity].
  destruct (scrape_section page 17); reflexivity.
Qed.

(** A page with a missing section gives the error of the first one that
    is missing, and no record. *)
Lemma parse_residency_info_missing (page : string) (n : Z) :
  first_missing page = Some n ->
  parse_residency_info page = Raise (section_error n).
Proof.
  rewrite parse_residency_info_eq.
  unfold first_missing, needed_sections. cbn [find].
  destruct (scrape_section_cases page 10) as [[-> ->] | (-> & s10 & ->)];
    cbn [negb bind]; [now intros [= <-]|].
  destruct (scrape_section_cases page 27) as [[-> ->] | (-> & s27 & ->)];
    cbn [negb bind]; [now intros [= <-]|].
  destruct (scrape_section_cases page 19) as [[-> ->] | (-> & s19 & ->)];
    cbn [negb bind]; [now intros [= <-]|].
  destruct (scrape_section_cases page 17) as [[-> ->] | (-> & s17 & ->)];
    cbn [negb bind]; [now intros [= <-]|].
  discriminate.
Qed.

(** A page with all its sections gives a record. *)
Lemma parse_residency_info_complete (page : string) :
  first_missing page = None ->
  exists s10 s27 s19 s17,
    scrape_section page 10 = Ok s10 /\
    scrape_section page 27 = Ok s27 /\
    scrape_section page 19 = Ok s19 /\
    scrape_section page 17 = Ok s17 /\
    parse_residency_info page = Ok (assemble page s10 s27 s19 s17).
Proof.
  rewrite parse_residency_info_eq.
  unfold first_missing, needed_sections. cbn [find].
  destruct (scrape_section_cases page 10) as [[-> ->] | (-> & s10 & ->)];
    cbn [negb bind]; [discriminate|].
  destruct (scrape_section_cases page 27) as [[-> ->] | (-> & s27 & ->)];
    cbn [negb bind]; [discriminate|].
  destruct (scrape_section_cases page 19) as [[-> ->] | (-> & s19 & ->)];
    cbn [negb bind]; [discriminate|].
  destruct (scrape_section_cases page 17) as [[-> ->] | (-> & s17 & ->)];
    cbn [negb bind]; [discriminate|].
  intros _. now exists s10, s27, s19, s17.
Qed.

Lemma first_missing_None (page : string) :
  first_missing page = None <->
  forallb (fun n => Py.contains (section_marker n) page) needed_sections
  = true.
Proof.
  unfold first_missing, needed_sections. cbn [find forallb].
  destruct (Py.contains (section_marker 10) page),
    (Py.contains (section_marker 27) page),
    (Py.contains (section_marker 19) page),
    (Py.contains (section_marker 17) page); cbn; split; congruence.
Qed.

(** ** Page fetch *)

Section Fetch.

Variable requests_get : string -> Response + requests_exn.

Lemma scrape_page_eq (id_ : Z) (w : world) :
  scrape_page requests_get id_ w
  = (page_result (requests_get (page_url id_)), visit w (page_url id_)).
Proof.
  unfold scrape_page, IO.bind, IO.try, get, page_result, visit.
  destruct (requests_get (page_url id_)) as [resp | []]; try reflexivity.
  destruct (status_code resp =? OK); cbn [negb]; [|reflexivity].
  destruct (Py.contains "Not Authorized" (text resp)); reflexivity.
Qed.

Lemma get_residency_info_eq (id_ : Z) (w : world) :
  get_residency_info requests_get id_ w
  = (page_source <- page_result (requests_get (page_url id_)) ;;
     parse_residency_info page_source,
     visit w (page_url id_)).
Proof.
  unfold get_residency_info, IO.bind, IO.lift. rewrite scrape_page_eq.
  destruct (page_result _); reflexivity.
Qed.

End Fetch.


(** ** Driver *)

Section Driver.

Variable requests_get : string -> Response + requests_exn.

Lemma well_formed_complete (resp : Response) :
  well_formed resp = true ->
  exists r, parse_residency_info (text resp) = Ok r.
Proof.
  unfold well_formed. rewrite !andb_true_iff. intros [_ H].
  apply first_missing_None, parse_residency_info_complete in H
    as (s10 & s27 & s19 & s17 & _ & _ & _ & _ & H).
  eauto.
Qed.

Lemma not_well_formed_missing (resp : Response) (n : Z) :
  first_missing (text resp) = Some n -> well_formed resp = false.
Proof.
  intros H. unfold well_formed.
  destruct (forallb _ needed_sections) eqn:E;
    [|now rewrite andb_false_r].
  apply first_missing_None in E. congruence.
Qed.

Ltac tidy :=
  cbn [requested stdout];
  rewrite ?app_nil_r, ?append_nil_r, ?append_assoc; reflexivity.

Lemma scrape_step_eq (all_residency_info : list ResidencyInfo) (id_ : Z)
  (w : world) :
  requests_get (page_url id_) <> inr OtherRequestException ->
  scrape_step requests_get all_residency_info id_ w
  = (Ok (all_residency_info ++ records_of requests_get id_)%list,
     {| requested := (requested w ++ [page_url id_])%list;
        stdout := stdout w ++ progress_line requests_get id_ |}).
Proof.
  intros Hother.
  unfold scrape_step, IO.bind, IO.try, IO.print, IO.ret.
  rewrite get_residency_info_eq.
  unfold records_of, progress_line, tag_of, page_result, visit.
  cbn [requested stdout].
  destruct (requests_get (page_url id_)) as [resp | []];
    [| | |congruence]; cbn [bind].
  - destruct (status_code resp =? OK) eqn:Est; cbn [bind].
    + destruct (Py.contains "Not Authorized" (text resp)) eqn:Ena;
        cbn [bind].
      * unfold well_formed. rewrite Est, Ena. cbn [negb andb].
        tidy.
      * destruct (first_missing (text resp)) as [n|] eqn:Em.
        -- rewrite (parse_residency_info_missing _ _ Em).
           unfold section_error.
           rewrite (not_well_formed_missing _ _ Em). cbn [andb].
           tidy.
        -- assert (well_formed resp = true) as Hwf.
           { unfold well_formed. rewrite Est, Ena.
             now apply first_missing_None in Em as ->. }
           rewrite Hwf.
           destruct (well_formed_complete _ Hwf) as [r ->].
           tidy.
    + unfold well_formed. rewrite Est. cbn [andb].
      tidy.
  - tidy.
  - tidy.
Qed.

Lemma scrape_loop_eq (ids : list Z) (all_residency_info : list ResidencyInfo)
  (w : world) :
  (forall id_, In id_ ids ->
               requests_get (page_url id_) <> inr OtherRequestException) ->
  scrape_loop requests_get ids all_residency_info w
  = (Ok (all_residency_info ++ flat_map (records_of requests_get) ids)%list,
     {| requested := (requested w ++ map page_url ids)%list;
        stdout := stdout w ++ console requests_get ids |}).
Proof.
  revert all_residency_info w.
  induction ids as [|id_ ids IH]; intros all_residency_info w H.
  - cbn. rewrite !app_nil_r, append_nil_r. now destruct w.
  - cbn [scrape_loop]. unfold IO.bind.
    rewrite scrape_step_eq by (apply H; now left).
    rewrite IH by (intros; apply H; now right).
    cbn [requested stdout flat_map map]. unfold console.
    cbn [map fold_right].
    now rewrite <- !app_assoc, append_assoc.
Qed.

Lemma records_of_length (id_ : Z) :
  List.length (records_of requests_get id_)
  = if well_formed_id requests_get id_ then 1%nat else 0%nat.
Proof.
  unfold records_of, well_formed_id.
  destruct (requests_get (page_url id_)) as [resp|]; [|reflexivity].
  destruct (well_formed resp) eqn:E; [|reflexivity].
  now destruct (well_formed_complete _ E) as [r ->].
Qed.

Lemma records_count (ids : list Z) :
  List.length (flat_map (records_of requests_get) ids)
  = List.length (filter (well_formed_id requests_get) ids).
Proof.
  induction ids as [|id_ ids IH]; [reflexivity|].
  cbn [flat_map filter]. rewrite length_app, records_of_length, IH.
  now destruct (well_formed_id requests_get id_).
Qed.

End Driver.


(** The first piece of the scan ends at the leftmost occurrence. *)
Lemma first_occ_hd (sep s : string) :
  sep <> "" -> Py.contains sep s = true ->
  first_occ sep (hd "" (Py.split_go sep 0 s)) s.
Proof.
  intros Hne H. apply contains_iff in H.
  destruct (first_occ_or_none sep s) as [Hno | (p & r & E & Hf)]; [tauto|].
  rewrite E in Hf |- *. now rewrite split_go_first.
Qed.

(** ** Absent fields *)

Lemma occurrences_occurs (sep : string) (k : nat) (s : string) :
  (1 <= k)%nat -> has_occurrences sep k s -> occurs sep s.
Proof.
  intros Hk (ps & Hlen & <-).
  destruct ps as [|a [|b ps]]; simpl in Hlen; try lia.
  exists a, (String.concat sep (b :: ps)). now rewrite concat_cons.
Qed.

Lemma safe_value_absent (source before after : string) (k : Z) :
  before <> "" -> after <> "" -> 1 <= k ->
  ~ occurs before source ->
  safe_value source before after k = "".
Proof.
  intros Hb Ha Hk Hno. unfold safe_value.
  rewrite safe_absent; try assumption; [reflexivity | lia |].
  intros H. apply Hno. apply (occurrences_occurs before (Z.to_nat k)); [lia|].
  exact H.
Qed.

Lemma bold_absent (section : string) (k : Z) :
  1 <= k -> ~ occurs span_bold section -> bold section k = "".
Proof.
  intros Hk Hno. unfold bold.
  apply safe_value_absent;
    [apply span_bold_nonempty | apply span_close_nonempty | | ]; assumption.
Qed.

Lemma first_missing_Some (page : string) (n : Z) :
  first_missing page = Some n ->
  In n needed_sections /\ scrape_section page n = Raise (section_error n).
Proof.
  intros H. apply find_some in H as [Hin H]. split; [assumption|].
  apply negb_true_iff in H.
  destruct (scrape_section_cases page n) as [[_ E] | [E _]];
    [exact E | congruence].
Qed.

Lemma first_missing_None_ok (page : string) (n : Z) :
  first_missing page = None -> In n needed_sections ->
  ~ raises (scrape_section page n).
Proof.
  intros H Hin [e He].
  apply (find_none _ _ H) in Hin. apply negb_false_iff in Hin.
  destruct (scrape_section_cases page n) as [[E _] | (_ & t & E)];
    congruence.
Qed.

(** ** The range of the scan *)

Lemma range_In (lo hi id_ : Z) : In id_ (range lo hi) <-> lo <= id_ < hi.
Proof.
  unfold range. rewrite in_map_iff. split.
  - intros (i & <- & Hi). apply in_seq in Hi. lia.
  - intros H. exists (Z.to_nat (id_ - lo)). split; [lia|].
    apply in_seq. lia.
Qed.

(** * The claims *)

(** ** Fragment extractor *)

(** C1, as stated, fails: in ["xAy"] the segment selected by ["A"] holds no
    ["B"], and strict extraction returns that segment instead of failing;
    and with an empty delimiter the failure is a [ValueError], not an
    extraction error. *)
Lemma scrape_item_between_after_missing :
  Py.contains "B" "y" = false /\
  scrape_item_between "xAy" "A" "B" 1 = Ok "y" /\
  scrape_item_between "xAy" "" "B" 1 = Raise ValueError.
Proof.
  repeat split.
Qed.

(** C1, amended.  For non-empty delimiters and a 1-based occurrence index:
    when the source holds fewer than [instance] occurrences of [before]
    (taken left to right, without overlap), strict extraction fails with a
    [ScrapingError] that carries the two delimiters; otherwise a segment is
    selected, and when it holds [after], strict extraction returns the text
    strictly between the [instance]-th [before] and the first [after] that
    follows. *)
Theorem scrape_item_between_spec
  (source before after : string) (instance : Z) :
  before <> "" -> after <> "" -> 1 <= instance ->
  (~ has_occurrences before (Z.to_nat instance) source ->
   scrape_item_between source before after instance
   = Raise (ScrapingError (scrape_item_msg before after))) /\
  (has_occurrences before (Z.to_nat instance) source ->
   exists seg, nth_segment before (Z.to_nat instance) source seg) /\
  (forall seg t,
      nth_segment before (Z.to_nat instance) source seg ->
      first_occ after t seg ->
      scrape_item_between source before after instance = Ok t /\
      exists pre rest, source = pre ++ before ++ t ++ after ++ rest).
Proof.
  intros Hb Ha Hi. split; [|split].
  - intros H.
    apply (proj2 (scrape_item_between_raises source before after instance
                    Hb Ha ltac:(lia))) in H as [e He].
    destruct (scrape_item_between_cases source before after instance Hb Ha)
      as [[t Ht] | H]; [congruence | exact H].
  - now apply occurrences_segment.
  - intros seg t Hseg Ht. split.
    + rewrite <- (Z2Nat.id instance) by lia.
      now apply scrape_item_between_found with (seg := seg).
    + replace (Z.to_nat instance) with (S (Z.to_nat (instance - 1)))
        in Hseg by lia.
      apply nth_segment_where in Hseg as (_ & pre & rest & -> & _);
        [|assumption].
      destruct Ht as [[r ->] _]. exists pre, (r ++ rest).
      now rewrite !append_assoc.
Qed.

Lemma scrape_item_between_spec_witness :
  "A" <> "" /\ "B" <> "" /\ 1 <= 1 /\
  nth_segment "A" (Z.to_nat 1) "xAyBz" "yBz" /\
  first_occ "B" "y" "yBz" /\
  scrape_item_between "xAyBz" "A" "B" 1 = Ok "y".
Proof.
  assert ("A" <> "") as Hb by discriminate.
  assert ("B" <> "") as Ha by discriminate.
  assert (1 <= 1) as Hi by lia.
  assert (nth_segment "A" (Z.to_nat 1) "xAyBz" "yBz") as Hseg
      by (apply split_nth_segment; [assumption | reflexivity]).
  assert (first_occ "B" "y" "yBz") as Ht
      by (apply (first_occ_hd "B" "yBz"); [assumption | reflexivity]).
  refine (conj Hb (conj Ha (conj Hi (conj Hseg (conj Ht _))))).
  apply (proj2 (proj2 (scrape_item_between_spec "xAyBz" "A" "B" 1 Hb Ha Hi))
           "yBz" "y" Hseg Ht).
Defined.

(** C8, as stated, fails: with an empty delimiter [split] raises a
    [ValueError], which the best-effort wrapper does not catch. *)
Lemma safe_scrape_item_between_empty_delimiter :
  safe_scrape_item_between "abc" "" "x" 1 = Raise ValueError.
Proof.
  reflexivity.
Qed.

(** C8, amended.  For non-empty delimiters, best-effort extraction never
    fails: it returns the empty string when strict extraction fails on the
    same arguments, and the result of strict extraction otherwise. *)
Theorem safe_scrape_item_between_spec
  (source before after : string) (instance : Z) :
  before <> "" -> after <> "" ->
  (raises (scrape_item_between source before after instance) /\
   safe_scrape_item_between source before after instance = Ok "") \/
  (exists t,
      scrape_item_between source before after instance = Ok t /\
      safe_scrape_item_between source before after instance = Ok t).
Proof.
  intros Hb Ha. unfold safe_scrape_item_between.
  destruct (scrape_item_between_cases source before after instance Hb Ha)
    as [[t Ht] | H].
  - right. exists t. now rewrite Ht.
  - left. rewrite H. split; [now eexists | reflexivity].
Qed.

Lemma safe_scrape_item_between_spec_witness :
  "A" <> "" /\ "B" <> "" /\
  ((raises (scrape_item_between "xAyBz" "A" "B" 2) /\
    safe_scrape_item_between "xAyBz" "A" "B" 2 = Ok "") \/
   (exists t,
       scrape_item_between "xAyBz" "A" "B" 2 = Ok t /\
       safe_scrape_item_between "xAyBz" "A" "B" 2 = Ok t)).
Proof.
  assert ("A" <> "") as Hb by discriminate.
  assert ("B" <> "") as Ha by discriminate.
  refine (conj Hb (conj Ha _)).
  apply (safe_scrape_item_between_spec "xAyBz" "A" "B" 2 Hb Ha).
Defined.

(** C10, as stated, fails: ["a"] holds one occurrence of ["a"], so the
    index 1 is in range, and strict extraction still fails, on the empty
    [after]. *)
Lemma scrape_item_between_empty_after :
  has_occurrences "a" 1 "a" /\
  scrape_item_between "a" "a" "" 1 = Raise ValueError.
Proof.
  split; [now exists [""; ""] | reflexivity].
Qed.

(** C10, amended.  For non-empty delimiters and a 1-based occurrence
    index: when the source holds at least [instance] occurrences of
    [before], a segment is selected, and if it holds no [after] strict
    extraction does not raise and returns the whole segment, which runs
    from the [instance]-th [before] to the next [before] or to the end of
    the source; the only cause of failure is an index out of range. *)
Theorem scrape_item_between_no_after
  (source before after : string) (instance : Z) :
  before <> "" -> after <> "" -> 1 <= instance ->
  (has_occurrences before (Z.to_nat instance) source ->
   exists seg,
     nth_segment before (Z.to_nat instance) source seg /\
     ~ occurs before seg /\
     (exists pre rest,
         source = pre ++ before ++ seg ++ rest /\
         (rest = "" \/ exists r, rest = before ++ r)) /\
     (~ occurs after seg ->
      scrape_item_between source before after instance = Ok seg)) /\
  (raises (scrape_item_between source before after instance) ->
   ~ has_occurrences before (Z.to_nat instance) source).
Proof.
  intros Hb Ha Hi. split.
  - intros H. apply occurrences_segment in H as [seg Hseg]; [|assumption].
    exists seg. split; [assumption|].
    pose proof Hseg as Hw.
    replace (Z.to_nat instance) with (S (Z.to_nat (instance - 1)))
      in Hw by lia.
    apply nth_segment_where in Hw as (Hno & Hw); [|assumption].
    repeat split; try assumption.
    intros Hafter. rewrite <- (Z2Nat.id instance) by lia.
    now apply scrape_item_between_not_found.
  - apply scrape_item_between_raises; (assumption || lia).
Qed.

Lemma scrape_item_between_no_after_witness :
  "A" <> "" /\ "B" <> "" /\ 1 <= 1 /\
  has_occurrences "A" (Z.to_nat 1) "xAyAz" /\
  scrape_item_between "xAyAz" "A" "B" 1 = Ok "y".
Proof.
  assert ("A" <> "") as Hb by discriminate.
  assert ("B" <> "") as Ha by discriminate.
  assert (1 <= 1) as Hi by lia.
  assert (has_occurrences "A" (Z.to_nat 1) "xAyAz") as Ho
      by (now exists ["x"; "yAz"]).
  refine (conj Hb (conj Ha (conj Hi (conj Ho _)))).
  destruct (proj1 (scrape_item_between_no_after "xAyAz" "A" "B" 1 Hb Ha Hi)
              Ho) as (seg & Hseg & _ & _ & H).
  apply nth_segment_split in Hseg; [|assumption].
  vm_compute in Hseg. injection Hseg as <-.
  apply H. now apply contains_false_iff.
Defined.


(** ** Section locator *)

(** C3, as stated, fails: the first source below has the marker of
    section 10 and lacks the marker of section 11, and section extraction
    returns the rest of the source instead of failing; the second source
    has both markers, in the other order, and the result is not a text
    between the marker of section 10 and the marker of section 11. *)
Lemma scrape_section_next_marker_missing :
  (Py.contains (section_marker 10) "10.&nbsp;abc" = true /\
   Py.contains (section_marker 11) "10.&nbsp;abc" = false /\
   scrape_section "10.&nbsp;abc" 10 = Ok "abc") /\
  (Py.contains (section_marker 10) "11.&nbsp;X10.&nbsp;Y" = true /\
   Py.contains (section_marker 11) "11.&nbsp;X10.&nbsp;Y" = true /\
   scrape_section "11.&nbsp;X10.&nbsp;Y" 10 = Ok "Y" /\
   Py.contains (section_marker 10 ++ "Y" ++ section_marker 11)
     "11.&nbsp;X10.&nbsp;Y" = false).
Proof.
  repeat split.
Qed.

(** C3, amended.  When the source lacks the marker of section [n], section
    extraction fails with a [ScrapingError]; when the text that goes from
    the first marker of [n] to the next marker of [n], or to the end of the
    source, holds the marker of [n + 1], section extraction returns the
    text strictly between that marker of [n] and the first marker of
    [n + 1] after it. *)
Theorem scrape_section_spec (source : string) (n : Z) :
  (~ occurs (section_marker n) source ->
   scrape_section source n = Raise (section_error n)) /\
  (forall seg t,
      nth_segment (section_marker n) 1 source seg ->
      first_occ (section_marker (n + 1)) t seg ->
      scrape_section source n = Ok t /\
      exists pre rest,
        source = pre ++ section_marker n ++ t
                 ++ section_marker (n + 1) ++ rest).
Proof.
  pose proof (section_marker_nonempty n) as Hb.
  pose proof (section_marker_nonempty (n + 1)) as Ha.
  split.
  - intros Hno. apply contains_false_iff in Hno.
    destruct (scrape_section_cases source n) as [[_ H] | (E & _)];
      [exact H | congruence].
  - intros seg t Hseg Ht. unfold scrape_section. split.
    + now apply (scrape_item_between_found source _ _ 1 seg t).
    + apply nth_segment_where in Hseg as (_ & pre & rest & -> & _);
        [|assumption].
      destruct Ht as [[r ->] _]. exists pre, (r ++ rest).
      now rewrite !append_assoc.
Qed.

Lemma scrape_section_spec_witness :
  nth_segment (section_marker 10) 1 "10.&nbsp;abc11.&nbsp;def" "abc11.&nbsp;def"
  /\ first_occ (section_marker (10 + 1)) "abc" "abc11.&nbsp;def"
  /\ scrape_section "10.&nbsp;abc11.&nbsp;def" 10 = Ok "abc".
Proof.
  assert (nth_segment (section_marker 10) 1 "10.&nbsp;abc11.&nbsp;def"
            "abc11.&nbsp;def") as Hseg
      by (apply split_nth_segment; [discriminate | reflexivity]).
  assert (first_occ (section_marker (10 + 1)) "abc" "abc11.&nbsp;def") as Ht
      by (apply (first_occ_hd (section_marker 11) "abc11.&nbsp;def");
          [discriminate | reflexivity]).
  refine (conj Hseg (conj Ht _)).
  apply (proj2 (scrape_section_spec "10.&nbsp;abc11.&nbsp;def" 10)
           _ "abc" Hseg Ht).
Defined.

(** ** Field parsers *)

(** C4.  When the compensation section (section 10) of a page holds eight
    bolded values, salary is the values of occurrence index 1, 3, 5, 7 and
    time off the values of index 2, 4, 6, 8.  The sample page, with the
    values 50000, 10, 52000, 12, 54000, 14, 56000, 16, is an instance. *)
Theorem salary_pto_apart
  (page f0 v1 f1 v2 f2 v3 f3 v4 f4 v5 f5 v6 f6 v7 f7 v8 f8 : string) :
  scrape_section page 10
  = Ok (f0 ++ bolded [(v1, f1); (v2, f2); (v3, f3); (v4, f4);
                      (v5, f5); (v6, f6); (v7, f7); (v8, f8)]) ->
  well_bolded f0 [(v1, f1); (v2, f2); (v3, f3); (v4, f4);
                  (v5, f5); (v6, f6); (v7, f7); (v8, f8)] = true ->
  scrape_salary page = Ok [v1; v3; v5; v7] /\
  scrape_pto page = Ok [v2; v4; v6; v8].
Proof.
  intros Hsec Hwb.
  rewrite scrape_salary_eq, scrape_pto_eq, Hsec. cbn [bind].
  unfold bold, safe_value.
  rewrite !safe_bolded_value by (assumption || lia).
  split; reflexivity.
Qed.

Lemma salary_pto_apart_witness :
  scrape_section example_page 10
  = Ok ("Salary and vacation: " ++ bolded example_items_10) /\
  well_bolded "Salary and vacation: " example_items_10 = true /\
  scrape_salary example_page = Ok ["50000"; "52000"; "54000"; "56000"] /\
  scrape_pto example_page = Ok ["10"; "12"; "14"; "16"].
Proof.
  assert (scrape_section example_page 10
          = Ok ("Salary and vacation: " ++ bolded example_items_10)) as Hsec
      by (vm_compute; reflexivity).
  assert (well_bolded "Salary and vacation: " example_items_10 = true) as Hwb
      by (vm_compute; reflexivity).
  refine (conj Hsec (conj Hwb _)).
  apply (salary_pto_apart example_page "Salary and vacation: "
           "50000" " / " "10" "<br>" "52000" " / " "12" "<br>"
           "54000" " / " "14" "<br>" "56000" " / " "16" "<br>" Hsec Hwb).
Defined.

(** C5.  For every page, the minimum test scores are the bolded values of
    occurrence index 2 and 3 of their section (section 27), the value of
    index 1 being skipped, and the demographics take the total at index 1,
    female at index 3 and male at index 4 of their section (section 17),
    the value of index 2 being skipped; in a section made of bolded values,
    the bolded value of index [k] is the [k]-th of them. *)
Theorem min_scores_and_demographics (page : string) :
  scrape_min_step_score page
  = (section <- scrape_section page 27 ;;
     Ok [bold section 2; bold section 3]) /\
  scrape_resident_demographics page
  = (section <- scrape_section page 17 ;;
     Ok {| total := bold section 1;
           female := bold section 3;
           male := bold section 4 |}) /\
  (forall f0 items k,
      well_bolded f0 items = true -> 1 <= k ->
      bold (f0 ++ bolded items) k = value items k).
Proof.
  split; [apply scrape_min_step_score_eq|].
  split; [apply scrape_resident_demographics_eq|].
  intros f0 items k Hwb Hk. unfold bold, safe_value.
  now rewrite safe_bolded_value.
Qed.

Lemma min_scores_and_demographics_witness :
  well_bolded "Minimum scores: " example_items_27 = true /\
  well_bolded "Residents: " example_items_17 = true /\
  scrape_min_step_score example_page = Ok ["200"; "210"] /\
  scrape_resident_demographics example_page
  = Ok {| total := "20"; female := "12"; male := "8" |}.
Proof.
  assert (well_bolded "Minimum scores: " example_items_27 = true) as Hwb27
      by (vm_compute; reflexivity).
  assert (well_bolded "Residents: " example_items_17 = true) as Hwb17
      by (vm_compute; reflexivity).
  assert (scrape_section example_page 27
          = Ok ("Minimum scores: " ++ bolded example_items_27)) as H27
      by (vm_compute; reflexivity).
  assert (scrape_section example_page 17
          = Ok ("Residents: " ++ bolded example_items_17)) as H17
      by (vm_compute; reflexivity).
  destruct (min_scores_and_demographics example_page)
    as (Hmin & Hdem & Hbold).
  refine (conj Hwb27 (conj Hwb17 (conj _ _))).
  - rewrite Hmin, H27. cbn [bind].
    rewrite !(Hbold _ _ _ Hwb27) by lia. reflexivity.
  - rewrite Hdem, H17. cbn [bind].
    rewrite !(Hbold _ _ _ Hwb17) by lia. reflexivity.
Defined.


(** ** Page fetch *)




(** C9, as stated, fails: a read timeout passes through the fetch as it
    is, not as a [ScrapingError]; and a success response whose body holds
    the auth marker gives an [AuthError], not the body. *)
Lemma scrape_page_timeout_passes :
  example_web (page_url 3) = inr ReadTimeout /\
  fst (scrape_page example_web 3 initial_world) = Raise (Requests ReadTimeout)
  /\
  example_web (page_url 4)
  = inl {| status_code := 200; text := "<html>Not Authorized</html>" |} /\
  fst (scrape_page example_web 4 initial_world) = Raise AuthError.
Proof.
  repeat split.
Qed.

(** C9, amended.  The fetch makes one request.  A connection error fails
    with [ScrapingError]; any other exception of the transport, a read
    timeout for one, passes unchanged; a response with a status other than
    the success status fails with a [ScrapingError] that carries the status
    code; a success response with the auth marker in its body fails with
    [AuthError]; any other response gives its raw body. *)
Theorem scrape_page_spec
  (requests_get : string -> Response + requests_exn) (id_ : Z) (w : world) :
  snd (scrape_page requests_get id_ w) = visit w (page_url id_) /\
  (requests_get (page_url id_) = inr ConnectionError ->
   fst (scrape_page requests_get id_ w)
   = Raise (ScrapingError "ConnectionError")) /\
  (forall e,
      requests_get (page_url id_) = inr e -> e <> ConnectionError ->
      fst (scrape_page requests_get id_ w) = Raise (Requests e)) /\
  (forall resp,
      requests_get (page_url id_) = inl resp ->
      (status_code resp <> OK ->
       fst (scrape_page requests_get id_ w)
       = Raise (ScrapingError ("Failed to get page. Status code "
                               ++ Py.str (status_code resp)))) /\
      (status_code resp = OK ->
       Py.contains "Not Authorized" (text resp) = true ->
       fst (scrape_page requests_get id_ w) = Raise AuthError) /\
      (status_code resp = OK ->
       Py.contains "Not Authorized" (text resp) = false ->
       fst (scrape_page requests_get id_ w) = Ok (text resp))).
Proof.
  rewrite scrape_page_eq. cbn [fst snd].
  split; [reflexivity|]. split; [|split].
  - now intros ->.
  - intros e -> He. now destruct e.
  - intros resp ->. cbn [page_result]. repeat split.
    + intros Hst. apply Z.eqb_neq in Hst. now rewrite Hst.
    + intros Hst Hna. apply Z.eqb_eq in Hst. now rewrite Hst, Hna.
    + intros Hst Hna. apply Z.eqb_eq in Hst. now rewrite Hst, Hna.
Qed.

Lemma scrape_page_spec_witness :
  example_web (page_url 2) = inr ConnectionError /\
  fst (scrape_page example_web 2 initial_world)
  = Raise (ScrapingError "ConnectionError") /\
  example_web (page_url 1)
  = inl {| status_code := 200; text := example_page |} /\
  Py.contains "Not Authorized" example_page = false /\
  fst (scrape_page example_web 1 initial_world) = Ok example_page.
Proof.
  assert (example_web (page_url 2) = inr ConnectionError) as H2
      by reflexivity.
  assert (example_web (page_url 1)
          = inl {| status_code := 200; text := example_page |}) as H1
      by reflexivity.
  assert (Py.contains "Not Authorized" example_page = false) as Hna
      by (vm_compute; reflexivity).
  refine (conj H2 (conj _ (conj H1 (conj Hna _)))).
  - apply (proj1 (proj2 (scrape_page_spec example_web 2 initial_world)) H2).
  - apply (proj2 (proj2 (proj2 (proj2 (proj2
             (scrape_page_spec example_web 1 initial_world))) _ H1))
             eq_refl Hna).
Defined.


(** ** Record assembler *)

(** C6.  The record assembler passes a failure of the page fetch to its
    caller as it is; on a fetched page, if the extraction of a section
    fails, it fails with the error of a failing section, unchanged, and
    returns no record; and if no section fails it returns a record, in
    which a field whose label or bolded value is absent is the empty
    string. *)
Theorem get_residency_info_all_or_nothing
  (requests_get : string -> Response + requests_exn) (id_ : Z) (w : world) :
  (forall e w',
      scrape_page requests_get id_ w = (Raise e, w') ->
      get_residency_info requests_get id_ w = (Raise e, w')) /\
  (forall page w',
      scrape_page requests_get id_ w = (Ok page, w') ->
      (forall n,
          In n needed_sections -> raises (scrape_section page n) ->
          exists n' e,
            In n' needed_sections /\
            scrape_section page n' = Raise e /\
            get_residency_info requests_get id_ w = (Raise e, w')) /\
      ((forall n, In n needed_sections -> ~ raises (scrape_section page n)) ->
       exists r,
         get_residency_info requests_get id_ w = (Ok r, w') /\
         (~ occurs ("Program Name:&nbsp;" ++ span_bold) page ->
          name r = "") /\
         (~ occurs ("&nbsp;State/Providence:&nbsp;" ++ span_bold) page ->
          state r = "") /\
         (~ occurs ("City:&nbsp;" ++ span_bold) page -> city r = "") /\
         (~ occurs ("Last Updated: " ++ span_bold) page ->
          last_updated r = "") /\
         (forall s10,
             scrape_section page 10 = Ok s10 -> ~ occurs span_bold s10 ->
             salary r = [""; ""; ""; ""] /\ pto r = [""; ""; ""; ""]) /\
         (forall s27,
             scrape_section page 27 = Ok s27 -> ~ occurs span_bold s27 ->
             min_step_scores r = [""; ""]) /\
         (forall s19,
             scrape_section page 19 = Ok s19 -> ~ occurs span_bold s19 ->
             avg_step_scores r = [""; ""]) /\
         (forall s17,
             scrape_section page 17 = Ok s17 -> ~ occurs span_bold s17 ->
             resident_demographics r
             = {| total := ""; male := ""; female := "" |}))).
Proof.
  split.
  - intros e w' H. unfold get_residency_info, IO.bind. now rewrite H.
  - intros page w' H.
    assert (get_residency_info requests_get id_ w
            = (parse_residency_info page, w')) as E
        by (unfold get_residency_info, IO.bind, IO.lift; now rewrite H).
    rewrite E. split.
    + intros n Hin Hraise.
      destruct (first_missing page) as [n'|] eqn:Em.
      * pose proof (first_missing_Some _ _ Em) as [Hin' Hsec].
        exists n', (section_error n'). repeat split; try assumption.
        now rewrite (parse_residency_info_missing _ _ Em).
      * now apply (first_missing_None_ok _ _ Em) in Hin.
    + intros Hall.
      destruct (first_missing page) as [n'|] eqn:Em.
      * pose proof (first_missing_Some _ _ Em) as [Hin' Hsec].
        exfalso. apply (Hall n' Hin'). eexists. exact Hsec.
      * apply parse_residency_info_complete in Em
          as (s10 & s27 & s19 & s17 & E10 & E27 & E19 & E17 & ->).
        eexists. split; [reflexivity|].
        cbn [assemble name state city salary pto min_step_scores
               avg_step_scores resident_demographics last_updated].
        assert (forall label after,
                   label <> "" -> after <> "" -> ~ occurs label page ->
                   safe_value page label after 1 = "") as Hlabel
            by (intros; apply safe_value_absent; (assumption || lia)).
        assert (forall s s' k,
                   Ok s' = Ok s -> 1 <= k -> ~ occurs span_bold s ->
                   bold s' k = "") as Hbold
            by (intros s s' k [= ->]; apply bold_absent).
        repeat match goal with
               | |- _ /\ _ => split
               | |- ~ _ -> _ = "" =>
                   intros Hno; apply Hlabel;
                   [vm_compute; discriminate | discriminate | assumption]
               end.
        -- intros s Hs Hno. rewrite E10 in Hs.
           now rewrite !(Hbold s s10) by (assumption || lia).
        -- intros s Hs Hno. rewrite E27 in Hs.
           now rewrite !(Hbold s s27) by (assumption || lia).
        -- intros s Hs Hno. rewrite E19 in Hs.
           now rewrite !(Hbold s s19) by (assumption || lia).
        -- intros s Hs Hno. rewrite E17 in Hs.
           now rewrite !(Hbold s s17) by (assumption || lia).
Qed.


Lemma get_residency_info_all_or_nothing_witness :
  scrape_page example_web 4 initial_world
  = (Raise AuthError, visit initial_world (page_url 4)) /\
  get_residency_info example_web 4 initial_world
  = (Raise AuthError, visit initial_world (page_url 4)) /\
  scrape_page bare_web 1 initial_world
  = (Ok bare_page, visit initial_world (page_url 1)) /\
  (forall n, In n needed_sections -> ~ raises (scrape_section bare_page n)) /\
  exists r,
    get_residency_info bare_web 1 initial_world
    = (Ok r, visit initial_world (page_url 1)) /\
    name r = "".
Proof.
  assert (scrape_page example_web 4 initial_world
          = (Raise AuthError, visit initial_world (page_url 4))) as Hauth
      by (vm_compute; reflexivity).
  assert (scrape_page bare_web 1 initial_world
          = (Ok bare_page, visit initial_world (page_url 1))) as Hpage
      by (vm_compute; reflexivity).
  assert (forall n, In n needed_sections ->
                    ~ raises (scrape_section bare_page n)) as Hall.
  { intros n Hin [e He].
    destruct Hin as [<- | [<- | [<- | [<- | []]]]];
      vm_compute in He; discriminate. }
  refine (conj Hauth (conj _ (conj Hpage (conj Hall _)))).
  - apply (proj1 (get_residency_info_all_or_nothing
                    example_web 4 initial_world) _ _ Hauth).
  - destruct (proj2 (proj2 (get_residency_info_all_or_nothing
                              bare_web 1 initial_world) _ _ Hpage) Hall)
      as (r & Hr & Hname & _).
    exists r. split; [exact Hr|].
    apply Hname. apply contains_false_iff. vm_compute. reflexivity.
Defined.

(** ** Driver *)

(** C7, as stated, fails: a request can time out in two ways, and the
    driver skips only one of them.  A timeout while reading the answer is
    skipped as an auth error is; a timeout while connecting is a connection
    error, which the page fetch turns into a [ScrapingError]: the line of
    the identifier ends with FAIL, not with SKIP. *)
Lemma scrape_connect_timeout_fails :
  connect_timeout_web (page_url 1) = inr ConnectTimeout /\
  scrape_step connect_timeout_web [] 1 initial_world
  = (Ok [],
     {| requested := [page_url 1];
        stdout := "Scraping id 1..." ++ tab ++ "FAIL" ++ newline |}) /\
  read_timeout_web (page_url 1) = inr ReadTimeout /\
  scrape_step read_timeout_web [] 1 initial_world
  = (Ok [],
     {| requested := [page_url 1];
        stdout := "Scraping id 1..." ++ tab ++ "SKIP" ++ newline |}) /\
  example_web (page_url 4)
  = inl {| status_code := 200; text := "<html>Not Authorized</html>" |} /\
  scrape_step example_web [] 4 initial_world
  = (Ok [],
     {| requested := [page_url 4];
        stdout := "Scraping id 4..." ++ tab ++ "SKIP" ++ newline |}).
Proof.
  repeat split.
Qed.

(** C7, amended.  Whatever the web answers to the scanned identifiers, as
    long as each answer is a response, a connection error (a timeout while
    connecting is one) or a read timeout, the driver goes through the
    whole range 1 to 286, asks for each page once and in order, and
    returns the records of the identifiers whose page is well formed, in
    ascending order of identifier, so that their number is the number of
    these identifiers.  An auth error and a read timeout are handled in
    the same way: the line of the identifier ends with SKIP and the list
    of records is left as it is.  A connection error, a timeout while
    connecting included, is not: the line of the identifier ends with
    FAIL; the list of records is left as it is there too. *)
Theorem scrape_full_range
  (requests_get : string -> Response + requests_exn) :
  (forall id_, 1 <= id_ < LAST_ID ->
               requests_get (page_url id_) <> inr OtherRequestException) ->
  exists records w,
    scrape requests_get initial_world = (Ok records, w) /\
    range 1 LAST_ID = map Z.of_nat (seq 1 286) /\
    requested w = map page_url (range 1 LAST_ID) /\
    records = flat_map (records_of requests_get) (range 1 LAST_ID) /\
    List.length records
    = List.length (filter (well_formed_id requests_get) (range 1 LAST_ID)) /\
    stdout w = "Starting Scraper..." ++ newline
               ++ console requests_get (range 1 LAST_ID)
               ++ "Done." ++ newline /\
    (forall id_ all_residency_info w0,
        (requests_get (page_url id_) = inr ReadTimeout \/
         exists resp,
           requests_get (page_url id_) = inl resp /\
           status_code resp = OK /\
           Py.contains "Not Authorized" (text resp) = true) ->
        scrape_step requests_get all_residency_info id_ w0
        = (Ok all_residency_info,
           {| requested := (requested w0 ++ [page_url id_])%list;
              stdout := stdout w0 ++ "Scraping id " ++ Py.str id_ ++ "..."
                        ++ tab ++ "SKIP" ++ newline |})) /\
    (forall id_ all_residency_info w0,
        requests_get (page_url id_) = inr ConnectionError ->
        scrape_step requests_get all_residency_info id_ w0
        = (Ok all_residency_info,
           {| requested := (requested w0 ++ [page_url id_])%list;
              stdout := stdout w0 ++ "Scraping id " ++ Py.str id_ ++ "..."
                        ++ tab ++ "FAIL" ++ newline |})).
Proof.
  intros Hweb.
  exists (flat_map (records_of requests_get) (range 1 LAST_ID)).
  eexists. split; [|split; [|split; [|split; [|split; [|split; [|split]]]]]].
  - unfold scrape, IO.bind, IO.print, IO.ret.
    rewrite scrape_loop_eq by (intros id_ Hin; apply Hweb, range_In, Hin).
    cbn [requested stdout initial_world app]. reflexivity.
  - vm_compute. reflexivity.
  - reflexivity.
  - reflexivity.
  - apply records_count.
  - cbn [stdout]. now rewrite !append_assoc.
  - intros id_ all_residency_info w0 H.
    rewrite scrape_step_eq.
    + unfold records_of, progress_line, tag_of.
      destruct H as [-> | (resp & -> & Hst & Hna)].
      * now rewrite app_nil_r.
      * apply Z.eqb_eq in Hst. unfold well_formed.
        rewrite Hst, Hna. cbn [negb andb]. now rewrite app_nil_r.
    + destruct H as [-> | (resp & -> & _)]; discriminate.
  - intros id_ all_residency_info w0 H.
    rewrite scrape_step_eq by (rewrite H; discriminate).
    unfold records_of, progress_line, tag_of. rewrite H.
    now rewrite app_nil_r.
Qed.

Lemma scrape_full_range_witness :
  (forall id_, 1 <= id_ < LAST_ID ->
               example_web (page_url id_) <> inr OtherRequestException) /\
  exists records w,
    scrape example_web initial_world = (Ok records, w) /\
    requested w = map page_url (range 1 LAST_ID) /\
    List.length records = 1%nat.
Proof.
  assert (forall id_, 1 <= id_ < LAST_ID ->
                      example_web (page_url id_)
                      <> inr OtherRequestException) as Hweb.
  { intros id_ _. unfold example_web.
    destruct (page_url id_ =? page_url 1)%string; [discriminate|].
    destruct (page_url id_ =? page_url 2)%string; [discriminate|].
    destruct (page_url id_ =? page_url 3)%string; discriminate. }
  split; [exact Hweb|].
  destruct (scrape_full_range example_web Hweb)
    as (records & w & Hrun & _ & Hreq & _ & Hlen & _).
  exists records, w. split; [exact Hrun|]. split; [exact Hreq|].
  rewrite Hlen. vm_compute. reflexivity.
Defined.

(** * Further properties of the program *)

(** ** Pieces of a split *)

Lemma occurs_refl (s : string) : occurs s s.
Proof.
  exists "", "". simpl. now rewrite append_nil_r.
Qed.

Lemma occurs_trans (a b c : string) : occurs a b -> occurs b c -> occurs a c.
Proof.
  intros (x & y & ->) (x' & y' & ->). exists (x' ++ x), (y ++ y').
  now rewrite !append_assoc.
Qed.

Lemma occurs_prefix (t r : string) : occurs t (t ++ r).
Proof.
  now exists "", r.
Qed.

Lemma occurs_empty (s : string) : occurs "" s.
Proof.
  now exists "", s.
Qed.

Lemma not_occurs_empty (sep : string) : sep <> "" -> ~ occurs sep "".
Proof.
  intros Hne (a & b & H). destruct a; [destruct sep; [congruence|]|];
    discriminate.
Qed.

(** Each piece is a part of the string and holds no separator. *)
Lemma pieces_clean (sep : string) :
  sep <> "" ->
  forall s p, In p (Py.split_go sep 0 s) -> ~ occurs sep p /\ occurs p s.
Proof.
  intros Hne s. remember (String.length s) as m eqn:Hm. revert s Hm.
  induction m as [m IH] using lt_wf_ind. intros s -> p Hin.
  destruct (first_occ_or_none sep s) as [Hno | (q & r & -> & Hf)].
  - rewrite split_go_none in Hin by assumption.
    destruct Hin as [<- | []]. split; [assumption | apply occurs_refl].
  - rewrite split_go_first in Hin by assumption.
    destruct Hin as [<- | Hin].
    + split; [now apply first_occ_no_occ in Hf | apply occurs_prefix].
    + apply (IH (String.length r)) in Hin as [Hp Hr]; [| | reflexivity].
      * split; [assumption|].
        apply (occurs_trans _ _ _ Hr). now exists (q ++ sep), "";
          rewrite append_nil_r, append_assoc.
      * rewrite !length_append. destruct sep; [congruence | simpl; lia].
Qed.

(** The first piece is the start of the string, up to the first separator
    or to the end. *)
Lemma first_piece (sep s : string) :
  sep <> "" ->
  ~ occurs sep (hd "" (Py.split_go sep 0 s)) /\
  exists r,
    s = hd "" (Py.split_go sep 0 s) ++ r /\
    (r = "" \/ exists r', r = sep ++ r').
Proof.
  intros Hne.
  destruct (first_occ_or_none sep s) as [Hno | (q & r & -> & Hf)].
  - rewrite split_go_none by assumption. cbn [hd].
    split; [assumption|]. exists "". rewrite append_nil_r. now split; [|left].
  - rewrite split_go_first by assumption. cbn [hd].
    split; [now apply first_occ_no_occ in Hf|].
    exists (sep ++ r). split; [reflexivity | right; now exists r].
Qed.

Lemma not_occurs_part (sep t s : string) :
  ~ occurs sep s -> occurs t s -> ~ occurs sep t.
Proof.
  intros Hno Ht Hsep. apply Hno. now apply (occurs_trans _ t).
Qed.

Lemma index_In {A : Type} (l : list A) (i : Z) (a : A) :
  Py.index l i = Ok a -> In a l.
Proof.
  unfold Py.index. destruct (_ && _); [|discriminate].
  destruct (nth_error l _) as [b|] eqn:E; [|discriminate].
  intros [= <-]. now apply nth_error_In in E.
Qed.

(** ** What strict and best-effort extraction return *)

(** Whatever the index, a text that strict extraction returns is a part of
    the source and holds neither delimiter; and so is the text that
    best-effort extraction returns, which always returns. *)
Theorem extracted_text_clean
  (source before after : string) (instance : Z) :
  before <> "" -> after <> "" ->
  (forall t,
      scrape_item_between source before after instance = Ok t ->
      ~ occurs before t /\ ~ occurs after t /\ occurs t source) /\
  (exists t,
      safe_scrape_item_between source before after instance = Ok t /\
      ~ occurs before t /\ ~ occurs after t /\ occurs t source).
Proof.
  intros Hb Ha.
  assert (forall t,
             scrape_item_between source before after instance = Ok t ->
             ~ occurs before t /\ ~ occurs after t /\ occurs t source) as H.
  { intros t. unfold scrape_item_between.
    rewrite split_nonempty by assumption. cbn [bind].
    destruct (Py.index (Py.split_go before 0 source) instance)
      as [seg | e] eqn:E; cbn [bind]; [|destruct e; discriminate].
    rewrite split_nonempty by assumption. cbn [bind].
    rewrite index_split_0. intros [= <-].
    apply index_In, (pieces_clean before Hb) in E as [Hseg Hsrc].
    destruct (first_piece after seg Ha) as (Hafter & r & Hr & _).
    assert (occurs (hd "" (Py.split_go after 0 seg)) seg) as Hpart
        by (rewrite Hr at 2; apply occurs_prefix).
    repeat split.
    - now apply (not_occurs_part before _ seg).
    - assumption.
    - now apply (occurs_trans _ seg). }
  split; [exact H|].
  unfold safe_scrape_item_between.
  destruct (scrape_item_between_cases source before after instance Hb Ha)
    as [[t Ht] | He].
  - rewrite Ht. exists t. split; [reflexivity | now apply H].
  - rewrite He. exists "". split; [reflexivity|].
    repeat split; [now apply not_occurs_empty | now apply not_occurs_empty
                  | apply occurs_empty].
Qed.

Lemma extracted_text_clean_witness :
  "<b>" <> "" /\ "</b>" <> "" /\
  scrape_item_between "x<b>y</b>z" "<b>" "</b>" 1 = Ok "y" /\
  ~ occurs "<b>" "y" /\ ~ occurs "</b>" "y" /\ occurs "y" "x<b>y</b>z".
Proof.
  assert ("<b>" <> "") as Hb by discriminate.
  assert ("</b>" <> "") as Ha by discriminate.
  assert (scrape_item_between "x<b>y</b>z" "<b>" "</b>" 1 = Ok "y") as Hy
      by reflexivity.
  refine (conj Hb (conj Ha (conj Hy _))).
  apply (proj1 (extracted_text_clean "x<b>y</b>z" "<b>" "</b>" 1 Hb Ha)
           "y" Hy).
Defined.

(** ** Index zero and negative indices *)

Lemma index_negative {A : Type} (l : list A) (i : Z) :
  i < 0 ->
  Py.index l i
  = if 0 <=? Z.of_nat (List.length l) + i
    then Py.index l (Z.of_nat (List.length l) + i)
    else Raise IndexError.
Proof.
  intros Hi. unfold Py.index. cbv zeta.
  replace (i <? 0) with true by (symmetry; apply Z.ltb_lt; lia).
  destruct (0 <=? Z.of_nat (List.length l) + i) eqn:E; cbn [andb].
  - pose proof (proj1 (Z.leb_le _ _) E) as E'.
    replace (Z.of_nat (List.length l) + i <? 0) with false
      by (symmetry; apply Z.ltb_ge; lia).
    now rewrite E.
  - reflexivity.
Qed.

Lemma nth_error_hd {A : Type} (d : A) (l : list A) :
  l <> [] -> nth_error l 0 = Some (hd d l).
Proof.
  destruct l; [congruence | reflexivity].
Qed.

Lemma exactly_occurrences (sep : string) (n : nat) (s : string) :
  sep <> "" ->
  has_occurrences sep n s -> ~ has_occurrences sep (S n) s ->
  List.length (Py.split_go sep 0 s) = S n.
Proof.
  intros Hne H1 H2. rewrite occurrences_iff in H1, H2 by assumption. lia.
Qed.

Lemma first_piece_exact (sep s : string) :
  sep <> "" ->
  first_occ sep (hd "" (Py.split_go sep 0 s)) s \/
  (~ occurs sep s /\ hd "" (Py.split_go sep 0 s) = s).
Proof.
  intros Hne.
  destruct (first_occ_or_none sep s) as [Hno | (q & r & -> & Hf)].
  - right. rewrite split_go_none by assumption. now split.
  - left. rewrite split_go_first by assumption. exact Hf.
Qed.

(** At index 0 the source is cut at [before] first, then at [after]: the
    text may run past the place where the first [after] starts, when that
    [after] reaches into the first [before]. *)
Example scrape_item_between_index_0_cut_order :
  scrape_item_between "xaby" "b" "ab" 0 = Ok "xa".
Proof.
  reflexivity.
Qed.

(** With delimiters that are not empty, the index of strict extraction is
    a Python list index.  Index 0 never fails: it gives the part [p] of
    the source that precedes the first occurrence of [before] (the whole
    source when there is none), cut at the first occurrence of [after] in
    [p] (the whole of [p] when there is none); so the text is a start of
    the source, followed there by nothing or by one of the delimiters.  A
    negative index counts the segments from the end: in a source with
    exactly [n] occurrences of [before], the index [-k] is the index
    [n + 1 - k] when [k <= n + 1], and fails when [k > n + 1]. *)
Theorem scrape_item_between_index
  (source before after : string) (n : nat) :
  before <> "" -> after <> "" ->
  has_occurrences before n source ->
  ~ has_occurrences before (S n) source ->
  (exists p t,
      scrape_item_between source before after 0 = Ok t /\
      (first_occ before p source \/ (~ occurs before source /\ p = source))
      /\
      (first_occ after t p \/ (~ occurs after p /\ t = p))) /\
  (exists t rest,
      scrape_item_between source before after 0 = Ok t /\
      source = t ++ rest /\
      (rest = "" \/ (exists r, rest = before ++ r)
       \/ (exists r, rest = after ++ r))) /\
  (forall instance,
      instance < 0 -> - instance <= Z.of_nat n + 1 ->
      scrape_item_between source before after instance
      = scrape_item_between source before after
          (Z.of_nat n + 1 + instance)) /\
  (forall instance,
      instance < - (Z.of_nat n + 1) ->
      scrape_item_between source before after instance
      = Raise (ScrapingError (scrape_item_msg before after))).
Proof.
  intros Hb Ha H1 H2.
  pose proof (exactly_occurrences before n source Hb H1 H2) as Hlen.
  split; [|split; [|split]].
  - rewrite scrape_item_between_eq by (assumption || lia).
    change (Z.to_nat 0) with 0%nat.
    rewrite (nth_error_hd "") by apply split_go_nonempty.
    eexists _, _. split; [reflexivity|]. split.
    + apply first_piece_exact. exact Hb.
    + apply first_piece_exact. exact Ha.
  - rewrite scrape_item_between_eq by (assumption || lia).
    change (Z.to_nat 0) with 0%nat.
    rewrite (nth_error_hd "") by apply split_go_nonempty.
    destruct (first_piece before source Hb) as (_ & r1 & Hs & Hr1).
    destruct (first_piece after (hd "" (Py.split_go before 0 source)) Ha)
      as (_ & r2 & Hseg & Hr2).
    eexists. exists (r2 ++ r1). split; [reflexivity|]. split.
    + rewrite <- append_assoc, <- Hseg. exact Hs.
    + destruct Hr2 as [-> | [r' ->]].
      * destruct Hr1 as [-> | Hr1]; [now left | right; now left].
      * right. right. exists (r' ++ r1). now rewrite append_assoc.
  - intros instance Hneg Hk. unfold scrape_item_between.
    rewrite split_nonempty by assumption. cbn [bind].
    rewrite index_negative by assumption. rewrite Hlen.
    replace (0 <=? Z.of_nat (S n) + instance) with true
      by (symmetry; apply Z.leb_le; lia).
    replace (Z.of_nat (S n) + instance) with (Z.of_nat n + 1 + instance)
      by lia.
    reflexivity.
  - intros instance Hk. unfold scrape_item_between.
    rewrite split_nonempty by assumption. cbn [bind].
    rewrite index_negative by lia. rewrite Hlen.
    replace (0 <=? Z.of_nat (S n) + instance) with false
      by (symmetry; apply Z.leb_gt; lia).
    reflexivity.
Qed.

Lemma scrape_item_between_index_witness :
  "<b>" <> "" /\ "</b>" <> "" /\
  has_occurrences "<b>" 2 "p<b>x</b><b>y</b>" /\
  ~ has_occurrences "<b>" 3 "p<b>x</b><b>y</b>" /\
  scrape_item_between "p<b>x</b><b>y</b>" "<b>" "</b>" (-1)
  = scrape_item_between "p<b>x</b><b>y</b>" "<b>" "</b>" (2 + 1 + -1) /\
  scrape_item_between "p<b>x</b><b>y</b>" "<b>" "</b>" (-4)
  = Raise (ScrapingError (scrape_item_msg "<b>" "</b>")).
Proof.
  assert ("<b>" <> "") as Hb by discriminate.
  assert ("</b>" <> "") as Ha by discriminate.
  assert (has_occurrences "<b>" 2 "p<b>x</b><b>y</b>") as H1
      by (now exists ["p"; "x</b>"; "y</b>"]).
  assert (~ has_occurrences "<b>" 3 "p<b>x</b><b>y</b>") as H2.
  { intros H. apply occurrences_iff in H; [|assumption].
    vm_compute in H. lia. }
  refine (conj Hb (conj Ha (conj H1 (conj H2 _)))).
  destruct (scrape_item_between_index "p<b>x</b><b>y</b>" "<b>" "</b>" 2
              Hb Ha H1 H2) as (_ & _ & Hneg & Hout).
  split; [apply (Hneg (-1)); lia | apply (Hout (-4)); lia].
Defined.

(** ** The parsers of the labelled fields *)





(** ** The parsers of the sections *)

(** Salary and time off for any number of bolded values in section 10:
    salary takes the values of index 1, 3, 5, 7 and time off those of index
    2, 4, 6, 8, and an index past the last value gives the empty string;
    no value moves to another place. *)
Theorem salary_pto_any_length
  (page f0 : string) (items : list (string * string)) :
  scrape_section page 10 = Ok (f0 ++ bolded items) ->
  well_bolded f0 items = true ->
  scrape_salary page
  = Ok [value items 1; value items 3; value items 5; value items 7] /\
  scrape_pto page
  = Ok [value items 2; value items 4; value items 6; value items 8] /\
  (forall k, 1 <= k <= Z.of_nat (List.length items) ->
             nth_error (map fst items) (Z.to_nat (k - 1))
             = Some (value items k)) /\
  (forall k, Z.of_nat (List.length items) < k -> value items k = "").
Proof.
  intros Hsec Hwb.
  rewrite scrape_salary_eq, scrape_pto_eq, Hsec. cbn [bind].
  unfold bold, safe_value.
  rewrite !safe_bolded_value by (assumption || lia).
  repeat split.
  - intros k Hk. unfold value. apply nth_error_nth'.
    rewrite length_map. lia.
  - intros k Hk. unfold value. apply nth_overflow.
    rewrite length_map. lia.
Qed.

Lemma salary_pto_any_length_witness :
  scrape_section
    ("10.&nbsp;" ++ ("PGY: " ++ bolded [("50000", " "); ("10", " ");
                                         ("52000", "")]) ++ "11.&nbsp;") 10
  = Ok ("PGY: " ++ bolded [("50000", " "); ("10", " "); ("52000", "")]) /\
  well_bolded "PGY: " [("50000", " "); ("10", " "); ("52000", "")] = true /\
  scrape_salary
    ("10.&nbsp;" ++ ("PGY: " ++ bolded [("50000", " "); ("10", " ");
                                         ("52000", "")]) ++ "11.&nbsp;")
  = Ok ["50000"; "52000"; ""; ""] /\
  scrape_pto
    ("10.&nbsp;" ++ ("PGY: " ++ bolded [("50000", " "); ("10", " ");
                                         ("52000", "")]) ++ "11.&nbsp;")
  = Ok ["10"; ""; ""; ""].
Proof.
  assert (scrape_section
            ("10.&nbsp;" ++ ("PGY: " ++ bolded [("50000", " "); ("10", " ");
                                                 ("52000", "")])
             ++ "11.&nbsp;") 10
          = Ok ("PGY: " ++ bolded [("50000", " "); ("10", " ");
                                    ("52000", "")])) as Hsec
      by (vm_compute; reflexivity).
  assert (well_bolded "PGY: " [("50000", " "); ("10", " "); ("52000", "")]
          = true) as Hwb by (vm_compute; reflexivity).
  refine (conj Hsec (conj Hwb _)).
  destruct (salary_pto_any_length _ _ _ Hsec Hwb) as (Hs & Hp & _).
  split; [exact Hs | exact Hp].
Defined.

(** Average test scores are the bolded values of index 1 and 2 of section
    19, empty where the section has no such value. *)
Theorem average_scores
  (page f0 : string) (items : list (string * string)) :
  scrape_section page 19 = Ok (f0 ++ bolded items) ->
  well_bolded f0 items = true ->
  scrape_avg_step_score page = Ok [value items 1; value items 2].
Proof.
  intros Hsec Hwb.
  rewrite scrape_avg_step_score_eq, Hsec. cbn [bind].
  unfold bold, safe_value.
  now rewrite !safe_bolded_value by (assumption || lia).
Qed.

Lemma average_scores_witness :
  scrape_section example_page 19
  = Ok ("Average scores: " ++ bolded example_items_19) /\
  well_bolded "Average scores: " example_items_19 = true /\
  scrape_avg_step_score example_page = Ok ["230"; "240"].
Proof.
  assert (scrape_section example_page 19
          = Ok ("Average scores: " ++ bolded example_items_19)) as Hsec
      by (vm_compute; reflexivity).
  assert (well_bolded "Average scores: " example_items_19 = true) as Hwb
      by (vm_compute; reflexivity).
  refine (conj Hsec (conj Hwb _)).
  apply (average_scores example_page "Average scores: " example_items_19
           Hsec Hwb).
Defined.

(** The five parsers that read a section fail in one way only, the missing
    marker of their section, with the error of that section; on a page that
    has the marker they return, and the lists have their fixed length: four
    salaries, four times off, two minimum and two average scores. *)
Theorem section_parsers_shape (page : string) :
  (Py.contains (section_marker 10) page = false ->
   scrape_salary page = Raise (section_error 10) /\
   scrape_pto page = Raise (section_error 10)) /\
  (Py.contains (section_marker 10) page = true ->
   exists s1 s2 s3 s4 p1 p2 p3 p4,
     scrape_salary page = Ok [s1; s2; s3; s4] /\
     scrape_pto page = Ok [p1; p2; p3; p4]) /\
  (Py.contains (section_marker 27) page = false ->
   scrape_min_step_score page = Raise (section_error 27)) /\
  (Py.contains (section_marker 27) page = true ->
   exists m1 m2, scrape_min_step_score page = Ok [m1; m2]) /\
  (Py.contains (section_marker 19) page = false ->
   scrape_avg_step_score page = Raise (section_error 19)) /\
  (Py.contains (section_marker 19) page = true ->
   exists a1 a2, scrape_avg_step_score page = Ok [a1; a2]) /\
  (Py.contains (section_marker 17) page = false ->
   scrape_resident_demographics page = Raise (section_error 17)) /\
  (Py.contains (section_marker 17) page = true ->
   exists d, scrape_resident_demographics page = Ok d).
Proof.
  rewrite scrape_salary_eq, scrape_pto_eq, scrape_min_step_score_eq,
    scrape_avg_step_score_eq, scrape_resident_demographics_eq.
  destruct (scrape_section_cases page 10) as [[E10 ->] | (E10 & s10 & ->)];
    destruct (scrape_section_cases page 27) as [[E27 ->] | (E27 & s27 & ->)];
    destruct (scrape_section_cases page 19) as [[E19 ->] | (E19 & s19 & ->)];
    destruct (scrape_section_cases page 17) as [[E17 ->] | (E17 & s17 & ->)];
    rewrite E10, E27, E19, E17; cbn [bind];
    repeat split; try discriminate; intros _; try reflexivity;
    repeat eexists.
Qed.

Lemma section_parsers_shape_witness :
  Py.contains (section_marker 10) bare_page = true /\
  Py.contains (section_marker 19)
    "Program Name:&nbsp;<span>none</span>" = false /\
  (exists s1 s2 s3 s4 p1 p2 p3 p4,
      scrape_salary bare_page = Ok [s1; s2; s3; s4] /\
      scrape_pto bare_page = Ok [p1; p2; p3; p4]) /\
  scrape_avg_step_score "Program Name:&nbsp;<span>none</span>"
  = Raise (section_error 19).
Proof.
  assert (Py.contains (section_marker 10) bare_page = true) as H10
      by (vm_compute; reflexivity).
  assert (Py.contains (section_marker 19)
            "Program Name:&nbsp;<span>none</span>" = false) as H19
      by (vm_compute; reflexivity).
  refine (conj H10 (conj H19 (conj _ _))).
  - apply (proj1 (proj2 (section_parsers_shape bare_page)) H10).
  - apply (proj1 (proj2 (proj2 (proj2 (proj2
             (section_parsers_shape
                "Program Name:&nbsp;<span>none</span>"))))) H19).
Defined.

(** ** Record assembler: which error, and when a record *)

(** On a fetched page that lacks several sections, the record assembler
    reports one of them: section 10 before section 27, section 27 before
    section 19, section 19 before section 17, the order in which the fields
    of the record are computed.  The error carries the marker of the
    section and the marker of the next one. *)
Theorem missing_section_order
  (requests_get : string -> Response + requests_exn) (id_ : Z) (w : world)
  (resp : Response) :
  requests_get (page_url id_) = inl resp ->
  status_code resp = OK ->
  Py.contains "Not Authorized" (text resp) = false ->
  (Py.contains "10.&nbsp;" (text resp) = false ->
   fst (get_residency_info requests_get id_ w)
   = Raise (ScrapingError (scrape_item_msg "10.&nbsp;" "11.&nbsp;"))) /\
  (Py.contains "10.&nbsp;" (text resp) = true ->
   Py.contains "27.&nbsp;" (text resp) = false ->
   fst (get_residency_info requests_get id_ w)
   = Raise (ScrapingError (scrape_item_msg "27.&nbsp;" "28.&nbsp;"))) /\
  (Py.contains "10.&nbsp;" (text resp) = true ->
   Py.contains "27.&nbsp;" (text resp) = true ->
   Py.contains "19.&nbsp;" (text resp) = false ->
   fst (get_residency_info requests_get id_ w)
   = Raise (ScrapingError (scrape_item_msg "19.&nbsp;" "20.&nbsp;"))) /\
  (Py.contains "10.&nbsp;" (text resp) = true ->
   Py.contains "27.&nbsp;" (text resp) = true ->
   Py.contains "19.&nbsp;" (text resp) = true ->
   Py.contains "17.&nbsp;" (text resp) = false ->
   fst (get_residency_info requests_get id_ w)
   = Raise (ScrapingError (scrape_item_msg "17.&nbsp;" "18.&nbsp;"))).
Proof.
  intros Hget Hst Hna. apply Z.eqb_eq in Hst.
  rewrite get_residency_info_eq, Hget. cbn [fst page_result].
  rewrite Hst, Hna. cbn [bind].
  assert (forall n,
             first_missing (text resp) = Some n ->
             parse_residency_info (text resp)
             = Raise (ScrapingError
                        (scrape_item_msg (section_marker n)
                                         (section_marker (n + 1))))) as Hm
      by apply parse_residency_info_missing.
  split; [|split; [|split]]; intros;
    [apply (Hm 10) | apply (Hm 27) | apply (Hm 19) | apply (Hm 17)];
    unfold first_missing, needed_sections; cbn [find];
    change (section_marker 10) with "10.&nbsp;";
    change (section_marker 27) with "27.&nbsp;";
    change (section_marker 19) with "19.&nbsp;";
    change (section_marker 17) with "17.&nbsp;";
    repeat match goal with
           | H : Py.contains _ _ = _ |- _ => rewrite H; clear H
           end;
    reflexivity.
Qed.

Lemma missing_section_order_witness :
  partial_web (page_url 5)
  = inl {| status_code := 200; text := "17.&nbsp;a 10.&nbsp;b" |} /\
  200 = OK /\
  Py.contains "Not Authorized" "17.&nbsp;a 10.&nbsp;b" = false /\
  Py.contains "10.&nbsp;" "17.&nbsp;a 10.&nbsp;b" = true /\
  Py.contains "27.&nbsp;" "17.&nbsp;a 10.&nbsp;b" = false /\
  fst (get_residency_info partial_web 5 initial_world)
  = Raise (ScrapingError (scrape_item_msg "27.&nbsp;" "28.&nbsp;")).
Proof.
  assert (Py.contains "Not Authorized" "17.&nbsp;a 10.&nbsp;b" = false)
    as Hna by reflexivity.
  assert (Py.contains "10.&nbsp;" "17.&nbsp;a 10.&nbsp;b" = true) as H10
      by reflexivity.
  assert (Py.contains "27.&nbsp;" "17.&nbsp;a 10.&nbsp;b" = false) as H27
      by reflexivity.
  refine (conj eq_refl (conj eq_refl (conj Hna (conj H10 (conj H27 _))))).
  apply (proj1 (proj2 (missing_section_order partial_web 5 initial_world
                         _ eq_refl eq_refl Hna)) H10 H27).
Defined.

(** The record assembler makes one request and prints nothing, whatever
    happens; and it returns a record exactly when the answer is a response
    with the success status, without the auth marker, and with the markers
    of the four sections 10, 17, 19 and 27. *)
Theorem get_residency_info_succeeds_iff
  (requests_get : string -> Response + requests_exn) (id_ : Z) (w : world) :
  requested (snd (get_residency_info requests_get id_ w))
  = (requested w ++ [page_url id_])%list /\
  stdout (snd (get_residency_info requests_get id_ w)) = stdout w /\
  ((exists r, fst (get_residency_info requests_get id_ w) = Ok r) <->
   (exists resp,
       requests_get (page_url id_) = inl resp /\
       status_code resp = OK /\
       Py.contains "Not Authorized" (text resp) = false /\
       Py.contains "10.&nbsp;" (text resp) = true /\
       Py.contains "17.&nbsp;" (text resp) = true /\
       Py.contains "19.&nbsp;" (text resp) = true /\
       Py.contains "27.&nbsp;" (text resp) = true)).
Proof.
  rewrite get_residency_info_eq. cbn [fst snd visit requested stdout].
  split; [reflexivity|]. split; [reflexivity|].
  assert (forall resp,
             well_formed resp = true <->
             status_code resp = OK /\
             Py.contains "Not Authorized" (text resp) = false /\
             Py.contains "10.&nbsp;" (text resp) = true /\
             Py.contains "17.&nbsp;" (text resp) = true /\
             Py.contains "19.&nbsp;" (text resp) = true /\
             Py.contains "27.&nbsp;" (text resp) = true) as Hwf.
  { intros resp. unfold well_formed, needed_sections. cbn [forallb].
    change (section_marker 10) with "10.&nbsp;".
    change (section_marker 27) with "27.&nbsp;".
    change (section_marker 19) with "19.&nbsp;".
    change (section_marker 17) with "17.&nbsp;".
    rewrite !andb_true_iff, negb_true_iff, Z.eqb_eq. tauto. }
  split.
  - intros [r Hr].
    destruct (requests_get (page_url id_)) as [resp | e];
      [|destruct e; discriminate].
    exists resp. split; [reflexivity|]. apply Hwf.
    cbn [page_result] in Hr.
    destruct (well_formed resp) eqn:E; [reflexivity|exfalso].
    unfold well_formed in E.
    destruct (status_code resp =? OK); [|discriminate].
    destruct (Py.contains "Not Authorized" (text resp)); [discriminate|].
    cbn [bind negb andb] in Hr, E.
    destruct (first_missing (text resp)) as [n|] eqn:Em.
    + rewrite (parse_residency_info_missing _ _ Em) in Hr. discriminate.
    + apply first_missing_None in Em. congruence.
  - intros (resp & -> & H). pose proof (proj2 (Hwf resp) H) as E.
    destruct (well_formed_complete resp E) as [r Hr].
    destruct H as (Hst & Hna & _). apply Z.eqb_eq in Hst.
    exists r. cbn [page_result]. now rewrite Hst, Hna.
Qed.

Lemma get_residency_info_succeeds_iff_witness :
  exists r, fst (get_residency_info example_web 1 initial_world) = Ok r.
Proof.
  apply (proj2 (proj2 (get_residency_info_succeeds_iff
                         example_web 1 initial_world))).
  exists {| status_code := 200; text := example_page |}.
  repeat split; vm_compute; reflexivity.
Defined.

(** ** Driver: an exception that it does not name *)

Lemma map_seq_from (f : nat -> Z) (start len : nat) :
  map f (seq start len) = map (fun i => f (start + i)%nat) (seq 0 len).
Proof.
  revert f start. induction len as [|len IH]; intros f start; [reflexivity|].
  cbn [seq map]. rewrite Nat.add_0_r. f_equal.
  rewrite (IH f (S start)), (IH (fun i => f (start + i)%nat) 1%nat).
  apply map_ext. intros i. f_equal. lia.
Qed.

Lemma range_split (lo hi k : Z) :
  lo <= k < hi -> range lo hi = (range lo k ++ k :: range (k + 1) hi)%list.
Proof.
  intros Hk. unfold range.
  replace (Z.to_nat (hi - lo))
    with (Z.to_nat (k - lo) + S (Z.to_nat (hi - (k + 1))))%nat by lia.
  rewrite seq_app, map_app. f_equal.
  cbn [seq map Nat.add]. f_equal; [lia|].
  rewrite map_seq_from. apply map_ext. intros i. lia.
Qed.

Section Abort.

Variable requests_get : string -> Response + requests_exn.

Lemma scrape_loop_app (ids1 ids2 : list Z)
  (all_residency_info : list ResidencyInfo) (w : world) :
  scrape_loop requests_get (ids1 ++ ids2) all_residency_info w
  = match scrape_loop requests_get ids1 all_residency_info w with
    | (Ok all', w') => scrape_loop requests_get ids2 all' w'
    | (Raise e, w') => (Raise e, w')
    end.
Proof.
  revert all_residency_info w.
  induction ids1 as [|id_ ids1 IH]; intros all_residency_info w;
    [reflexivity|].
  cbn [app scrape_loop]. unfold IO.bind.
  destruct (scrape_step requests_get all_residency_info id_ w)
    as [[all' | e] w']; [apply IH | reflexivity].
Qed.

Lemma scrape_step_other (all_residency_info : list ResidencyInfo) (id_ : Z)
  (w : world) :
  requests_get (page_url id_) = inr OtherRequestException ->
  scrape_step requests_get all_residency_info id_ w
  = (Raise (Requests OtherRequestException),
     {| requested := (requested w ++ [page_url id_])%list;
        stdout := stdout w ++ "Scraping id " ++ Py.str id_ ++ "..."
                  ++ tab |}).
Proof.
  intros H. unfold scrape_step, IO.bind, IO.try, IO.print, IO.ret.
  rewrite get_residency_info_eq, H. unfold visit.
  cbn [page_result bind requested stdout].
  now rewrite append_nil_r.
Qed.

End Abort.

(** An exception of [requests] that is neither a connection error nor a
    read timeout stops the scan where it happens: the driver raises it and
    returns no record, not even those of the identifiers before; no page
    after that one is requested, and the last thing printed is the
    beginning of the line of that identifier. *)
Theorem scrape_aborts
  (requests_get : string -> Response + requests_exn) (k : Z) :
  1 <= k < LAST_ID ->
  requests_get (page_url k) = inr OtherRequestException ->
  (forall id_, 1 <= id_ < k ->
               requests_get (page_url id_) <> inr OtherRequestException) ->
  scrape requests_get initial_world
  = (Raise (Requests OtherRequestException),
     {| requested := map page_url (range 1 (k + 1));
        stdout := "Starting Scraper..." ++ newline
                  ++ console requests_get (range 1 k)
                  ++ "Scraping id " ++ Py.str k ++ "..." ++ tab |}).
Proof.
  intros Hk Hother Hbefore.
  unfold scrape, IO.bind, IO.print, IO.ret.
  rewrite (range_split 1 LAST_ID k Hk), scrape_loop_app.
  rewrite scrape_loop_eq by (intros id_ Hin; apply Hbefore, range_In, Hin).
  cbn [scrape_loop]. unfold IO.bind.
  rewrite scrape_step_other by assumption.
  cbn [requested stdout initial_world app].
  rewrite (range_split 1 (k + 1) k) by lia.
  replace (range (k + 1) (k + 1)) with (@nil Z)
    by (unfold range; now rewrite Z.sub_diag).
  rewrite map_app. cbn [map]. now rewrite !append_assoc.
Qed.

Lemma scrape_aborts_witness :
  1 <= 3 < LAST_ID /\
  (fun url : string =>
     if (url =? page_url 3)%string then inr OtherRequestException
     else example_web url) (page_url 3) = inr OtherRequestException /\
  fst (scrape
         (fun url : string =>
            if (url =? page_url 3)%string then inr OtherRequestException
            else example_web url) initial_world)
  = Raise (Requests OtherRequestException) /\
  requested
    (snd (scrape
            (fun url : string =>
               if (url =? page_url 3)%string then inr OtherRequestException
               else example_web url) initial_world))
  = [page_url 1; page_url 2; page_url 3].
Proof.
  assert (1 <= 3 < LAST_ID) as Hk by (unfold LAST_ID; lia).
  refine (conj Hk (conj eq_refl _)).
  rewrite (scrape_aborts _ 3 Hk eq_refl).
  - split; reflexivity.
  - intros id_ Hid.
    assert (id_ = 1 \/ id_ = 2) as [-> | ->] by lia; discriminate.
Defined.

(** ** Identifiers and URLs *)

Lemma to_int_proper (z : Z) :
  Z.to_int z <> Decimal.Pos Decimal.Nil /\
  Z.to_int z <> Decimal.Neg Decimal.Nil.
Proof.
  destruct z as [|p|p]; simpl; split; try discriminate;
    intros [= H]; now apply DecimalPos.Unsigned.to_uint_nonnil in H.
Qed.

Lemma append_cancel_l (a b c : string) : a ++ b = a ++ c -> b = c.
Proof.
  induction a as [|h a IH]; simpl; intros H; [exact H|].
  injection H as H. now apply IH.
Qed.

Lemma str_reads_back (z : Z) :
  option_map Z.of_int (NilZero.int_of_string (Py.str z)) = Some z.
Proof.
  unfold Py.str. destruct (to_int_proper z) as [H1 H2].
  rewrite NilZero.isi by assumption. cbn [option_map].
  now rewrite DecimalZ.of_to.
Qed.

Lemma str_inj (a b : Z) : Py.str a = Py.str b -> a = b.
Proof.
  intros H. pose proof (str_reads_back a) as Ha.
  rewrite H, str_reads_back in Ha. now injection Ha.
Qed.

Lemma page_url_inj (a b : Z) : page_url a = page_url b -> a = b.
Proof.
  unfold page_url. intros H. now apply append_cancel_l, str_inj in H.
Qed.

(** The decimal form of an integer reads back as the integer, so that two
    identifiers never have the same URL, and two sections never the same
    marker. *)
Theorem str_round_trip (n m : Z) :
  option_map Z.of_int (NilZero.int_of_string (Py.str n)) = Some n /\
  (Py.str n = Py.str m -> n = m) /\
  (page_url n = page_url m -> n = m) /\
  (section_marker n = section_marker m -> n = m).
Proof.
  split; [apply str_reads_back|]. split; [apply str_inj|].
  split; [apply page_url_inj|].
  unfold section_marker. intros H. apply str_inj.
  apply (f_equal String.length) in H as Hlen.
  rewrite !length_append in Hlen.
  assert (String.length (Py.str n) <= String.length (Py.str m))%nat
    as Hle by lia.
  destruct (append_eq_split _ _ _ _ H Hle) as (x & Hx & _).
  rewrite Hx, length_append in Hlen.
  assert (x = "") as -> by (apply length_zero; lia).
  now rewrite append_nil_r in Hx.
Qed.

Lemma str_round_trip_witness :
  Py.str 42 = Py.str (40 + 2) /\ page_url 7 = page_url (3 + 4) /\
  section_marker 10 = section_marker (9 + 1) /\ 42 = 40 + 2.
Proof.
  refine (conj eq_refl (conj eq_refl (conj eq_refl _))).
  apply (proj1 (proj2 (str_round_trip 42 (40 + 2))) eq_refl).
Defined.

Lemma NoDup_map_injective {A B : Type} (f : A -> B) (l : list A) :
  (forall a b, f a = f b -> a = b) -> NoDup l -> NoDup (map f l).
Proof.
  intros Hf. induction 1 as [|a l Hin _ IH]; cbn [map]; constructor;
    [|assumption].
  intros H. apply in_map_iff in H as (b & Hb & Hin').
  apply Hf in Hb. now subst.
Qed.

Lemma range_NoDup (lo hi : Z) : NoDup (range lo hi).
Proof.
  unfold range. apply NoDup_map_injective; [|apply seq_NoDup].
  intros i j H. lia.
Qed.

Lemma NoDup_firstn {A : Type} (n : nat) (l : list A) :
  NoDup l -> NoDup (firstn n l).
Proof.
  intros H. rewrite <- (firstn_skipn n l) in H.
  now apply NoDup_app_remove_r in H.
Qed.

Section Requests.

Variable requests_get : string -> Response + requests_exn.

Lemma scrape_loop_requested (ids : list Z)
  (all_residency_info : list ResidencyInfo) (w : world) :
  exists n,
    requested (snd (scrape_loop requests_get ids all_residency_info w))
    = (requested w ++ map page_url (firstn n ids))%list.
Proof.
  revert all_residency_info w.
  induction ids as [|id_ ids IH]; intros all_residency_info w.
  - exists 0%nat. cbn. now rewrite app_nil_r.
  - cbn [scrape_loop]. unfold IO.bind.
    destruct (requests_get (page_url id_)) as [resp | e] eqn:E;
      [|destruct e].
    1-3: rewrite scrape_step_eq by (rewrite E; discriminate);
      match goal with
      | |- context [scrape_loop _ _ ?a ?w'] =>
          destruct (IH a w') as [n Hn]
      end;
      exists (S n); rewrite Hn; cbn [requested firstn map];
      now rewrite <- app_assoc.
    rewrite scrape_step_other by assumption.
    exists 1%nat. cbn [snd requested firstn map]. now destruct ids.
Qed.

End Requests.

(** Whatever the web answers, the driver requests the pages of an initial
    part of the range 1 to 286, in order, and never the same URL twice. *)
Theorem scrape_requests_distinct
  (requests_get : string -> Response + requests_exn) :
  exists n,
    requested (snd (scrape requests_get initial_world))
    = map page_url (firstn n (range 1 LAST_ID)) /\
    NoDup (requested (snd (scrape requests_get initial_world))).
Proof.
  destruct (scrape_loop_requested requests_get (range 1 LAST_ID) []
              {| requested := [];
                 stdout := "Starting Scraper..." ++ newline |})
    as [n Hn].
  assert (requested (snd (scrape requests_get initial_world))
          = map page_url (firstn n (range 1 LAST_ID))) as E.
  { unfold scrape, IO.bind, IO.print, IO.ret.
    cbn [requested stdout initial_world append].
    destruct (scrape_loop requests_get (range 1 LAST_ID) [] _)
      as [[l | e] w'] eqn:El; cbn [snd requested] in *; exact Hn. }
  exists n. split; [exact E|]. rewrite E.
  apply NoDup_map_injective.
  - apply page_url_inj.
  - apply NoDup_firstn, range_NoDup.
Qed.

(** ** Items between well-placed delimiters *)

Lemma last_char_split (a b y : string) (c : ascii) :
  a ++ String c "" = b ++ y -> y <> "" ->
  exists y0, y = y0 ++ String c "" /\ a = b ++ y0.
Proof.
  revert a. induction b as [|h b IH]; intros a H Hy.
  - exists a. now split.
  - destruct a as [|h' a].
    + simpl in H. injection H as _ H. destruct b; [|discriminate].
      simpl in H. congruence.
    + simpl in H. injection H as -> H.
      destruct (IH a H Hy) as (y0 & -> & ->). now exists y0.
Qed.

(** A tailed separator cannot overlap a copy of itself, nor run over a
    later copy of its last character. *)
Lemma tailed_no_overlap (sep x y : string) (c : ascii) :
  tailed sep c -> sep = x ++ y -> y <> "" ->
  (exists u, x = u ++ String c "") -> False.
Proof.
  intros (sep0 & -> & Hc) H Hy [u ->].
  apply last_char_split in H as (y0 & -> & ->); [|assumption].
  apply Hc. exists u, y0. now rewrite !append_assoc.
Qed.

Lemma tailed_first_occ (sep p r : string) (c : ascii) :
  tailed sep c -> ~ occurs sep p -> first_occ sep p (p ++ sep ++ r).
Proof.
  intros Ht Hno. split; [now exists r|]. intros p' r' H.
  destruct (le_lt_dec (String.length p) (String.length p')) as [|Hlt];
    [assumption|exfalso].
  symmetry in H. apply append_eq_split in H as (x & -> & H); [|lia].
  rewrite length_append in Hlt.
  destruct (le_lt_dec (String.length sep) (String.length x)) as [Hle|Hlt'].
  - apply append_eq_split in H as (y & -> & _); [|assumption].
    apply Hno. now exists p', y.
  - symmetry in H. apply append_eq_split in H as (y & Hsep & H); [|lia].
    (* [sep = x ++ y], and [y] is also the start of [sep] *)
    assert (String.length sep
            = String.length x + String.length y)%nat as Hlen
        by (rewrite Hsep at 1; apply length_append).
    symmetry in H. apply append_eq_split in H as (y' & Hsep' & _); [|lia].
    assert (String.length sep
            = String.length y + String.length y')%nat as Hlen'
        by (rewrite Hsep' at 1; apply length_append).
    assert (y <> "") as Hy by (intros ->; simpl in *; lia).
    assert (y' <> "") as Hy' by (intros ->; simpl in *; lia).
    pose proof Ht as (sep0 & E & _).
    pose proof Hsep as Hcut. rewrite E in Hcut.
    apply last_char_split in Hcut as (y0 & Ey & _); [|assumption].
    apply (tailed_no_overlap sep y y' c Ht Hsep' Hy').
    now exists y0.
Qed.

(** An item put between its delimiters comes back, when neither
    delimiter can overlap a copy of itself, no end of the item with its
    closing delimiter is a beginning of [before], [before] occurs neither
    before the item nor in the item with its closing delimiter, and [after]
    does not occur in the item. *)
Lemma item_round_trip (pre before t after rest : string) :
  before <> "" -> after <> "" ->
  (forall p r, ~ occurs before p -> first_occ before p (p ++ before ++ r)) ->
  (forall p r, ~ occurs after p -> first_occ after p (p ++ after ++ r)) ->
  (forall u z y, t ++ after = u ++ z -> before = z ++ y ->
                 z = "" \/ y = "") ->
  ~ occurs before pre ->
  ~ occurs before (t ++ after) ->
  ~ occurs after t ->
  scrape_item_between (pre ++ before ++ t ++ after ++ rest) before after 1
  = Ok t.
Proof.
  intros Hb Ha Hbefore Hafter Hover Hpre Hitem Ht.
  pose proof (Hbefore pre (t ++ after ++ rest) Hpre) as Hfirst.
  destruct (first_piece before (t ++ after ++ rest) Hb)
    as (_ & r1 & Hx & Hr1).
  remember (hd "" (Py.split_go before 0 (t ++ after ++ rest))) as seg
    eqn:Eseg.
  (* the segment holds the item and its closing delimiter *)
  assert (exists r2, seg = t ++ after ++ r2) as [r2 Hr2].
  { rewrite <- append_assoc in Hx.
    destruct (le_lt_dec (String.length (t ++ after)) (String.length seg))
      as [Hle | Hlt].
    - destruct (append_eq_split _ _ _ _ Hx Hle) as (r2 & E & _).
      exists r2. now rewrite E, append_assoc.
    - exfalso. destruct Hr1 as [-> | [r' ->]].
      + rewrite append_nil_r in Hx. rewrite <- Hx in Hlt.
        rewrite length_append in Hlt. lia.
      + symmetry in Hx.
        apply append_eq_split in Hx as (z & E & Hz); [|lia].
        assert (String.length (t ++ after)
                = String.length seg + String.length z)%nat as Hlen
            by (rewrite E; apply length_append).
        destruct (le_lt_dec (String.length before) (String.length z))
          as [Hle | Hlt'].
        * apply append_eq_split in Hz as (z' & -> & _); [|assumption].
          apply Hitem. rewrite E. now exists seg, z'.
        * symmetry in Hz.
          apply append_eq_split in Hz as (y & Hcut & _); [|lia].
          assert (String.length before
                  = String.length z + String.length y)%nat as Hlen'
              by (rewrite Hcut at 1; apply length_append).
          destruct (Hover seg z y E Hcut) as [-> | ->]; simpl in *; lia. }
  rewrite scrape_item_between_eq by (assumption || lia).
  change (Z.to_nat 1) with 1%nat.
  rewrite split_go_first by assumption.
  replace (nth_error (pre :: Py.split_go before 0 (t ++ after ++ rest)) 1)
    with (nth_error (Py.split_go before 0 (t ++ after ++ rest)) 0)
    by reflexivity.
  rewrite (nth_error_hd "") by apply split_go_nonempty.
  rewrite <- Eseg, Hr2.
  rewrite split_go_first; [reflexivity | assumption | now apply Hafter].
Qed.

Lemma tailed_nonempty (sep : string) (c : ascii) : tailed sep c -> sep <> "".
Proof.
  intros (sep0 & -> & _). now destruct sep0.
Qed.

(** The case of a tailed [before] and an [after] with the same last
    character. *)
Lemma tailed_apart (before after t : string) (c : ascii) :
  tailed before c ->
  (exists a0, after = a0 ++ String c "") ->
  forall u z y, t ++ after = u ++ z -> before = z ++ y -> z = "" \/ y = "".
Proof.
  intros Htail [a0 ->] u z y E Hcut.
  destruct z as [|h z]; [now left|]. destruct y as [|h' y]; [now right|].
  exfalso. rewrite <- append_assoc in E.
  apply last_char_split in E as (z0 & Ez & _); [|discriminate].
  apply (tailed_no_overlap before (String h z) (String h' y) c Htail Hcut);
    [discriminate | now exists z0].
Qed.

(** ** Characters of a decimal number *)

Lemma char_occurs_app (c : ascii) (a b : string) :
  occurs (String c "") (a ++ b) ->
  occurs (String c "") a \/ occurs (String c "") b.
Proof.
  induction a as [|h a IH]; intros H; [now right|].
  simpl in H. apply occurs_cons in H as [H | H].
  - left. apply prefix_iff in H as [r Hr]. simpl in Hr.
    injection Hr as -> _. now exists "", a.
  - apply IH in H as [H | H]; [left; now apply occurs_tail | now right].
Qed.

Lemma uint_no_semicolon (d : Decimal.uint) :
  ~ occurs ";" (NilEmpty.string_of_uint d).
Proof.
  induction d; simpl; intros H;
    try (apply occurs_cons in H as [H | H]; [discriminate H | tauto]).
  destruct H as (a & b & H). destruct a; discriminate.
Qed.

Lemma str_no_semicolon (n : Z) : ~ occurs ";" (Py.str n).
Proof.
  unfold Py.str. destruct (Z.to_int n) as [d | d]; simpl.
  - destruct d; try apply (uint_no_semicolon _).
    intros H. apply occurs_cons in H as [H | H]; [discriminate H|].
    destruct H as (a & b & H). destruct a; discriminate.
  - intros H. apply occurs_cons in H as [H | H]; [discriminate H|].
    revert H. destruct d; try apply (uint_no_semicolon _).
    intros H. apply occurs_cons in H as [H | H]; [discriminate H|].
    destruct H as (a & b & H). destruct a; discriminate.
Qed.

Lemma section_marker_tailed (n : Z) : tailed (section_marker n) ";".
Proof.
  exists (Py.str n ++ ".&nbsp"). split.
  - unfold section_marker. now rewrite append_assoc.
  - intros H. apply char_occurs_app in H as [H | H].
    + now apply str_no_semicolon in H.
    + apply contains_iff in H. discriminate H.
Qed.

(** ** Round trips *)

(** A body put between the marker of section [n] and the marker of section
    [n + 1] comes back as the section, when the marker of [n] occurs
    neither before the body nor in the body followed by the next marker,
    and the next marker does not occur in the body. *)
Theorem section_round_trip (pre body rest : string) (n : Z) :
  Py.contains (section_marker n) pre = false ->
  Py.contains (section_marker n) (body ++ section_marker (n + 1)) = false ->
  Py.contains (section_marker (n + 1)) body = false ->
  scrape_section
    (pre ++ section_marker n ++ body ++ section_marker (n + 1) ++ rest) n
  = Ok body.
Proof.
  rewrite !contains_false_iff. intros Hpre Hitem Hbody.
  unfold scrape_section.
  pose proof (section_marker_tailed n) as Hn.
  pose proof (section_marker_tailed (n + 1)) as Hn1.
  apply item_round_trip; try assumption.
  - apply section_marker_nonempty.
  - apply section_marker_nonempty.
  - intros p r. now apply tailed_first_occ with (c := ";"%char).
  - intros p r. now apply tailed_first_occ with (c := ";"%char).
  - apply tailed_apart with (c := ";"%char); [assumption|].
    destruct Hn1 as (a0 & E & _). now exists a0.
Qed.

Lemma section_round_trip_witness :
  Py.contains (section_marker 19) "<p>17.&nbsp;x</p>" = false /\
  Py.contains (section_marker 19) ("Scores: 230" ++ section_marker (19 + 1))
  = false /\
  Py.contains (section_marker (19 + 1)) "Scores: 230" = false /\
  scrape_section
    ("<p>17.&nbsp;x</p>" ++ section_marker 19 ++ "Scores: 230"
     ++ section_marker (19 + 1) ++ "Other 19.&nbsp;") 19
  = Ok "Scores: 230".
Proof.
  refine (conj eq_refl (conj eq_refl (conj eq_refl _))).
  apply (section_round_trip "<p>17.&nbsp;x</p>" "Scores: 230"
           "Other 19.&nbsp;" 19); reflexivity.
Defined.

Lemma unique_char_split (a b a' b' : string) (c : ascii) :
  a ++ String c b = a' ++ String c b' ->
  ~ occurs (String c "") a -> ~ occurs (String c "") b ->
  a = a'.
Proof.
  intros H Ha Hb.
  destruct (le_lt_dec (String.length a) (String.length a')) as [Hle | Hlt].
  - apply append_eq_split in H as (x & -> & H); [|assumption].
    destruct x as [|h x]; [now rewrite append_nil_r | exfalso].
    simpl in H. injection H as <- ->. apply Hb. now exists x, b'.
  - symmetry in H. apply append_eq_split in H as (x & -> & H); [|lia].
    destruct x as [|h x]; [now rewrite append_nil_r | exfalso].
    simpl in H. injection H as <- _. apply Ha. now exists a', x.
Qed.

Lemma label_tailed (label0 : string) :
  Py.contains ">" (label0 ++ "<span class=" ++ dquote ++ "bold" ++ dquote)
  = false ->
  tailed (label0 ++ span_bold) ">".
Proof.
  intros H. exists (label0 ++ "<span class=" ++ dquote ++ "bold" ++ dquote).
  split; [|now apply contains_false_iff].
  unfold span_bold. now rewrite !append_assoc.
Qed.

Lemma span_close_ends : exists a0, span_close = a0 ++ ">".
Proof.
  now exists "</span".
Qed.

Lemma labelled_item_round_trip (label0 pre v rest : string) :
  Py.contains ">" (label0 ++ "<span class=" ++ dquote ++ "bold" ++ dquote)
  = false ->
  Py.contains (label0 ++ span_bold) pre = false ->
  Py.contains (label0 ++ span_bold) (v ++ span_close) = false ->
  Py.contains span_close v = false ->
  safe_scrape_item_between
    (pre ++ (label0 ++ span_bold) ++ v ++ span_close ++ rest)
    (label0 ++ span_bold) span_close 1
  = Ok v.
Proof.
  rewrite !contains_false_iff. intros Hl Hpre Hitem Hv.
  apply contains_false_iff, label_tailed in Hl.
  unfold safe_scrape_item_between.
  rewrite item_round_trip; try assumption; try reflexivity.
  - now apply tailed_nonempty in Hl.
  - apply span_close_nonempty.
  - intros p r. now apply tailed_first_occ with (c := ">"%char).
  - intros p r. now apply headed_first_occ.
  - apply tailed_apart with (c := ">"%char);
      [assumption | apply span_close_ends].
Qed.

(** The date of the last update is closed by [<], with which the bolded
    part of its label starts: a value that ends with the words of the
    label makes a second label with what follows, and is lost. *)
Example last_updated_value_ends_with_label :
  scrape_last_updated
    (("Last Updated: " ++ span_bold) ++ "Last Updated: " ++ "<"
     ++ "span class=" ++ dquote ++ "bold" ++ dquote ++ ">x")
  = Ok "".
Proof.
  reflexivity.
Qed.

(** A value put after the label of a field and closed by the closing
    delimiter comes back as the field, under three conditions.  For the
    name, the state and the city, closed by the closing tag: the label
    does not occur before the value; the label does not occur in the value
    followed by the closing tag; the closing tag does not occur in the
    value.  For the date of the last update, closed by [<]: the label does
    not occur before the value; [<] does not occur in the value; and the
    text [Last Updated: <] does not occur in the value followed by [<],
    that is, the value does not end with the words [Last Updated: ] of the
    label. *)
Theorem labelled_round_trip (pre v rest : string) :
  (Py.contains ("Program Name:&nbsp;" ++ span_bold) pre = false ->
   Py.contains ("Program Name:&nbsp;" ++ span_bold) (v ++ span_close)
   = false ->
   Py.contains span_close v = false ->
   scrape_name (pre ++ ("Program Name:&nbsp;" ++ span_bold) ++ v
                ++ span_close ++ rest) = Ok v) /\
  (Py.contains ("&nbsp;State/Providence:&nbsp;" ++ span_bold) pre = false ->
   Py.contains ("&nbsp;State/Providence:&nbsp;" ++ span_bold)
     (v ++ span_close) = false ->
   Py.contains span_close v = false ->
   scrape_state (pre ++ ("&nbsp;State/Providence:&nbsp;" ++ span_bold) ++ v
                 ++ span_close ++ rest) = Ok v) /\
  (Py.contains ("City:&nbsp;" ++ span_bold) pre = false ->
   Py.contains ("City:&nbsp;" ++ span_bold) (v ++ span_close) = false ->
   Py.contains span_close v = false ->
   scrape_city (pre ++ ("City:&nbsp;" ++ span_bold) ++ v
                ++ span_close ++ rest) = Ok v) /\
  (Py.contains ("Last Updated: " ++ span_bold) pre = false ->
   Py.contains "<" v = false ->
   Py.contains "Last Updated: <" (v ++ "<") = false ->
   scrape_last_updated (pre ++ ("Last Updated: " ++ span_bold) ++ v
                        ++ "<" ++ rest) = Ok v).
Proof.
  split; [|split; [|split]].
  - intros. now apply labelled_item_round_trip.
  - intros. now apply labelled_item_round_trip.
  - intros. now apply labelled_item_round_trip.
  - rewrite !contains_false_iff. intros Hpre Hv Hend.
    assert (tailed ("Last Updated: " ++ span_bold) ">") as Hl
        by now apply label_tailed.
    unfold scrape_last_updated, safe_scrape_item_between.
    rewrite item_round_trip; try assumption; try reflexivity;
      try discriminate.
    + intros p r. now apply tailed_first_occ with (c := ">"%char).
    + intros p r. now apply headed_first_occ.
    + intros u z y E Hcut.
      destruct z as [|h z]; [now left|]. destruct y as [|h' y]; [now right|].
      exfalso. apply last_char_split in E as (z0 & Ez & ->); [|discriminate].
      rewrite Ez in Hcut.
      change ("Last Updated: " ++ span_bold)
        with ("Last Updated: "
              ++ String "<" ("span class=" ++ dquote ++ "bold" ++ dquote
                             ++ ">")) in Hcut.
      rewrite append_assoc in Hcut.
      change ("<" ++ String h' y) with (String "<" (String h' y)) in Hcut.
      apply unique_char_split in Hcut;
        [|now apply contains_false_iff|now apply contains_false_iff].
      apply Hend. exists u, "". rewrite <- Hcut.
      now rewrite !append_assoc.
    + intros H. apply Hend.
      apply (occurs_trans _ ("Last Updated: " ++ span_bold)); [|assumption].
      now exists "", ("span class=" ++ dquote ++ "bold" ++ dquote ++ ">").
Qed.

Lemma labelled_round_trip_witness :
  Py.contains ("City:&nbsp;" ++ span_bold) "<td>" = false /\
  Py.contains ("City:&nbsp;" ++ span_bold) ("Ann Arbor" ++ span_close)
  = false /\
  Py.contains span_close "Ann Arbor" = false /\
  scrape_city ("<td>" ++ ("City:&nbsp;" ++ span_bold) ++ "Ann Arbor"
               ++ span_close ++ "</td>") = Ok "Ann Arbor" /\
  Py.contains ("Last Updated: " ++ span_bold) "<td>" = false /\
  Py.contains "<" "May 2016" = false /\
  Py.contains "Last Updated: <" ("May 2016" ++ "<") = false /\
  scrape_last_updated ("<td>" ++ ("Last Updated: " ++ span_bold)
                       ++ "May 2016" ++ "<" ++ "/span></td>")
  = Ok "May 2016".
Proof.
  destruct (labelled_round_trip "<td>" "Ann Arbor" "</td>")
    as (_ & _ & Hcity & _).
  destruct (labelled_round_trip "<td>" "May 2016" "/span></td>")
    as (_ & _ & _ & Hdate).
  refine (conj eq_refl (conj eq_refl (conj eq_refl (conj _
            (conj eq_refl (conj eq_refl (conj eq_refl _))))))).
  - apply Hcity; reflexivity.
  - apply Hdate; reflexivity.
Defined.

(** ** Output file *)

Lemma index_nth (l : list string) (k : Z) :
  (0 <= k)%Z -> (Z.to_nat k < List.length l)%nat ->
  Py.index l k = Ok (nth (Z.to_nat k) l "").
Proof.
  intros H0 Hk. rewrite index_nonneg by lia.
  now rewrite (nth_error_nth' l "" Hk).
Qed.

Lemma index_short (l : list string) (k : Z) :
  (0 <= k)%Z -> (List.length l <= Z.to_nat k)%nat ->
  Py.index l k = Raise IndexError.
Proof.
  intros H0 Hk. rewrite index_nonneg by lia.
  now rewrite (proj2 (nth_error_None l (Z.to_nat k)) Hk).
Qed.

Lemma index_nth_or_short (l : list string) (k : Z) :
  (0 <= k)%Z ->
  Py.index l k = Raise IndexError \/
  ((Z.to_nat k < List.length l)%nat /\
   Py.index l k = Ok (nth (Z.to_nat k) l "")).
Proof.
  intros H0. destruct (le_lt_dec (List.length l) (Z.to_nat k)).
  - left. now apply index_short.
  - right. split; [assumption | now apply index_nth].
Qed.

Lemma row_of_long_enough (r : ResidencyInfo) :
  long_enough r -> row_of r = Ok (columns r).
Proof.
  intros (Hs & Hp & Hm & Ha). unfold row_of, columns.
  rewrite (index_nth (salary r) 0), (index_nth (salary r) 1),
    (index_nth (salary r) 2), (index_nth (salary r) 3) by (cbn; lia).
  rewrite (index_nth (pto r) 0), (index_nth (pto r) 1),
    (index_nth (pto r) 2), (index_nth (pto r) 3) by (cbn; lia).
  rewrite (index_nth (min_step_scores r) 0),
    (index_nth (min_step_scores r) 1) by (cbn; lia).
  rewrite (index_nth (avg_step_scores r) 0),
    (index_nth (avg_step_scores r) 1) by (cbn; lia).
  reflexivity.
Qed.

Lemma row_of_short (r : ResidencyInfo) :
  ~ long_enough r -> row_of r = Raise IndexError.
Proof.
  intros H. unfold row_of.
  destruct (index_nth_or_short (salary r) 0) as [-> | [H0 ->]];
    [lia | reflexivity |].
  destruct (index_nth_or_short (salary r) 1) as [-> | [H1 ->]];
    [lia | reflexivity |].
  destruct (index_nth_or_short (salary r) 2) as [-> | [H2 ->]];
    [lia | reflexivity |].
  destruct (index_nth_or_short (salary r) 3) as [-> | [H3 ->]];
    [lia | reflexivity |].
  destruct (index_nth_or_short (pto r) 0) as [-> | [H4 ->]];
    [lia | reflexivity |].
  destruct (index_nth_or_short (pto r) 1) as [-> | [H5 ->]];
    [lia | reflexivity |].
  destruct (index_nth_or_short (pto r) 2) as [-> | [H6 ->]];
    [lia | reflexivity |].
  destruct (index_nth_or_short (pto r) 3) as [-> | [H7 ->]];
    [lia | reflexivity |].
  destruct (index_nth_or_short (min_step_scores r) 0) as [-> | [H8 ->]];
    [lia | reflexivity |].
  destruct (index_nth_or_short (min_step_scores r) 1) as [-> | [H9 ->]];
    [lia | reflexivity |].
  destruct (index_nth_or_short (avg_step_scores r) 0) as [-> | [H10 ->]];
    [lia | reflexivity |].
  destruct (index_nth_or_short (avg_step_scores r) 1) as [-> | [H11 ->]];
    [lia | reflexivity |].
  exfalso. apply H. unfold long_enough.
  cbn in H3, H7, H9, H11. lia.
Qed.

Lemma long_enough_dec (r : ResidencyInfo) : long_enough r \/ ~ long_enough r.
Proof.
  unfold long_enough. lia.
Qed.

Lemma write_rows_all (rs : list ResidencyInfo) (csvfile : string) :
  Forall long_enough rs ->
  write_rows rs csvfile = (Ok tt, csvfile ++ csv_lines rs).
Proof.
  intros H. revert csvfile.
  induction H as [|r rs Hr _ IH]; intros csvfile.
  - cbn. now rewrite append_nil_r.
  - cbn [write_rows]. rewrite (row_of_long_enough r Hr), IH.
    unfold csv_lines. cbn [map fold_right].
    fold (csv_line r). now rewrite append_assoc.
Qed.

Lemma write_rows_stop (good : list ResidencyInfo) (bad : ResidencyInfo)
  (rest : list ResidencyInfo) (csvfile : string) :
  Forall long_enough good -> ~ long_enough bad ->
  write_rows (good ++ bad :: rest) csvfile
  = (Raise IndexError, csvfile ++ csv_lines good).
Proof.
  intros H Hbad. revert csvfile.
  induction H as [|r rs Hr _ IH]; intros csvfile.
  - cbn [app write_rows]. rewrite (row_of_short bad Hbad).
    cbn. now rewrite append_nil_r.
  - cbn [app write_rows]. rewrite (row_of_long_enough r Hr), IH.
    unfold csv_lines. cbn [map fold_right].
    fold (csv_line r). now rewrite append_assoc.
Qed.

Lemma read_store (path content : string) (fs : list (string * string)) :
  read path (store path content fs) = Some content.
Proof.
  unfold read, store. cbn [find fst]. now rewrite String.eqb_refl.
Qed.

Lemma read_store_other (path path' content : string)
  (fs : list (string * string)) :
  path' <> path -> read path' (store path content fs) = read path' fs.
Proof.
  intros Hne. unfold read, store. cbn [find fst].
  replace (path =? path')%string with false
    by (symmetry; apply String.eqb_neq; congruence).
  f_equal. induction fs as [|[p c] fs IH]; [reflexivity|].
  cbn [filter find fst].
  destruct (p =? path)%string eqn:E; cbn [negb].
  - apply String.eqb_eq in E. subst p.
    replace (path =? path')%string with false
      by (symmetry; apply String.eqb_neq; congruence).
    exact IH.
  - cbn [find fst]. destruct (p =? path')%string; [reflexivity | exact IH].
Qed.

(** [generate_csv] succeeds exactly on records whose lists are long enough
    (four salaries, four times off, two minimum and two average scores;
    items beyond these are ignored).  It then replaces the file by the
    header line followed by one line for each record, in order, leaves the
    other files alone and prints its two lines.  At the first record with
    a list too short it raises [IndexError]: the file is left with the
    header and the lines of the records before that one, and the closing
    line is not printed. *)
Theorem generate_csv_spec
  (good : list ResidencyInfo) (m : machine) :
  Forall long_enough good ->
  (generate_csv good m
   = (Ok tt,
      {| outside :=
           {| requested := requested (outside m);
              stdout := stdout (outside m) ++ "Generating CSV..." ++ newline
                        ++ "Done." ++ newline |};
         files := store "residency_info.csv"
                    (Csv.writerow headers ++ csv_lines good) (files m) |}))
  /\
  (forall bad rest,
      ~ long_enough bad ->
      generate_csv (good ++ bad :: rest) m
      = (Raise IndexError,
         {| outside :=
              {| requested := requested (outside m);
                 stdout := stdout (outside m) ++ "Generating CSV..."
                           ++ newline |};
            files := store "residency_info.csv"
                       (Csv.writerow headers ++ csv_lines good)
                       (files m) |})) /\
  (forall path,
      read path (store "residency_info.csv"
                   (Csv.writerow headers ++ csv_lines good) (files m))
      = if (path =? "residency_info.csv")%string
        then Some (Csv.writerow headers ++ csv_lines good)
        else read path (files m)).
Proof.
  intros Hgood. split; [|split].
  - unfold generate_csv. rewrite write_rows_all by assumption.
    unfold say, IO.print. cbn [snd outside files requested stdout].
    now rewrite !append_assoc.
  - intros bad rest Hbad. unfold generate_csv.
    rewrite write_rows_stop by assumption.
    unfold say, IO.print. cbn [snd outside files requested stdout].
    reflexivity.
  - intros path. destruct (path =? "residency_info.csv")%string eqn:E.
    + apply String.eqb_eq in E. subst path. apply read_store.
    + apply String.eqb_neq in E. now apply read_store_other.
Qed.

Lemma generate_csv_spec_witness :
  Forall long_enough [assemble bare_page "" "" "" ""] /\
  ~ long_enough {| name := "x"; state := ""; city := "";
                   salary := ["1"; "2"; "3"]; pto := [];
                   min_step_scores := []; avg_step_scores := [];
                   resident_demographics :=
                     {| total := ""; male := ""; female := "" |};
                   last_updated := "" |} /\
  fst (generate_csv
         ([assemble bare_page "" "" "" ""]
          ++ {| name := "x"; state := ""; city := "";
                salary := ["1"; "2"; "3"]; pto := [];
                min_step_scores := []; avg_step_scores := [];
                resident_demographics :=
                  {| total := ""; male := ""; female := "" |};
                last_updated := "" |} :: [])
         {| outside := initial_world; files := [] |})
  = Raise IndexError.
Proof.
  assert (Forall long_enough [assemble bare_page "" "" "" ""]) as Hgood
      by (repeat constructor).
  assert (~ long_enough {| name := "x"; state := ""; city := "";
                           salary := ["1"; "2"; "3"]; pto := [];
                           min_step_scores := []; avg_step_scores := [];
                           resident_demographics :=
                             {| total := ""; male := ""; female := "" |};
                           last_updated := "" |}) as Hbad
      by (unfold long_enough; simpl; lia).
  refine (conj Hgood (conj Hbad _)).
  rewrite (proj1 (proj2 (generate_csv_spec _
                           {| outside := initial_world; files := [] |}
                           Hgood)) _ [] Hbad).
  reflexivity.
Defined.

Lemma bold_value (f0 : string) (items : list (string * string)) (k : Z) :
  well_bolded f0 items = true -> 1 <= k ->
  bold (f0 ++ bolded items) k = value items k.
Proof.
  intros Hwb Hk. unfold bold, safe_value. now rewrite safe_bolded_value.
Qed.

Lemma assemble_long_enough (page s10 s27 s19 s17 : string) :
  long_enough (assemble page s10 s27 s19 s17).
Proof.
  unfold long_enough, assemble.
  cbn [salary pto min_step_scores avg_step_scores List.length]. lia.
Qed.

Lemma parse_long_enough (page : string) (r : ResidencyInfo) :
  parse_residency_info page = Ok r -> long_enough r.
Proof.
  rewrite parse_residency_info_eq.
  destruct (scrape_section page 10); cbn [bind]; [|discriminate].
  destruct (scrape_section page 27); cbn [bind]; [|discriminate].
  destruct (scrape_section page 19); cbn [bind]; [|discriminate].
  destruct (scrape_section page 17); cbn [bind]; [|discriminate].
  intros [= <-]. apply assemble_long_enough.
Qed.

Lemma records_long_enough
  (requests_get : string -> Response + requests_exn) (ids : list Z) :
  Forall long_enough (flat_map (records_of requests_get) ids).
Proof.
  apply Forall_forall. intros r Hin.
  apply in_flat_map in Hin. destruct Hin as (id_ & _ & Hin).
  unfold records_of in Hin.
  destruct (requests_get (page_url id_)) as [resp|]; [|contradiction].
  destruct (well_formed resp); [|contradiction].
  destruct (parse_residency_info (text resp)) eqn:E; [|contradiction].
  destruct Hin as [<- | []]. exact (parse_long_enough _ _ E).
Qed.

Lemma scrape_from (requests_get : string -> Response + requests_exn)
  (w : world) :
  (forall id_, 1 <= id_ < LAST_ID ->
               requests_get (page_url id_) <> inr OtherRequestException) ->
  scrape requests_get w
  = (Ok (flat_map (records_of requests_get) (range 1 LAST_ID)),
     {| requested := (requested w ++ map page_url (range 1 LAST_ID))%list;
        stdout := stdout w ++ "Starting Scraper..." ++ newline
                  ++ console requests_get (range 1 LAST_ID)
                  ++ "Done." ++ newline |}).
Proof.
  intros Hweb. unfold scrape, IO.bind, IO.print, IO.ret.
  rewrite scrape_loop_eq by (intros id_ Hin; apply Hweb, range_In, Hin).
  cbn [requested stdout app]. now rewrite !append_assoc.
Qed.

Lemma scrape_stops_from (requests_get : string -> Response + requests_exn)
  (k : Z) (w : world) :
  1 <= k < LAST_ID ->
  requests_get (page_url k) = inr OtherRequestException ->
  (forall id_, 1 <= id_ < k ->
               requests_get (page_url id_) <> inr OtherRequestException) ->
  scrape requests_get w
  = (Raise (Requests OtherRequestException),
     {| requested := (requested w ++ map page_url (range 1 (k + 1)))%list;
        stdout := stdout w ++ "Starting Scraper..." ++ newline
                  ++ console requests_get (range 1 k)
                  ++ "Scraping id " ++ Py.str k ++ "..." ++ tab |}).
Proof.
  intros Hk Hother Hbefore.
  unfold scrape, IO.bind, IO.print, IO.ret.
  rewrite (range_split 1 LAST_ID k Hk), scrape_loop_app.
  rewrite scrape_loop_eq by (intros id_ Hin; apply Hbefore, range_In, Hin).
  cbn [scrape_loop]. unfold IO.bind.
  rewrite scrape_step_other by assumption.
  cbn [requested stdout app].
  rewrite (range_split 1 (k + 1) k) by lia.
  replace (range (k + 1) (k + 1)) with (@nil Z)
    by (unfold range; now rewrite Z.sub_diag).
  rewrite map_app. cbn [map].
  now rewrite <- !app_assoc, !append_assoc.
Qed.

(** When no page of the range raises an exception of [requests] other
    than a connection error or a read timeout, [main] ends without an
    exception, whatever the pages hold: every record that the scan
    returns has lists long enough for [generate_csv].  The file
    [residency_info.csv] then holds the header line followed by one line
    for each identifier whose page is well formed, in ascending order of
    identifier; the other files are left as they were; each page of the
    range has been requested once, in order; and the console shows the
    lines of the scan followed by those of the file. *)
Theorem main_writes_file
  (requests_get : string -> Response + requests_exn) (m : machine) :
  (forall id_, 1 <= id_ < LAST_ID ->
               requests_get (page_url id_) <> inr OtherRequestException) ->
  exists m',
    main requests_get m = (Ok tt, m') /\
    read "residency_info.csv" (files m')
    = Some (Csv.writerow headers
            ++ csv_lines (flat_map (records_of requests_get)
                            (range 1 LAST_ID))) /\
    (forall path, path <> "residency_info.csv" ->
                  read path (files m') = read path (files m)) /\
    requested (outside m')
    = (requested (outside m) ++ map page_url (range 1 LAST_ID))%list /\
    stdout (outside m')
    = stdout (outside m) ++ "Starting Scraper..." ++ newline
      ++ console requests_get (range 1 LAST_ID)
      ++ "Done." ++ newline
      ++ "Generating CSV..." ++ newline
      ++ "Done." ++ newline.
Proof.
  intros Hweb. eexists. split; [|split; [|split; [|split]]].
  - unfold main. rewrite scrape_from by assumption.
    unfold generate_csv.
    rewrite write_rows_all by apply records_long_enough.
    reflexivity.
  - cbn [files say]. apply read_store.
  - intros path Hpath. cbn [files say]. now apply read_store_other.
  - reflexivity.
  - unfold say, IO.print. cbn [outside snd stdout].
    now rewrite !append_assoc.
Qed.

Lemma main_writes_file_witness :
  (forall id_, 1 <= id_ < LAST_ID ->
               example_web (page_url id_) <> inr OtherRequestException) /\
  exists m',
    main example_web {| outside := initial_world; files := [] |}
    = (Ok tt, m') /\
    read "residency_info.csv" (files m')
    = Some (Csv.writerow headers
            ++ csv_lines (flat_map (records_of example_web)
                            (range 1 LAST_ID))).
Proof.
  assert (forall id_, 1 <= id_ < LAST_ID ->
                      example_web (page_url id_)
                      <> inr OtherRequestException) as Hweb.
  { intros id_ _. unfold example_web.
    destruct (page_url id_ =? page_url 1)%string; [discriminate|].
    destruct (page_url id_ =? page_url 2)%string; [discriminate|].
    destruct (page_url id_ =? page_url 3)%string; discriminate. }
  split; [exact Hweb|].
  destruct (main_writes_file example_web
              {| outside := initial_world; files := [] |} Hweb)
    as (m' & Hmain & Hfile & _).
  exists m'. split; assumption.
Defined.

(** An exception of [requests] that is neither a connection error nor a
    read timeout ends [main] as it ends the scan: [main] raises it, no
    file is written or changed, not even with the records of the
    identifiers before, and nothing is printed about the file. *)
Theorem main_aborts
  (requests_get : string -> Response + requests_exn) (k : Z) (m : machine) :
  1 <= k < LAST_ID ->
  requests_get (page_url k) = inr OtherRequestException ->
  (forall id_, 1 <= id_ < k ->
               requests_get (page_url id_) <> inr OtherRequestException) ->
  main requests_get m
  = (Raise (Requests OtherRequestException),
     {| outside :=
          {| requested :=
               (requested (outside m)
                ++ map page_url (range 1 (k + 1)))%list;
             stdout := stdout (outside m) ++ "Starting Scraper..." ++ newline
                       ++ console requests_get (range 1 k)
                       ++ "Scraping id " ++ Py.str k ++ "..." ++ tab |};
        files := files m |}).
Proof.
  intros Hk Hother Hbefore. unfold main.
  now rewrite (scrape_stops_from requests_get k (outside m) Hk Hother Hbefore).
Qed.

Lemma main_aborts_witness :
  1 <= 2 < LAST_ID /\
  (fun url : string =>
     if (url =? page_url 2)%string then inr OtherRequestException
     else example_web url) (page_url 2) = inr OtherRequestException /\
  fst (main
         (fun url : string =>
            if (url =? page_url 2)%string then inr OtherRequestException
            else example_web url)
         {| outside := initial_world; files := [("notes.txt", "kept")] |})
  = Raise (Requests OtherRequestException) /\
  files
    (snd (main
            (fun url : string =>
               if (url =? page_url 2)%string then inr OtherRequestException
               else example_web url)
            {| outside := initial_world; files := [("notes.txt", "kept")] |}))
  = [("notes.txt", "kept")].
Proof.
  assert (1 <= 2 < LAST_ID) as Hk by (unfold LAST_ID; lia).
  refine (conj Hk (conj eq_refl _)).
  rewrite (main_aborts _ 2 _ Hk eq_refl).
  - split; reflexivity.
  - intros id_ Hid. assert (id_ = 1) as -> by lia. discriminate.
Defined.

(** On a page whose four sections are made of bolded values, the columns
    of the file get, under the names of the header: the salaries of the
    four years from the values 1, 3, 5 and 7 of section 10 and the times
    off from its values 2, 4, 6 and 8; the minimum scores from the values
    2 and 3 of section 27; the average scores from the values 1 and 2 of
    section 19; the residents in total, male and female from the values
    1, 4 and 3 of section 17. *)
Theorem csv_columns
  (page f10 f27 f19 f17 : string)
  (items10 items27 items19 items17 : list (string * string)) :
  scrape_section page 10 = Ok (f10 ++ bolded items10) ->
  scrape_section page 27 = Ok (f27 ++ bolded items27) ->
  scrape_section page 19 = Ok (f19 ++ bolded items19) ->
  scrape_section page 17 = Ok (f17 ++ bolded items17) ->
  well_bolded f10 items10 = true ->
  well_bolded f27 items27 = true ->
  well_bolded f19 items19 = true ->
  well_bolded f17 items17 = true ->
  exists r,
    parse_residency_info page = Ok r /\
    (row <- row_of r ;; Ok (combine headers row))
    = Ok [("Name", name r);
          ("State", state r);
          ("City", city r);
          ("Salary PG1", value items10 1);
          ("Salary PG2", value items10 3);
          ("Salary PG3", value items10 5);
          ("Salary PG4", value items10 7);
          ("PTO PG1", value items10 2);
          ("PTO PG2", value items10 4);
          ("PTO PG3", value items10 6);
          ("PTO PG4", value items10 8);
          ("Min Step 1 Score", value items27 2);
          ("Min Step 2 Score", value items27 3);
          ("Avg. Step 1 Score", value items19 1);
          ("Avg. Step 2 Score", value items19 2);
          ("Residents (Total)", value items17 1);
          ("Residents (Male)", value items17 4);
          ("Residents (Female)", value items17 3);
          ("Last Updated", last_updated r)].
Proof.
  intros H10 H27 H19 H17 Hwb10 Hwb27 Hwb19 Hwb17.
  eexists. split.
  - rewrite parse_residency_info_eq, H10, H27, H19, H17. reflexivity.
  - rewrite row_of_long_enough by apply assemble_long_enough.
    unfold columns, assemble.
    cbn [bind name state city salary pto min_step_scores avg_step_scores
           resident_demographics total male female last_updated nth].
    rewrite !(bold_value _ _ _ Hwb10), !(bold_value _ _ _ Hwb27),
      !(bold_value _ _ _ Hwb19), !(bold_value _ _ _ Hwb17) by lia.
    reflexivity.
Qed.

Lemma csv_columns_witness :
  scrape_section example_page 10
  = Ok ("Salary and vacation: " ++ bolded example_items_10) /\
  scrape_section example_page 27
  = Ok ("Minimum scores: " ++ bolded example_items_27) /\
  scrape_section example_page 19
  = Ok ("Average scores: " ++ bolded example_items_19) /\
  scrape_section example_page 17
  = Ok ("Residents: " ++ bolded example_items_17) /\
  well_bolded "Salary and vacation: " example_items_10 = true /\
  well_bolded "Minimum scores: " example_items_27 = true /\
  well_bolded "Average scores: " example_items_19 = true /\
  well_bolded "Residents: " example_items_17 = true /\
  exists r,
    parse_residency_info example_page = Ok r /\
    (row <- row_of r ;; Ok (combine headers row))
    = Ok [("Name", name r);
          ("State", state r);
          ("City", city r);
          ("Salary PG1", "50000");
          ("Salary PG2", "52000");
          ("Salary PG3", "54000");
          ("Salary PG4", "56000");
          ("PTO PG1", "10");
          ("PTO PG2", "12");
          ("PTO PG3", "14");
          ("PTO PG4", "16");
          ("Min Step 1 Score", "200");
          ("Min Step 2 Score", "210");
          ("Avg. Step 1 Score", "230");
          ("Avg. Step 2 Score", "240");
          ("Residents (Total)", "20");
          ("Residents (Male)", "8");
          ("Residents (Female)", "12");
          ("Last Updated", last_updated r)].
Proof.
  assert (scrape_section example_page 10
          = Ok ("Salary and vacation: " ++ bolded example_items_10)) as H10
      by (vm_compute; reflexivity).
  assert (scrape_section example_page 27
          = Ok ("Minimum scores: " ++ bolded example_items_27)) as H27
      by (vm_compute; reflexivity).
  assert (scrape_section example_page 19
          = Ok ("Average scores: " ++ bolded example_items_19)) as H19
      by (vm_compute; reflexivity).
  assert (scrape_section example_page 17
          = Ok ("Residents: " ++ bolded example_items_17)) as H17
      by (vm_compute; reflexivity).
  assert (well_bolded "Salary and vacation: " example_items_10 = true)
    as Hwb10 by (vm_compute; reflexivity).
  assert (well_bolded "Minimum scores: " example_items_27 = true)
    as Hwb27 by (vm_compute; reflexivity).
  assert (well_bolded "Average scores: " example_items_19 = true)
    as Hwb19 by (vm_compute; reflexivity).
  assert (well_bolded "Residents: " example_items_17 = true)
    as Hwb17 by (vm_compute; reflexivity).
  refine (conj H10 (conj H27 (conj H19 (conj H17
            (conj Hwb10 (conj Hwb27 (conj Hwb19 (conj Hwb17 _)))))))).
  exact (csv_columns example_page _ _ _ _ _ _ _ _
           H10 H27 H19 H17 Hwb10 Hwb27 Hwb19 Hwb17).
Defined.

(** ** Reading the file back *)

Lemma special_false (c : ascii) :
  Csv.special c = false ->
  Ascii.eqb c Csv.delimiter = false /\ Ascii.eqb c Csv.quotechar = false /\
  Ascii.eqb c "013" = false /\ Ascii.eqb c "010" = false.
Proof.
  unfold Csv.special. rewrite !orb_false_iff. tauto.
Qed.

Lemma double_quotes_plain (d : string) :
  Csv.has_special d = false -> Csv.double_quotes d = d.
Proof.
  induction d as [|c d IH]; [reflexivity|].
  cbn [Csv.has_special Csv.double_quotes]. rewrite orb_false_iff.
  intros [Hc Hd]. apply special_false in Hc. destruct Hc as (_ & -> & _).
  now rewrite IH.
Qed.

Lemma scan_plain_end (d : string) :
  Csv.has_special d = false ->
  scan InPlain (d ++ Csv.lineterminator) = [d].
Proof.
  induction d as [|c d IH]; [reflexivity|].
  cbn [Csv.has_special]. rewrite orb_false_iff. intros [Hc Hd].
  apply special_false in Hc. destruct Hc as (Hc1 & _ & Hc2 & _).
  change (String c d ++ Csv.lineterminator)
    with (String c (d ++ Csv.lineterminator)).
  cbn [scan]. rewrite Hc1, Hc2, IH by assumption. reflexivity.
Qed.

Lemma scan_plain_next (d x : string) :
  Csv.has_special d = false ->
  scan InPlain (d ++ String Csv.delimiter x) = d :: scan AtStart x.
Proof.
  induction d as [|c d IH]; [reflexivity|].
  cbn [Csv.has_special]. rewrite orb_false_iff. intros [Hc Hd].
  apply special_false in Hc. destruct Hc as (Hc1 & _ & Hc2 & _).
  change (String c d ++ String Csv.delimiter x)
    with (String c (d ++ String Csv.delimiter x)).
  cbn [scan]. rewrite Hc1, Hc2, IH by assumption. reflexivity.
Qed.

Lemma scan_start_end (d : string) :
  Csv.has_special d = false ->
  scan AtStart (d ++ Csv.lineterminator) = [d].
Proof.
  destruct d as [|c d]; [reflexivity|].
  cbn [Csv.has_special]. rewrite orb_false_iff. intros [Hc Hd].
  apply special_false in Hc. destruct Hc as (Hc1 & Hc0 & Hc2 & _).
  change (String c d ++ Csv.lineterminator)
    with (String c (d ++ Csv.lineterminator)).
  cbn [scan]. rewrite Hc0, Hc1, Hc2, scan_plain_end by assumption.
  reflexivity.
Qed.

Lemma scan_start_next (d x : string) :
  Csv.has_special d = false ->
  scan AtStart (d ++ String Csv.delimiter x) = d :: scan AtStart x.
Proof.
  destruct d as [|c d]; [reflexivity|].
  cbn [Csv.has_special]. rewrite orb_false_iff. intros [Hc Hd].
  apply special_false in Hc. destruct Hc as (Hc1 & Hc0 & Hc2 & _).
  change (String c d ++ String Csv.delimiter x)
    with (String c (d ++ String Csv.delimiter x)).
  cbn [scan]. rewrite Hc0, Hc1, Hc2, scan_plain_next by assumption.
  reflexivity.
Qed.

Lemma scan_quoted_end (d : string) :
  scan InQuoted
    (Csv.double_quotes d ++ String Csv.quotechar Csv.lineterminator)
  = [d].
Proof.
  induction d as [|c d IH]; [reflexivity|].
  cbn [Csv.double_quotes].
  destruct (Ascii.eqb c Csv.quotechar) eqn:E.
  - apply Ascii.eqb_eq in E. subst c.
    change (String Csv.quotechar
              (String Csv.quotechar (Csv.double_quotes d))
            ++ String Csv.quotechar Csv.lineterminator)
      with (String Csv.quotechar
              (String Csv.quotechar
                 (Csv.double_quotes d
                  ++ String Csv.quotechar Csv.lineterminator))).
    cbn [scan]. rewrite Ascii.eqb_refl, IH. reflexivity.
  - change (String c (Csv.double_quotes d)
            ++ String Csv.quotechar Csv.lineterminator)
      with (String c (Csv.double_quotes d
                      ++ String Csv.quotechar Csv.lineterminator)).
    cbn [scan]. rewrite E, IH. reflexivity.
Qed.

Lemma scan_quoted_next (d x : string) :
  scan InQuoted
    (Csv.double_quotes d
     ++ String Csv.quotechar (String Csv.delimiter x))
  = d :: scan AtStart x.
Proof.
  induction d as [|c d IH]; [reflexivity|].
  cbn [Csv.double_quotes].
  destruct (Ascii.eqb c Csv.quotechar) eqn:E.
  - apply Ascii.eqb_eq in E. subst c.
    change (String Csv.quotechar
              (String Csv.quotechar (Csv.double_quotes d))
            ++ String Csv.quotechar (String Csv.delimiter x))
      with (String Csv.quotechar
              (String Csv.quotechar
                 (Csv.double_quotes d
                  ++ String Csv.quotechar (String Csv.delimiter x)))).
    cbn [scan]. rewrite Ascii.eqb_refl, IH. reflexivity.
  - change (String c (Csv.double_quotes d)
            ++ String Csv.quotechar (String Csv.delimiter x))
      with (String c (Csv.double_quotes d
                      ++ String Csv.quotechar (String Csv.delimiter x))).
    cbn [scan]. rewrite E, IH. reflexivity.
Qed.

Lemma scan_field_end (q : bool) (s : string) :
  scan AtStart (Csv.field q s ++ Csv.lineterminator) = [Csv.until_nul s].
Proof.
  unfold Csv.field. cbv zeta.
  destruct (Csv.has_special (Csv.until_nul s)
            || q && match Csv.until_nul s with "" => true | _ => false end)
    eqn:E.
  - change (String Csv.quotechar
              (Csv.double_quotes (Csv.until_nul s)
               ++ String Csv.quotechar "") ++ Csv.lineterminator)
      with (String Csv.quotechar
              ((Csv.double_quotes (Csv.until_nul s)
                ++ String Csv.quotechar "") ++ Csv.lineterminator)).
    rewrite append_assoc.
    change (String Csv.quotechar "" ++ Csv.lineterminator)
      with (String Csv.quotechar Csv.lineterminator).
    cbn [scan]. rewrite Ascii.eqb_refl. apply scan_quoted_end.
  - apply orb_false_iff in E. destruct E as [E _].
    rewrite double_quotes_plain by assumption.
    now apply scan_start_end.
Qed.

Lemma scan_field_next (q : bool) (s x : string) :
  scan AtStart (Csv.field q s ++ String Csv.delimiter x)
  = Csv.until_nul s :: scan AtStart x.
Proof.
  unfold Csv.field. cbv zeta.
  destruct (Csv.has_special (Csv.until_nul s)
            || q && match Csv.until_nul s with "" => true | _ => false end)
    eqn:E.
  - change (String Csv.quotechar
              (Csv.double_quotes (Csv.until_nul s)
               ++ String Csv.quotechar "") ++ String Csv.delimiter x)
      with (String Csv.quotechar
              ((Csv.double_quotes (Csv.until_nul s)
                ++ String Csv.quotechar "") ++ String Csv.delimiter x)).
    rewrite append_assoc.
    change (String Csv.quotechar "" ++ String Csv.delimiter x)
      with (String Csv.quotechar (String Csv.delimiter x)).
    cbn [scan]. rewrite Ascii.eqb_refl. apply scan_quoted_next.
  - apply orb_false_iff in E. destruct E as [E _].
    rewrite double_quotes_plain by assumption.
    now apply scan_start_next.
Qed.

Lemma scan_fields (q : bool) (a : string) (l : list string) :
  scan AtStart
    (String.concat (String Csv.delimiter "") (map (Csv.field q) (a :: l))
     ++ Csv.lineterminator)
  = map Csv.until_nul (a :: l).
Proof.
  revert a. induction l as [|b l IH]; intros a.
  - cbn [map String.concat]. apply scan_field_end.
  - change (String.concat (String Csv.delimiter "")
              (map (Csv.field q) (a :: b :: l)))
      with (Csv.field q a ++ String Csv.delimiter ""
            ++ String.concat (String Csv.delimiter "")
                 (map (Csv.field q) (b :: l))).
    rewrite !append_assoc.
    change (String Csv.delimiter ""
            ++ String.concat (String Csv.delimiter "")
                 (map (Csv.field q) (b :: l)) ++ Csv.lineterminator)
      with (String Csv.delimiter
              (String.concat (String Csv.delimiter "")
                 (map (Csv.field q) (b :: l)) ++ Csv.lineterminator)).
    rewrite scan_field_next, IH. reflexivity.
Qed.

(** The line of a row that is not empty does not start with the end of
    line. *)
Lemma writerow_head (a : string) (l : list string) :
  exists c rest,
    Csv.writerow (a :: l) = String c rest /\ Ascii.eqb c "013" = false.
Proof.
  unfold Csv.writerow.
  set (q := (List.length (a :: l) =? 1)%nat).
  assert (l <> [] -> q = false) as Hq.
  { destruct l; [congruence|reflexivity]. }
  assert (exists c rest,
             Csv.field q a
             ++ match l with [] => "" | _ :: _ => String Csv.delimiter "" end
             = String c rest /\ Ascii.eqb c "013" = false) as (c & rest & E & Hc).
  { unfold Csv.field. cbv zeta.
    destruct (Csv.has_special (Csv.until_nul a)) eqn:Hsp; cbn [orb].
    - eexists _, _. split; reflexivity.
    - destruct (Csv.until_nul a) as [|c d] eqn:Hd.
      + destruct l as [|b l].
        * cbn [List.length Nat.eqb] in q. subst q. cbn [andb].
          eexists _, _. split; reflexivity.
        * rewrite Hq by discriminate. cbn [andb Csv.double_quotes].
          eexists _, _. split; reflexivity.
      + rewrite andb_false_r.
        cbn [Csv.has_special] in Hsp. apply orb_false_iff in Hsp.
        destruct Hsp as [Hc Hsp]. apply special_false in Hc.
        destruct Hc as (_ & Hc0 & Hc2 & _).
        cbn [Csv.double_quotes]. rewrite Hc0.
        eexists _, _. split; [reflexivity | exact Hc2]. }
  destruct l as [|b l].
  - cbn [map String.concat]. rewrite append_nil_r in E. rewrite E.
    eexists _, _. split; [reflexivity | exact Hc].
  - change (String.concat (String Csv.delimiter "")
              (map (Csv.field q) (a :: b :: l)))
      with (Csv.field q a ++ String Csv.delimiter ""
            ++ String.concat (String Csv.delimiter "")
                 (map (Csv.field q) (b :: l))).
    rewrite <- (append_assoc (Csv.field q a)), E.
    eexists _, _. split; [reflexivity | exact Hc].
Qed.

Lemma read_writerow (row : list string) :
  read_row (Csv.writerow row) = map Csv.until_nul row.
Proof.
  destruct row as [|a l]; [reflexivity|].
  destruct (writerow_head a l) as (c & rest & E & Hc).
  unfold read_row. rewrite E, Hc. rewrite <- E.
  apply scan_fields.
Qed.

Lemma decode_encode_char (c : ascii) (t : string) :
  decode_utf8 (encode_char c ++ t) = String c (decode_utf8 t).
Proof.
  destruct c as [b0 b1 b2 b3 b4 b5 b6 b7].
  destruct b0, b1, b2, b3, b4, b5, b6, b7; reflexivity.
Qed.

Lemma decode_encode_utf8 (s : string) : decode_utf8 (encode_utf8 s) = s.
Proof.
  induction s as [|c s IH]; [reflexivity|].
  cbn [encode_utf8]. now rewrite decode_encode_char, IH.
Qed.

Lemma until_nul_encode_char (c : ascii) (t : string) :
  Csv.until_nul (encode_char c ++ t)
  = if Ascii.eqb c "000" then "" else encode_char c ++ Csv.until_nul t.
Proof.
  destruct c as [b0 b1 b2 b3 b4 b5 b6 b7].
  destruct b0, b1, b2, b3, b4, b5, b6, b7; reflexivity.
Qed.

Lemma until_nul_encode_utf8 (s : string) :
  Csv.until_nul (encode_utf8 s) = encode_utf8 (Csv.until_nul s).
Proof.
  induction s as [|c s IH]; [reflexivity|].
  cbn [encode_utf8 Csv.until_nul]. rewrite until_nul_encode_char.
  destruct (Ascii.eqb c "000"); [reflexivity|].
  cbn [encode_utf8]. now rewrite IH.
Qed.

Lemma read_encoded_row (row : list string) :
  map decode_utf8 (read_row (Csv.writerow (map encode_utf8 row)))
  = map Csv.until_nul row.
Proof.
  rewrite read_writerow, !map_map.
  apply map_ext. intros s.
  now rewrite until_nul_encode_utf8, decode_encode_utf8.
Qed.

(** A line of the file holds its fields without loss, up to the first NUL
    of each: undoing the quoting of the writer gives back the fields of
    the row, whatever commas, quotes and line ends they hold, and the
    empty row and the row of one empty field have different lines;
    decoding the bytes of an encoded text gives back the text; so the
    line of a record reads back as its nineteen columns. *)
Theorem csv_line_read_back :
  (forall row, read_row (Csv.writerow row) = map Csv.until_nul row) /\
  Csv.writerow [] <> Csv.writerow [""] /\
  (forall s, decode_utf8 (encode_utf8 s) = s) /\
  (forall r, map decode_utf8 (read_row (csv_line r))
             = map Csv.until_nul (columns r)).
Proof.
  split; [exact read_writerow|].
  split; [discriminate|].
  split; [exact decode_encode_utf8|].
  intros r. apply read_encoded_row.
Qed.

(** Two rows that [generate_csv] writes as the same line have the same
    fields, up to the first NUL of each field: quoting and encoding never
    make two different rows look alike. *)
Theorem csv_line_injective (row row' : list string) :
  Csv.writerow (map encode_utf8 row) = Csv.writerow (map encode_utf8 row') ->
  map Csv.until_nul row = map Csv.until_nul row'.
Proof.
  intros H. rewrite <- (read_encoded_row row), <- (read_encoded_row row').
  now rewrite H.
Qed.

Lemma csv_line_injective_witness :
  Csv.writerow (map encode_utf8 ["a,b"; String "c" (String "000" "d")])
  = Csv.writerow (map encode_utf8 ["a,b"; "c"]) /\
  map Csv.until_nul ["a,b"; String "c" (String "000" "d")]
  = map Csv.until_nul ["a,b"; "c"].
Proof.
  assert (Csv.writerow
            (map encode_utf8 ["a,b"; String "c" (String "000" "d")])
          = Csv.writerow (map encode_utf8 ["a,b"; "c"])) as H
      by reflexivity.
  exact (conj H (csv_line_injective _ _ H)).
Defined.
